(** * Arcmonitor: the sampling and capture engine of [JarvisMonitor]

    A shallow embedding of [src/Arcmonitor.py].  The three background loops
    ([monitor_system], [monitor_activities], [monitor_videos]) are modelled one
    iteration at a time as functions on the fields of the [JarvisMonitor]
    object, the SQLite tables and the artifact directories.  Everything the
    program obtains from outside (the clock, the window API, the screen
    grabber, the OCR engine, the video writer, psutil, the SQLite connection)
    is handed to an iteration as a record of the answers the outside gives
    during it; a call that can raise answers with an [outcome]. *)

From Stdlib Require Import ZArith NArith List Bool Lia.
From Stdlib.Strings Require Import String Ascii Byte.
From Stdlib Require Import DecimalString Sorted Permutation QArith_base.
From Stdlib Require OrderedTypeEx.
Import ListNotations.
Local Open Scope string_scope.
Local Open Scope list_scope.
Local Open Scope Z_scope.

(** ** Python values used by the program *)

(** The result of a Python call that may raise an [Exception]. *)
Inductive outcome (A : Type) : Type :=
| Returned (a : A)
| Raised.
Arguments Returned {A} a.
Arguments Raised {A}.

(** Truth value of an optional string in a Python [if]: [None] and the empty
    string are false. *)
Definition truthy (v : option string) : bool :=
  match v with
  | None => false
  | Some s => negb (s =? "")%string
  end.

(** *** datetime *)

(** A naive [datetime], by its fields as Python stores them. *)
Record datetime : Type := mk_datetime {
  year : Z; month : Z; day : Z;
  hour : Z; minute : Z; second : Z; microsecond : Z
}.

Definition is_leap (y : Z) : bool :=
  (y mod 4 =? 0) && (negb (y mod 100 =? 0) || (y mod 400 =? 0)).

Definition days_before_year (y : Z) : Z :=
  let p := y - 1 in p * 365 + p / 4 - p / 100 + p / 400.

Definition days_before_month (y m : Z) : Z :=
  nth (Z.to_nat (m - 1)) [0; 31; 59; 90; 120; 151; 181; 212; 243; 273; 304; 334] 0
  + (if (2 <? m) && is_leap y then 1 else 0).

Definition toordinal (d : datetime) : Z :=
  days_before_year (year d) + days_before_month (year d) (month d) + day d.

(** Position of a datetime on the time line, in microseconds. *)
Definition to_microseconds (d : datetime) : Z :=
  ((toordinal d * 86400 + hour d * 3600 + minute d * 60 + second d) * 1000000)
  + microsecond d.

(** [a - b]: a [timedelta], kept as its exact number of microseconds.
    The program only compares [(a - b).total_seconds()] with the integer
    constants of the configuration; the quotient by 10^6 is correctly rounded
    and the constants are exact, so each such comparison agrees with the
    comparison of the microsecond count with [seconds n]. *)
Definition timedelta : Type := Z.

Definition dt_sub (a b : datetime) : timedelta :=
  to_microseconds a - to_microseconds b.

Definition seconds (n : Z) : timedelta := n * 1000000.

(** [%0wd] for a non-negative number. *)
Definition zero_pad (width : nat) (n : Z) : string :=
  let digits := NilZero.string_of_uint (N.to_uint (Z.to_N n)) in
  string_of_list_ascii (repeat "0"%char (width - String.length digits)) ++ digits.

(** [d.isoformat()]: the fraction is printed only when it is not zero. *)
Definition isoformat (d : datetime) : string :=
  zero_pad 4 (year d) ++ "-" ++ zero_pad 2 (month d) ++ "-" ++ zero_pad 2 (day d)
  ++ "T" ++ zero_pad 2 (hour d) ++ ":" ++ zero_pad 2 (minute d) ++ ":"
  ++ zero_pad 2 (second d)
  ++ (if microsecond d =? 0 then "" else "." ++ zero_pad 6 (microsecond d)).

(** [d.strftime("%Y%m%d_%H%M%S")].  Python hands the format to the C library
    of the host, and [%Y] is the one directive of this format on which the
    libraries differ: some pad the year to four digits, glibc prints it as it
    is, which shows for the years below 1000.  [pads_year] says what the host
    does. *)
Definition strftime_compact (pads_year : bool) (d : datetime) : string :=
  zero_pad (if pads_year then 4 else 1) (year d)
  ++ zero_pad 2 (month d) ++ zero_pad 2 (day d) ++ "_"
  ++ zero_pad 2 (hour d) ++ zero_pad 2 (minute d) ++ zero_pad 2 (second d).

(** *** strings and bytes *)

(** [os.path.join] of relative components, for the separator of the host. *)
Fixpoint os_path_join (sep : string) (parts : list string) : string :=
  match parts with
  | [] => ""
  | [p] => p
  | p :: rest => p ++ sep ++ os_path_join sep rest
  end.

(** A Python [str] is kept as its UTF-8 bytes.  The white space [str.strip()]
    removes is what [str.isspace] accepts: within ASCII, TAB to CR, FS to US
    and the space; beyond it U+0085, U+00A0, U+1680, U+2000 to U+200A, U+2028,
    U+2029, U+202F, U+205F and U+3000, which take two or three bytes. *)
Definition is_space (c : ascii) : bool :=
  let n := N_of_ascii c in
  ((9 <=? n) && (n <=? 13) || (28 <=? n) && (n <=? 32))%N.

(** Number of bytes of the white-space character [s] starts with; 0 when it
    starts with none. *)
Definition space_width (s : string) : nat :=
  match s with
  | EmptyString => 0
  | String c rest =>
      if is_space c then 1
      else
        match N_of_ascii c, rest with
        | 194%N, String d _ =>
            let d := N_of_ascii d in
            if ((d =? 133) || (d =? 160))%N then 2 else 0
        | 225%N, String d (String e _) =>
            if ((N_of_ascii d =? 154) && (N_of_ascii e =? 128))%N then 3 else 0
        | 226%N, String d (String e _) =>
            let d := N_of_ascii d in
            let e := N_of_ascii e in
            if ((d =? 128)
                && ((128 <=? e) && (e <=? 138) || (e =? 168) || (e =? 169)
                    || (e =? 175))
                || (d =? 129) && (e =? 159))%N
            then 3 else 0
        | 227%N, String d (String e _) =>
            if ((N_of_ascii d =? 128) && (N_of_ascii e =? 128))%N then 3 else 0
        | _, _ => 0
        end
  end%nat.

Fixpoint drop (n : nat) (s : string) : string :=
  match n, s with
  | S k, String _ rest => drop k rest
  | _, _ => s
  end.

Fixpoint lstrip_within (fuel : nat) (s : string) : string :=
  match fuel with
  | O => s
  | S fuel' =>
      match space_width s with
      | O => s
      | k => lstrip_within fuel' (drop k s)
      end
  end.

Definition lstrip (s : string) : string := lstrip_within (String.length s) s.

(** [s] is made of white space only. *)
Definition all_space (s : string) : bool :=
  match lstrip s with
  | EmptyString => true
  | _ => false
  end.

Fixpoint rstrip (s : string) : string :=
  match s with
  | EmptyString => EmptyString
  | String c rest => if all_space s then EmptyString else String c (rstrip rest)
  end.

Definition strip (s : string) : string := rstrip (lstrip s).

Definition b64_alphabet : string :=
  "ABCDEFGHIJKLMNOPQRSTUVWXYZabcdefghijklmnopqrstuvwxyz0123456789+/".

Definition b64_char (n : N) : ascii :=
  match String.get (N.to_nat n) b64_alphabet with
  | Some c => c
  | None => "="%char
  end.

(** [base64.b64encode(bs).decode()] *)
Fixpoint b64encode (bs : list byte) : string :=
  match bs with
  | [] => ""
  | [a] =>
      let n := (Byte.to_N a * 65536)%N in
      String (b64_char (n / 262144)) (String (b64_char ((n / 4096) mod 64)) "==")
  | [a; b] =>
      let n := (Byte.to_N a * 65536 + Byte.to_N b * 256)%N in
      String (b64_char (n / 262144)) (String (b64_char ((n / 4096) mod 64))
        (String (b64_char ((n / 64) mod 64)) "="))
  | a :: b :: c :: rest =>
      let n := (Byte.to_N a * 65536 + Byte.to_N b * 256 + Byte.to_N c)%N in
      String (b64_char (n / 262144)) (String (b64_char ((n / 4096) mod 64))
        (String (b64_char ((n / 64) mod 64)) (String (b64_char (n mod 64))
          (b64encode rest))))
  end.

(** ** Configuration *)

Definition DATA_DIR : string := "JARVIS_DATA".
Definition SCREENSHOT_INTERVAL_ACTIVE : Z := 30.
Definition INACTIVITY_THRESHOLD : Z := 60.
Definition VIDEO_INTERVAL : Z := 1800.
Definition VIDEO_DURATION : Z := 10.
Definition OCR_ENABLED : bool := true.

(** ** The store, the artifact directories and the trace *)

(** Rows of the three tables of [DB_SCHEMA]; the [id] of a row is its position
    in the table.  A [timestamp] holds the text the program binds there (the
    result of [isoformat]); a [REAL] is kept as the rational number the float
    read from psutil denotes; [screenshot] holds what Python binds there, a
    string or [None]. *)
Record metric_row : Type := mk_metric_row {
  m_timestamp : string; m_cpu : Q; m_memory : Q;
  m_network_sent : Z; m_network_recv : Z
}.

Record activity_row : Type := mk_activity_row {
  a_timestamp : string; a_window_title : string; a_process_name : string;
  a_screenshot : option string; a_ocr_text : string; a_active_session : bool
}.

Record video_row : Type := mk_video_row {
  v_timestamp : string; v_duration : Z; v_file_path : string
}.

Record database : Type := mk_database {
  metrics : list metric_row;
  activities : list activity_row;
  videos : list video_row
}.

(** What a file under [DATA_DIR] holds. *)
Inductive artifact : Type :=
| JpegFile (content : list byte)
| Mp4File (frames : nat) (released : bool).

Definition files : Type := list (string * artifact).

Definition write_file (path : string) (a : artifact) (d : files) : files :=
  filter (fun e => negb (fst e =? path)%string) d ++ [(path, a)].

(** Calls to the outside that leave no other mark on the state. *)
Inductive event : Type :=
| EvSleep (milliseconds : Z)
| EvPrint (message : string)
| EvGrabScreen
| EvOcr
| EvOpenDisplay
| EvGrabFrame
| EvReleaseWriter
| EvCommit (table : string).

(** ** The monitor object *)

Record JarvisMonitor : Type := mk_monitor {
  stop_event : bool;
  monitoring_enabled : bool;
  last_activity : datetime;
  last_screenshot : datetime;
  last_video : datetime;
  current_window : string * string;
  db : database;
  disk : files;
  trace : list event
}.

Definition set_stop_event (v : bool) (s : JarvisMonitor) : JarvisMonitor :=
  mk_monitor v (monitoring_enabled s) (last_activity s) (last_screenshot s)
    (last_video s) (current_window s) (db s) (disk s) (trace s).

Definition set_monitoring_enabled (v : bool) (s : JarvisMonitor) : JarvisMonitor :=
  mk_monitor (stop_event s) v (last_activity s) (last_screenshot s)
    (last_video s) (current_window s) (db s) (disk s) (trace s).

Definition set_last_activity (v : datetime) (s : JarvisMonitor) : JarvisMonitor :=
  mk_monitor (stop_event s) (monitoring_enabled s) v (last_screenshot s)
    (last_video s) (current_window s) (db s) (disk s) (trace s).

Definition set_last_screenshot (v : datetime) (s : JarvisMonitor) : JarvisMonitor :=
  mk_monitor (stop_event s) (monitoring_enabled s) (last_activity s) v
    (last_video s) (current_window s) (db s) (disk s) (trace s).

Definition set_last_video (v : datetime) (s : JarvisMonitor) : JarvisMonitor :=
  mk_monitor (stop_event s) (monitoring_enabled s) (last_activity s)
    (last_screenshot s) v (current_window s) (db s) (disk s) (trace s).

Definition set_current_window (v : string * string) (s : JarvisMonitor) : JarvisMonitor :=
  mk_monitor (stop_event s) (monitoring_enabled s) (last_activity s)
    (last_screenshot s) (last_video s) v (db s) (disk s) (trace s).

Definition set_db (v : database) (s : JarvisMonitor) : JarvisMonitor :=
  mk_monitor (stop_event s) (monitoring_enabled s) (last_activity s)
    (last_screenshot s) (last_video s) (current_window s) v (disk s) (trace s).

Definition set_disk (v : files) (s : JarvisMonitor) : JarvisMonitor :=
  mk_monitor (stop_event s) (monitoring_enabled s) (last_activity s)
    (last_screenshot s) (last_video s) (current_window s) (db s) v (trace s).

Definition set_trace (v : list event) (s : JarvisMonitor) : JarvisMonitor :=
  mk_monitor (stop_event s) (monitoring_enabled s) (last_activity s)
    (last_screenshot s) (last_video s) (current_window s) (db s) (disk s) v.

(** [ActivityState] of the specification: the four fields the activity and
    video loops own. *)
Definition activity_state (s : JarvisMonitor)
  : (string * string) * datetime * datetime * datetime :=
  (current_window s, last_activity s, last_screenshot s, last_video s).

(** ** Methods as state transformers that may raise *)

Definition M (A : Type) : Type := JarvisMonitor -> JarvisMonitor * outcome A.

Definition ret {A : Type} (a : A) : M A := fun s => (s, Returned a).

Definition bind {A B : Type} (m : M A) (k : A -> M B) : M B :=
  fun s =>
    match m s with
    | (s', Returned a) => k a s'
    | (s', Raised) => (s', Raised)
    end.

Declare Scope py_scope.
Delimit Scope py_scope with py.
Notation "x <- m ;; k" := (bind m (fun x => k))
  (at level 100, m at next level, right associativity) : py_scope.
Notation "m ;; k" := (bind m (fun _ => k))
  (at level 100, right associativity) : py_scope.
Local Open Scope py_scope.

(** A call to the outside, answered by [o]. *)
Definition call {A : Type} (o : outcome A) : M A := fun s => (s, o).

Definition gets {A : Type} (f : JarvisMonitor -> A) : M A :=
  fun s => (s, Returned (f s)).

Definition modify (f : JarvisMonitor -> JarvisMonitor) : M unit :=
  fun s => (f s, Returned tt).

Definition emit (e : event) : M unit :=
  modify (fun s => set_trace (trace s ++ [e]) s).

(** [try: body except Exception: handler] (and the bare [except:], no other
    kind of exception being modelled).  What [body] did before it raised
    stays done. *)
Definition try_except {A : Type} (body handler : M A) : M A :=
  fun s =>
    match body s with
    | (s', Returned a) => (s', Returned a)
    | (s', Raised) => handler s'
    end.

(** [with enter as x: body].  The exit runs on both ways out; after a raise
    in [body] it cannot turn the exception into a return. *)
Definition with_context {A : Type} (enter leave : outcome unit) (body : M A) : M A :=
  call enter ;;
  fun s =>
    match body s with
    | (s', Returned a) => (call leave ;; ret a) s'
    | (s', Raised) => (s', Raised)
    end.

Definition sleep (milliseconds : Z) : M unit := emit (EvSleep milliseconds).
Definition print (message : string) : M unit := emit (EvPrint message).

Definition raise {A : Type} : M A := fun s => (s, Raised).

(** An [INTEGER] of SQLite has 64 bits; [sqlite3] raises [OverflowError] when
    it is given a Python [int] outside that range to bind.  The counters of
    psutil are the only integers the program binds that it does not choose
    itself. *)
Definition fits_int64 (n : Z) : bool :=
  (- 2 ^ 63 <=? n) && (n <? 2 ^ 63).

(** [with self.db_lock: self.db.execute(INSERT ...); self.db.commit()].
    [answer] is what the connection does with the statement and its commit:
    it stores the row, or it raises and the row is not stored.  The statement
    raises on a connection closed by [shutdown]; a commit that fails for lack
    of space or on an I/O error makes SQLite roll the transaction back.  (A
    commit refused because another process holds the file would leave the
    row pending; the program is the only user of its file.) *)
Definition insert_metric (answer : outcome unit) (r : metric_row) : M unit :=
  (if fits_int64 (m_network_sent r) && fits_int64 (m_network_recv r)
   then call answer else raise) ;;
  modify (fun s => set_db (mk_database (metrics (db s) ++ [r])
                             (activities (db s)) (videos (db s))) s) ;;
  emit (EvCommit "metrics").

Definition insert_activity (answer : outcome unit) (r : activity_row) : M unit :=
  call answer ;;
  modify (fun s => set_db (mk_database (metrics (db s))
                             (activities (db s) ++ [r]) (videos (db s))) s) ;;
  emit (EvCommit "activities").

Definition insert_video (answer : outcome unit) (r : video_row) : M unit :=
  call answer ;;
  modify (fun s => set_db (mk_database (metrics (db s)) (activities (db s))
                             (videos (db s) ++ [r])) s) ;;
  emit (EvCommit "videos").

Definition save (path : string) (a : artifact) : M unit :=
  modify (fun s => set_disk (write_file path a (disk s)) s).

(** ** What the outside answers *)

(** Answers of [platform] and [win32gui] during one [get_active_window]. *)
Record window_world : Type := mk_window_world {
  platform_system : outcome string;
  import_win32gui : outcome unit;
  GetForegroundWindow : outcome Z;
  GetWindowText : Z -> outcome string
}.

(** A grabbed PIL image, by what the library calls made on it answer. *)
Record image : Type := mk_image {
  save_jpeg : outcome (list byte);
  convert_L : outcome unit;
  image_to_string : outcome string;
  thumbnail : outcome unit;
  save_buffer : outcome (list byte)
}.

(** Answers during one [capture_screenshot]; [shot_sep] and
    [shot_pads_year] are the path separator of the host and what its
    [strftime] does with [%Y]. *)
Record screenshot_world : Type := mk_screenshot_world {
  shot_now : datetime;
  shot_sep : string;
  shot_pads_year : bool;
  ImageGrab_grab : outcome image
}.

(** Answers during one turn of the activity loop; [act_store] is the answer
    of the connection to the [INSERT] of the turn, if it gets there. *)
Record activity_world : Type := mk_activity_world {
  act_window : window_world;
  act_changed_at : datetime;
  act_now : datetime;
  act_shot : screenshot_world;
  act_store : outcome unit
}.

(** One turn of the frame loop of [record_video]. *)
Record frame_world : Type := mk_frame_world {
  sct_grab : outcome unit;
  cvtColor : outcome unit;
  out_write : outcome unit
}.

(** Answers during one [record_video]; [rec_frames] has one entry for each
    turn the clock lets the frame loop take within [VIDEO_DURATION].
    [VideoWriter] answers for [cv2.VideoWriter_fourcc] and the constructor
    together: they raise, or they return a writer, and the boolean is what
    [isOpened()] would say of it.  OpenCV does not raise when it cannot
    create the file or lacks the codec: it returns a writer that is not
    opened, on which [write] and [release] do nothing.  The program never
    asks. *)
Record video_world : Type := mk_video_world {
  rec_now : datetime;
  rec_sep : string;
  rec_pads_year : bool;
  mss_enter : outcome unit;
  monitors_1 : outcome (Z * Z);
  VideoWriter : outcome bool;
  rec_frames : list frame_world;
  out_release : outcome unit;
  rec_row_now : datetime;
  rec_store : outcome unit;
  mss_exit : outcome unit
}.

Record videos_world : Type := mk_videos_world {
  vid_now : datetime;
  vid_record : video_world;
  vid_after : datetime
}.

Record system_world : Type := mk_system_world {
  sys_now : datetime;
  cpu_percent : outcome Q;
  virtual_memory_percent : outcome Q;
  net_io_counters : outcome (Z * Z);
  sys_store : outcome unit
}.

(** ** Monitoring functions *)

Definition toggle_monitoring : M unit :=
  modify (fun s => set_monitoring_enabled (negb (monitoring_enabled s)) s).

Definition get_active_window (w : window_world) : M (string * string) :=
  try_except
    (sys <- call (platform_system w) ;;
     if (sys =? "Windows")%string then
       call (import_win32gui w) ;;
       hwnd <- call (GetForegroundWindow w) ;;
       title <- call (GetWindowText w hwnd) ;;
       ret (title, "Windows Process")
     else
       ret ("Terminal", "bash"))
    (ret ("Unknown", "Unknown")).

(** [a != b] on pairs of strings. *)
Definition window_neqb (a b : string * string) : bool :=
  negb ((fst a =? fst b)%string && (snd a =? snd b)%string).

Definition check_activity (w : window_world) (now : datetime) : M bool :=
  observed <- get_active_window w ;;
  stored <- gets current_window ;;
  if window_neqb observed stored then
    modify (set_current_window observed) ;;
    modify (set_last_activity now) ;;
    ret true
  else
    ret false.

(** [process_ocr] for a given value of the module constant [OCR_ENABLED]. *)
Definition process_ocr_when (enabled : bool) (img : image) : M string :=
  try_except
    (if enabled then
       emit EvOcr ;;
       call (convert_L img) ;;
       text <- call (image_to_string img) ;;
       ret (strip text)
     else
       ret "")
    (print "OCR Error" ;; ret "").

Definition process_ocr : image -> M string := process_ocr_when OCR_ENABLED.

Definition screenshot_path (w : screenshot_world) : string :=
  os_path_join (shot_sep w)
    [DATA_DIR; "screenshots";
     ("screenshot_" ++ strftime_compact (shot_pads_year w) (shot_now w)
      ++ ".jpg")%string].

(** [capture_screenshot], for a given value of [OCR_ENABLED].  A save that
    raises is taken to leave no file. *)
Definition capture_screenshot_when (enabled : bool) (w : screenshot_world)
  : M (option string * option string * string) :=
  try_except
    (let path := screenshot_path w in
     emit EvGrabScreen ;;
     img <- call (ImageGrab_grab w) ;;
     content <- call (save_jpeg img) ;;
     save path (JpegFile content) ;;
     ocr_text <- process_ocr_when enabled img ;;
     call (thumbnail img) ;;
     buffer <- call (save_buffer img) ;;
     let b64_img := b64encode buffer in
     ret (Some path, Some b64_img, ocr_text))
    (print "Screenshot error" ;; ret (None, None, "")).

Definition capture_screenshot : screenshot_world -> M (option string * option string * string) :=
  capture_screenshot_when OCR_ENABLED.

Definition activity_record (now : datetime) (window : string * string)
    (b64_img : option string) (ocr_text : string) : activity_row :=
  mk_activity_row (isoformat now) (fst window) (snd window) b64_img ocr_text true.

(** One turn of the [while] of [monitor_activities]. *)
Definition monitor_activities_turn (w : activity_world) : M unit :=
  try_except
    (enabled <- gets monitoring_enabled ;;
     if negb enabled then
       sleep 1000
     else
       activity_detected <- check_activity (act_window w) (act_changed_at w) ;;
       let now := act_now w in
       last <- gets last_activity ;;
       let inactive_time := dt_sub now last in
       (if inactive_time <? seconds INACTIVITY_THRESHOLD then
          shot <- gets last_screenshot ;;
          if dt_sub now shot >=? seconds SCREENSHOT_INTERVAL_ACTIVE then
            captured <- capture_screenshot (act_shot w) ;;
            let '(path, b64_img, ocr_text) := captured in
            if truthy b64_img then
              window <- gets current_window ;;
              insert_activity (act_store w)
                (activity_record now window b64_img ocr_text) ;;
              modify (set_last_screenshot now)
            else ret tt
          else ret tt
        else ret tt) ;;
       sleep 1000)
    (print "Activity monitoring error").

(** One turn of the [while] of [monitor_system]. *)
Definition monitor_system_turn (w : system_world) : M unit :=
  try_except
    (enabled <- gets monitoring_enabled ;;
     if negb enabled then
       sleep 1000
     else
       let timestamp := isoformat (sys_now w) in
       cpu <- call (cpu_percent w) ;;
       mem <- call (virtual_memory_percent w) ;;
       net <- call (net_io_counters w) ;;
       insert_metric (sys_store w)
         (mk_metric_row timestamp cpu mem (fst net) (snd net)) ;;
       sleep 5000)
    (print "System monitoring error").

Definition video_path (w : video_world) : string :=
  os_path_join (rec_sep w)
    [DATA_DIR; "videos";
     ("recording_" ++ strftime_compact (rec_pads_year w) (rec_now w)
      ++ ".mp4")%string].

(** What a writer does to its file: nothing when it is not opened. *)
Definition writer_save (opened : bool) (path : string) (a : artifact) : M unit :=
  if opened then save path a else ret tt.

(** The frame loop: one frame grabbed, converted and handed to the writer per
    turn. *)
Fixpoint record_frames (path : string) (opened : bool) (written : nat)
    (turns : list frame_world) : M nat :=
  match turns with
  | [] => ret written
  | t :: rest =>
      emit EvGrabFrame ;;
      call (sct_grab t) ;;
      call (cvtColor t) ;;
      call (out_write t) ;;
      writer_save opened path (Mp4File (S written) false) ;;
      sleep 40 ;;
      record_frames path opened (S written) rest
  end.

(** The file appears when a writer that opens is created, and is finished by
    its release. *)
Definition record_video (w : video_world) : M (option string) :=
  try_except
    (let path := video_path w in
     emit EvOpenDisplay ;;
     with_context (mss_enter w) (mss_exit w)
       (monitor <- call (monitors_1 w) ;;
        opened <- call (VideoWriter w) ;;
        writer_save opened path (Mp4File 0 false) ;;
        written <- record_frames path opened 0 (rec_frames w) ;;
        emit EvReleaseWriter ;;
        call (out_release w) ;;
        writer_save opened path (Mp4File written true) ;;
        insert_video (rec_store w)
          (mk_video_row (isoformat (rec_row_now w)) VIDEO_DURATION path) ;;
        ret (Some path)))
    (print "Video recording error" ;; ret None).

(** One turn of the [while] of [monitor_videos]. *)
Definition monitor_videos_turn (w : videos_world) : M unit :=
  try_except
    (enabled <- gets monitoring_enabled ;;
     if negb enabled then
       sleep 1000
     else
       last <- gets last_video ;;
       (if dt_sub (vid_now w) last >? seconds VIDEO_INTERVAL then
          record_video (vid_record w) ;;
          modify (set_last_video (vid_after w))
        else ret tt) ;;
       sleep 1000)
    (print "Video scheduler error").

(** The loops: [while not self.stop_event.is_set()], over the turns the
    thread gets to take. *)
Fixpoint while_running {W : Type} (turn : W -> M unit) (ws : list W) : M unit :=
  match ws with
  | [] => ret tt
  | w :: rest =>
      stopped <- gets stop_event ;;
      if stopped then ret tt else (turn w ;; while_running turn rest)
  end.

Definition monitor_activities : list activity_world -> M unit :=
  while_running monitor_activities_turn.

Definition monitor_system : list system_world -> M unit :=
  while_running monitor_system_turn.

Definition monitor_videos : list videos_world -> M unit :=
  while_running monitor_videos_turn.

(** ** Web interface: the history query *)

(** One object of the JSON array answered by [/history]. *)
Record history_entry : Type := mk_history_entry {
  h_timestamp : string; h_window : string; h_process : string;
  h_screenshot : option string; h_ocr_text : string
}.

Definition history_entry_of (r : activity_row) : history_entry :=
  mk_history_entry (a_timestamp r) (a_window_title r) (a_process_name r)
    (a_screenshot r) (a_ocr_text r).

(** [ORDER BY timestamp DESC] on the text of the column (bytewise, as the
    BINARY collation compares).  SQLite leaves the order of rows with equal
    keys open; here they keep the order of the table.

    The column is declared [DATETIME], which gives it NUMERIC affinity: a text
    that reads as a number is stored as that number, and numbers are ordered
    by value and stand before every text.  The order defined here is
    therefore the order of SQLite on the tables whose timestamps are kept as
    text ([stored_as_text] below), as all those the program writes are; the
    statements on the query are made for such tables. *)
Fixpoint insert_desc (r : activity_row) (sorted : list activity_row) : list activity_row :=
  match sorted with
  | [] => [r]
  | x :: rest =>
      if String.leb (a_timestamp x) (a_timestamp r) then r :: sorted
      else x :: insert_desc r rest
  end.

Definition order_by_timestamp_desc (rows : list activity_row) : list activity_row :=
  fold_right insert_desc [] rows.

Definition HISTORY_LIMIT : nat := 10.

(** [SELECT ... FROM activities WHERE active_session = 1
     ORDER BY timestamp DESC LIMIT 10] *)
Definition select_recent_activities (d : database) : list activity_row :=
  firstn HISTORY_LIMIT
    (order_by_timestamp_desc (filter a_active_session (activities d))).

(** [get_activity_history], for what the connection answers to the
    [SELECT]: the rows, or an exception (the connection was closed by
    [shutdown]).  No handler is installed: the exception goes to the web
    framework. *)
Definition get_activity_history (select : outcome unit) : M (list history_entry) :=
  call select ;;
  rows <- gets (fun s => select_recent_activities (db s)) ;;
  ret (map history_entry_of rows).

(** ** The engine as a whole *)

(** [JarvisMonitor.__init__]: the three clocks are read one after the other;
    the tables are those already in the database file. *)
Definition new_monitor (t_activity t_screenshot t_video : datetime)
    (stored : database) (on_disk : files) : JarvisMonitor :=
  mk_monitor false true t_activity t_screenshot t_video ("", "") stored on_disk [].

Definition empty_database : database := mk_database [] [] [].

(** What can happen next to the monitor: a turn of one of the three loops, or
    a toggle request served by the web thread. *)
Inductive step : Type :=
| ActivitiesTurn (w : activity_world)
| SystemTurn (w : system_world)
| VideosTurn (w : videos_world)
| Toggle.

Definition run_step (e : step) (s : JarvisMonitor) : JarvisMonitor :=
  match e with
  | ActivitiesTurn w => fst (monitor_activities_turn w s)
  | SystemTurn w => fst (monitor_system_turn w s)
  | VideosTurn w => fst (monitor_videos_turn w s)
  | Toggle => fst (toggle_monitoring s)
  end.

Definition run (steps : list step) (s : JarvisMonitor) : JarvisMonitor :=
  fold_left (fun acc e => run_step e acc) steps s.

(** ** Predicates used in the statements *)

(** Some call of the probe raises. *)
Definition window_api_fails (w : window_world) : bool :=
  match platform_system w with
  | Raised => true
  | Returned sys =>
      if (sys =? "Windows")%string then
        match import_win32gui w, GetForegroundWindow w with
        | Returned _, Returned hwnd =>
            match GetWindowText w hwnd with
            | Returned _ => false
            | Raised => true
            end
        | _, _ => true
        end
      else false
  end.

Definition UNKNOWN_WINDOW : string * string := ("Unknown", "Unknown").

(** The monitor after a sequence of observations, each one a call of
    [check_activity] with what the probe and the clock answer. *)
Definition observe_all (obs : list (window_world * datetime)) (s : JarvisMonitor)
  : JarvisMonitor :=
  fold_left (fun acc o => fst (check_activity (fst o) (snd o) acc)) obs s.

(** The screen capture goes through: the grab, the save of the full image,
    the thumbnail and its encoding all return, and the encoded thumbnail is
    not empty (no JPEG stream is).  Text extraction is left out on purpose. *)
Definition screenshot_taken (w : screenshot_world) : bool :=
  match ImageGrab_grab w with
  | Returned img =>
      match save_jpeg img, thumbnail img, save_buffer img with
      | Returned _, Returned _, Returned (_ :: _) => true
      | _, _, _ => false
      end
  | Raised => false
  end.

(** Text extraction yields nothing: it is switched off, or one of its two
    calls raises. *)
Definition ocr_fails (enabled : bool) (img : image) : bool :=
  negb enabled ||
  match convert_L img, image_to_string img with
  | Returned _, Returned _ => false
  | _, _ => true
  end.

(** The connection stores the row it is given. *)
Definition store_accepts (answer : outcome unit) : bool :=
  match answer with
  | Returned _ => true
  | Raised => false
  end.

(** ** Sample inputs *)

Definition at_9_00_00 : datetime := mk_datetime 2024 3 1 9 0 0 0.
Definition at_9_00_30 : datetime := mk_datetime 2024 3 1 9 0 30 0.
Definition at_9_00_31 : datetime := mk_datetime 2024 3 1 9 0 31 0.
Definition at_9_30_01 : datetime := mk_datetime 2024 3 1 9 30 1 0.
Definition at_9_30_02 : datetime := mk_datetime 2024 3 1 9 30 2 0.

Definition posix_window : window_world :=
  mk_window_world (Returned "Linux") Raised Raised (fun _ => Raised).

Definition broken_window : window_world :=
  mk_window_world (Returned "Windows") (Returned tt) Raised (fun _ => Raised).

Definition editor_window : window_world :=
  mk_window_world (Returned "Windows") (Returned tt) (Returned 66)
    (fun _ => Returned "editor").

Definition sample_image : image :=
  mk_image (Returned ["255"%byte; "216"%byte]) (Returned tt) (Returned " hi ")
    (Returned tt) (Returned ["M"%byte]).


Definition good_shot : screenshot_world :=
  mk_screenshot_world at_9_00_30 "/" false (Returned sample_image).


Definition failed_shot : screenshot_world :=
  mk_screenshot_world at_9_00_30 "/" false Raised.

Definition fresh_monitor : JarvisMonitor :=
  new_monitor at_9_00_00 at_9_00_00 at_9_00_00 empty_database [].

Definition paused_monitor : JarvisMonitor :=
  fst (toggle_monitoring fresh_monitor).

Definition good_frame : frame_world :=
  mk_frame_world (Returned tt) (Returned tt) (Returned tt).

Definition bad_frame : frame_world :=
  mk_frame_world (Returned tt) (Returned tt) Raised.

Definition good_recording : video_world :=
  mk_video_world at_9_30_01 "/" false (Returned tt) (Returned (1920, 1080))
    (Returned true) [good_frame; good_frame] (Returned tt) at_9_30_02
    (Returned tt) (Returned tt).

Definition failed_recording : video_world :=
  mk_video_world at_9_30_01 "/" false (Returned tt) (Returned (1920, 1080))
    (Returned true) [good_frame; bad_frame] (Returned tt) at_9_30_02
    (Returned tt) (Returned tt).

Definition sample_readings : system_world :=
  mk_system_world at_9_00_30 (Returned (25 # 2)) (Returned (81 # 2))
    (Returned (1024, 2048)) (Returned tt).

(** Quantities a turn of the activity loop computes, named for the
    statements below. *)
Definition after_check (w : activity_world) (s : JarvisMonitor) : JarvisMonitor :=
  fst (check_activity (act_window w) (act_changed_at w) s).

Definition inactive_time (w : activity_world) (s : JarvisMonitor) : timedelta :=
  dt_sub (act_now w) (last_activity (after_check w s)).

Definition since_screenshot (w : activity_world) (s : JarvisMonitor) : timedelta :=
  dt_sub (act_now w) (last_screenshot s).

(** The turn gets as far as calling [capture_screenshot]. *)
Definition screenshot_due (w : activity_world) (s : JarvisMonitor) : bool :=
  (inactive_time w s <? seconds INACTIVITY_THRESHOLD)
  && (since_screenshot w s >=? seconds SCREENSHOT_INTERVAL_ACTIVE).

(** The turn gets as far as storing a row: the capture is due and goes
    through, and the connection stores the row. *)
Definition snapshot_stored (w : activity_world) (s : JarvisMonitor) : bool :=
  screenshot_due w s && screenshot_taken (act_shot w) && store_accepts (act_store w).

(** What [process_ocr] makes of an image. *)
Definition extracted_text (enabled : bool) (img : image) : string :=
  if enabled then
    match convert_L img, image_to_string img with
    | Returned _, Returned text => strip text
    | _, _ => ""
    end
  else "".

Definition add_activity (r : activity_row) (d : database) : database :=
  mk_database (metrics d) (activities d ++ [r]) (videos d).

Definition first_turn : activity_world :=
  mk_activity_world posix_window at_9_00_00 at_9_00_30 good_shot (Returned tt).

Definition first_turn_failing : activity_world :=
  mk_activity_world posix_window at_9_00_00 at_9_00_30 failed_shot (Returned tt).


Definition at_9_01_10 : datetime := mk_datetime 2024 3 1 9 1 10 0.

Definition idle_turn : activity_world :=
  mk_activity_world posix_window at_9_01_10 at_9_01_10 good_shot (Returned tt).

Definition retry_turn : activity_world :=
  mk_activity_world posix_window at_9_00_31 at_9_00_31 good_shot (Returned tt).

(** One turn of the frame loop goes through. *)
Definition frame_ok (t : frame_world) : bool :=
  match sct_grab t, cvtColor t, out_write t with
  | Returned _, Returned _, Returned _ => true
  | _, _, _ => false
  end.

(** No call of the recording raises, up to the release of the writer: the
    display opens, the writer is created, every turn of the frame loop goes
    through and the release returns.  (This says nothing of what the writer
    did with the frames.) *)
Definition calls_return (w : video_world) : bool :=
  match mss_enter w, monitors_1 w, VideoWriter w, out_release w with
  | Returned _, Returned _, Returned _, Returned _ =>
      forallb frame_ok (rec_frames w)
  | _, _, _, _ => false
  end.

(** The writer the constructor returns is opened. *)
Definition writer_opens (w : video_world) : bool :=
  match VideoWriter w with
  | Returned opened => opened
  | Raised => false
  end.

(** The clip is captured and encoded: no call raises and the frames went to
    a writer that was opened. *)
Definition encode_completes (w : video_world) : bool :=
  calls_return w && writer_opens w.

(** The recording gets as far as storing its row. *)
Definition row_stored (w : video_world) : bool :=
  calls_return w && store_accepts (rec_store w).

Definition video_record (w : video_world) : video_row :=
  mk_video_row (isoformat (rec_row_now w)) VIDEO_DURATION (video_path w).

Definition add_video (r : video_row) (d : database) : database :=
  mk_database (metrics d) (activities d) (videos d ++ [r]).

(** No statement on the store in a stretch of the trace. *)
Definition no_commit (evs : list event) : Prop :=
  forall t, ~ In (EvCommit t) evs.

Definition due_recording_failing : videos_world :=
  mk_videos_world at_9_30_01 failed_recording at_9_30_02.

(** [a] may stand before [b] in an answer ordered newest first. *)
Definition not_older (a b : string) : Prop := String.leb b a = true.



Definition sample_row (timestamp : string) (active : bool) : activity_row :=
  mk_activity_row timestamp "Terminal" "bash" (Some "TQ==") "" active.

Definition active_row (r : activity_row) : Prop := a_active_session r = true.

Definition stored_sample : JarvisMonitor :=
  set_db (mk_database []
            [sample_row "2024-03-01T09:00:30" true;
             sample_row "2024-03-01T09:02:00" false;
             sample_row "2024-03-01T09:01:00.500000" true;
             sample_row "2024-03-01T09:01:00" true] []) fresh_monitor.





(** ** Proof steps shared by the properties *)

(** Unfolds the plumbing of [M], leaving the program's own data alone. *)
Ltac py_unfold :=
  cbv [bind ret call raise gets modify emit try_except with_context sleep print
       save writer_save insert_metric insert_activity insert_video].

Ltac monitor_simpl :=
  cbn [stop_event monitoring_enabled last_activity last_screenshot last_video
       current_window db disk trace set_stop_event set_monitoring_enabled
       set_last_activity set_last_screenshot set_last_video set_current_window
       set_db set_disk set_trace fst snd metrics activities videos].

(** Brings a trace to the shape [old ++ e1 :: e2 :: ...]. *)
Ltac trace_assoc := rewrite <- ?app_assoc; cbn [app].

(** ** Web interface: control, status and media list *)

(** A parsed JSON body.  An object is kept as its list of members, the first
    binding of a key being the one a Python [dict] answers with. *)
#[local] Unset Elimination Schemes.
Inductive json : Type :=
| JNull
| JBool (b : bool)
| JNumber (n : Q)
| JString (s : string)
| JArray (items : list json)
| JObject (members : list (string * json)).
#[local] Set Elimination Schemes.

Fixpoint dict_lookup (key : string) (members : list (string * json)) : option json :=
  match members with
  | [] => None
  | (k, v) :: rest => if (k =? key)%string then Some v else dict_lookup key rest
  end.

(** [body.get(key)]: [None] when the key is missing; only a [dict] has the
    method, on anything else the attribute lookup raises. *)
Definition json_get (body : json) (key : string) : outcome (option json) :=
  match body with
  | JObject members => Returned (dict_lookup key members)
  | _ => Raised
  end.

(** [v == text] for what [get] answered. *)
Definition is_string (v : option json) (text : string) : bool :=
  match v with
  | Some (JString s) => (s =? text)%string
  | _ => false
  end.

(** [control_monitoring], for what [request.json] answers; the value returned
    is the ['status'] of the response.  No handler is installed: an exception
    goes to the web framework. *)
Definition control_monitoring (request_json : outcome json) : M bool :=
  body <- call request_json ;;
  action <- call (json_get body "action") ;;
  (if is_string action "toggle" then toggle_monitoring else ret tt) ;;
  gets monitoring_enabled.

(** [get_status]: the ['monitoring'] and ['ocr_enabled'] members. *)
Definition get_status : M (bool * bool) :=
  enabled <- gets monitoring_enabled ;;
  ret (enabled, OCR_ENABLED).

(** [s.endswith(suffix)] *)
Definition endswith (s suffix : string) : bool :=
  let n := String.length s in
  let k := String.length suffix in
  (k <=? n)%nat && (substring (n - k) k s =? suffix)%string.

(** [sorted(names, reverse=True)]: descending, equal names keeping their
    order.  Python compares strings by code point, which on their UTF-8
    bytes is the bytewise order of [String.compare]. *)
Fixpoint insert_reverse (x : string) (sorted : list string) : list string :=
  match sorted with
  | [] => [x]
  | y :: rest =>
      if String.leb y x then x :: sorted else y :: insert_reverse x rest
  end.

Definition sorted_reverse (names : list string) : list string :=
  fold_right insert_reverse [] names.

(** One of the two lists of [get_media_list]:
    [sorted([f for f in names if f.endswith(ext)], reverse=True)[:n]] *)
Definition newest_media (ext : string) (n : nat) (names : list string) : list string :=
  firstn n (sorted_reverse (filter (fun f => endswith f ext) names)).

(** [get_media_list], for what the two [os.listdir] calls answer; the lists
    returned are the ['screenshots'] and ['videos'] members. *)
Definition get_media_list (listdir_screenshots listdir_videos : outcome (list string))
  : M (list string * list string) :=
  shots <- call listdir_screenshots ;;
  let screenshots := newest_media ".jpg" 5 shots in
  clips <- call listdir_videos ;;
  let videos := newest_media ".mp4" 3 clips in
  ret (screenshots, videos).

(** ** More predicates for the statements *)

(** The row a turn of the metrics loop has to insert, if psutil answers. *)
Definition sampled_metric (w : system_world) : option metric_row :=
  match cpu_percent w, virtual_memory_percent w, net_io_counters w with
  | Returned cpu, Returned mem, Returned net =>
      Some (mk_metric_row (isoformat (sys_now w)) cpu mem (fst net) (snd net))
  | _, _, _ => None
  end.

(** The row the turn stores: psutil answers, both counters can be bound as
    an [INTEGER] and the connection stores the row. *)
Definition stored_metric (w : system_world) : option metric_row :=
  match sampled_metric w with
  | Some r =>
      if fits_int64 (m_network_sent r) && fits_int64 (m_network_recv r)
         && store_accepts (sys_store w)
      then Some r else None
  | None => None
  end.

Definition add_metric (r : metric_row) (d : database) : database :=
  mk_database (metrics d ++ [r]) (activities d) (videos d).

Definition is_toggle (e : step) : bool :=
  match e with Toggle => true | _ => false end.

Definition is_activities_turn (e : step) : bool :=
  match e with ActivitiesTurn _ => true | _ => false end.

Definition is_system_turn (e : step) : bool :=
  match e with SystemTurn _ => true | _ => false end.

Definition is_videos_turn (e : step) : bool :=
  match e with VideosTurn _ => true | _ => false end.

(** The platform answers, and is not Windows. *)
Definition not_windows (w : window_world) : Prop :=
  exists sys, platform_system w = Returned sys /\ (sys =? "Windows")%string = false.

Definition names_newest_first : list string -> Prop :=
  StronglySorted not_older.

(** How many steps of a sequence satisfy a test. *)
Definition count_steps (test : step -> bool) (steps : list step) : nat :=
  List.length (filter test steps).

Definition toggle_request : json := JObject [("action", JString "toggle")].
Definition other_request : json := JObject [("action", JString "status")].

Definition at_9_01_00 : datetime := mk_datetime 2024 3 1 9 1 0 0.

Definition second_turn : activity_world :=
  mk_activity_world editor_window at_9_01_00 at_9_01_00 good_shot (Returned tt).

Definition TERMINAL_WINDOW : string * string := ("Terminal", "bash").

(** The process names the probe can answer with. *)
Definition known_process (name : string) : Prop :=
  name = "Windows Process" \/ name = "bash" \/ name = "Unknown".

Definition posix_turn_later : activity_world :=
  mk_activity_world posix_window at_9_01_10 at_9_01_10 good_shot (Returned tt).

(** What [record_video] hands back to its caller. *)
Definition recorded_path (w : video_world) : option string :=
  if row_stored w then
    match mss_exit w with
    | Returned _ => Some (video_path w)
    | Raised => None
    end
  else None.

Definition unclosed_recording : video_world :=
  mk_video_world at_9_30_01 "/" false (Returned tt) (Returned (1920, 1080))
    (Returned true) [good_frame; good_frame] (Returned tt) at_9_30_02
    (Returned tt) Raised.

(** The writer cannot create its file and says so only by not being
    opened. *)
Definition unopened_recording : video_world :=
  mk_video_world at_9_30_01 "/" false (Returned tt) (Returned (1920, 1080))
    (Returned false) [good_frame; good_frame] (Returned tt) at_9_30_02
    (Returned tt) (Returned tt).

Definition no_thumbnail_image : image :=
  mk_image (Returned ["255"%byte; "216"%byte]) (Returned tt) (Returned "text")
    Raised (Returned ["M"%byte]).

Definition no_thumbnail_shot : screenshot_world :=
  mk_screenshot_world at_9_00_30 "/" false (Returned no_thumbnail_image).

(** Rows and trace a sequence of enabled turns of the metrics loop leaves. *)
Definition metric_rows (ws : list system_world) : list metric_row :=
  flat_map (fun w => match stored_metric w with
                     | Some r => [r]
                     | None => []
                     end) ws.

Definition metric_events (ws : list system_world) : list event :=
  flat_map (fun w => match stored_metric w with
                     | Some _ => [EvCommit "metrics"; EvSleep 5000]
                     | None => [EvPrint "System monitoring error"]
                     end) ws.

Definition failing_readings : system_world :=
  mk_system_world at_9_00_31 (Returned (25 # 2)) Raised (Returned (1024, 2048))
    (Returned tt).

(** psutil answers and the connection refuses the row. *)
Definition refused_readings : system_world :=
  mk_system_world at_9_00_31 (Returned (25 # 2)) (Returned (81 # 2))
    (Returned (1024, 2048)) Raised.

(** A counter that does not fit the 64 bits of an [INTEGER]. *)
Definition overflowing_readings : system_world :=
  mk_system_world at_9_00_31 (Returned (25 # 2)) (Returned (81 # 2))
    (Returned (2 ^ 63, 2048)) (Returned tt).

(** What one list of [get_media_list] owes to the directory listing. *)
Definition newest_of (ext : string) (n : nat) (names result : list string) : Prop :=
  (forall f, In f result -> In f names /\ endswith f ext = true)
  /\ names_newest_first result
  /\ List.length result
     = Nat.min n (List.length (filter (fun f => endswith f ext) names))
  /\ exists older,
       Permutation (result ++ older) (filter (fun f => endswith f ext) names)
       /\ forall x y, In x result -> In y older -> not_older x y.

(** The file names the two captures make up. *)
Definition screenshot_filename (w : screenshot_world) : string :=
  "screenshot_" ++ strftime_compact (shot_pads_year w) (shot_now w) ++ ".jpg".

Definition recording_filename (w : video_world) : string :=
  "recording_" ++ strftime_compact (rec_pads_year w) (rec_now w) ++ ".mp4".

(** Within a turn of the video loop the clock read after the recording is not
    behind the one read before it. *)
Definition clock_forward (e : step) : Prop :=
  match e with
  | VideosTurn w => to_microseconds (vid_now w) <= to_microseconds (vid_after w)
  | _ => True
  end.

Definition at_10_00_03 : datetime := mk_datetime 2024 3 1 10 0 3 0.
Definition at_10_00_14 : datetime := mk_datetime 2024 3 1 10 0 14 0.

Definition first_recording_turn : videos_world :=
  mk_videos_world at_9_30_01 good_recording at_9_30_02.

Definition second_recording_turn : videos_world :=
  mk_videos_world at_10_00_03 good_recording at_10_00_14.

(** A file exists under the path. *)
Definition has_file (d : files) (path : string) : Prop :=
  exists a, In (path, a) d.

(** Every path of [d] is still a path of [d']. *)
Definition files_kept (d d' : files) : Prop :=
  forall path, has_file d path -> has_file d' path.

(** Every row of [videos] names a file that exists. *)
Definition videos_on_disk (s : JarvisMonitor) : Prop :=
  forall r, In r (videos (db s)) -> has_file (disk s) (v_file_path r).

(** The writer of a turn of the video loop does not fail in silence: the
    constructor raises or returns a writer that is opened. *)
Definition writer_speaks (e : step) : Prop :=
  match e with
  | VideosTurn w => VideoWriter (vid_record w) <> Returned false
  | _ => True
  end.

Ltac monitor_simpl_in H :=
  cbn [stop_event monitoring_enabled last_activity last_screenshot last_video
       current_window db disk trace set_stop_event set_monitoring_enabled
       set_last_activity set_last_screenshot set_last_video set_current_window
       set_db set_disk set_trace fst snd metrics activities videos] in H.

(** ** Calendar order and text order *)

Definition days_in_month (y m : Z) : Z :=
  nth (Z.to_nat (m - 1))
      [31; if is_leap y then 29 else 28; 31; 30; 31; 30; 31; 31; 30; 31; 30; 31] 0.

(** The datetimes Python can build. *)
Definition valid_datetime (d : datetime) : Prop :=
  1 <= year d <= 9999 /\ 1 <= month d <= 12
  /\ 1 <= day d <= days_in_month (year d) (month d)
  /\ 0 <= hour d <= 23 /\ 0 <= minute d <= 59 /\ 0 <= second d <= 59
  /\ 0 <= microsecond d <= 999999.

(** Whole seconds of a datetime on the time line. *)
Definition to_seconds (d : datetime) : Z :=
  toordinal d * 86400 + hour d * 3600 + minute d * 60 + second d.

(** Comparison of two datetimes field by field, down to the second. *)
Definition compare_fields (a b : datetime) : comparison :=
  match year a ?= year b with
  | Eq =>
      match month a ?= month b with
      | Eq =>
          match day a ?= day b with
          | Eq =>
              match hour a ?= hour b with
              | Eq =>
                  match minute a ?= minute b with
                  | Eq => second a ?= second b
                  | c => c
                  end
              | c => c
              end
          | c => c
          end
      | c => c
      end
  | c => c
  end.

(** Numbers below [n], and the test that their [width]-digit texts have that
    length and grow with the number. *)
Definition below (n : nat) : list Z := map Z.of_nat (seq 0 n).

Definition padded_grows (width : nat) (n : nat) : bool :=
  forallb (fun i =>
             (String.length (zero_pad width i) =? width)%nat
             && (String.length (zero_pad width (i + 1)) =? width)%nat
             && String.ltb (zero_pad width i) (zero_pad width (i + 1)))
          (below n).

(** The clock of a turn of the activity loop reads a datetime Python can
    build. *)
Definition valid_clock (e : step) : Prop :=
  match e with
  | ActivitiesTurn w => valid_datetime (act_now w)
  | _ => True
  end.

(** Every row was stamped with a valid time not after [last_screenshot], the
    rows are all active and the table is in ascending order of its
    timestamps. *)
Definition history_in_order (s : JarvisMonitor) : Prop :=
  Forall active_row (activities (db s))
  /\ order_by_timestamp_desc (activities (db s)) = rev (activities (db s))
  /\ Forall (fun x => exists t,
                 valid_datetime t /\ a_timestamp x = isoformat t
                 /\ to_microseconds t <= to_microseconds (last_screenshot s))
            (activities (db s)).

Definition at_9_02_00 : datetime := mk_datetime 2024 3 1 9 2 0 0.

Definition third_turn : activity_world :=
  mk_activity_world posix_window at_9_02_00 at_9_02_00 good_shot (Returned tt).

(** The [n] years from 1000 on are printed alike with and without padding. *)
Definition four_digit_years (n : nat) : bool :=
  forallb (fun i => (zero_pad 1 (i + 1000) =? zero_pad 4 (i + 1000))%string)
          (below n).

Definition year_999 : datetime := mk_datetime 999 12 31 23 59 59 0.
Definition year_1000 : datetime := mk_datetime 1000 1 1 0 0 0 0.

(** * Properties *)

(** ** Library functions on concrete values *)

Example b64encode_Man : b64encode ["M"%byte; "a"%byte; "n"%byte] = "TWFu".
Proof. reflexivity. Qed.

Example b64encode_Ma : b64encode ["M"%byte; "a"%byte] = "TWE=".
Proof. reflexivity. Qed.

Example b64encode_M : b64encode ["M"%byte] = "TQ==".
Proof. reflexivity. Qed.

Example strip_text : strip "  hello world
" = "hello world".
Proof. reflexivity. Qed.

Example toordinal_epoch : toordinal (mk_datetime 1970 1 1 0 0 0 0) = 719163.
Proof. reflexivity. Qed.

Example toordinal_leap : toordinal (mk_datetime 2024 3 1 0 0 0 0) = 738946.
Proof. reflexivity. Qed.

Example isoformat_whole : isoformat (mk_datetime 2024 3 1 9 5 0 0) = "2024-03-01T09:05:00".
Proof. reflexivity. Qed.

Example isoformat_fraction :
  isoformat (mk_datetime 2024 3 1 9 5 0 1200) = "2024-03-01T09:05:00.001200".
Proof. reflexivity. Qed.

Example strip_wide_space :
  strip (String (ascii_of_N 194) (String (ascii_of_N 160)
           ("hi" ++ String (ascii_of_N 227) (String (ascii_of_N 128)
                      (String (ascii_of_N 128) " ")))))
  = "hi".
Proof. reflexivity. Qed.

Example strip_inner_space : strip " a b " = "a b".
Proof. reflexivity. Qed.

Example strftime_compact_ex :
  strftime_compact false (mk_datetime 2024 3 1 9 5 7 1200) = "20240301_090507"
  /\ strftime_compact true (mk_datetime 2024 3 1 9 5 7 1200) = "20240301_090507".
Proof. split; reflexivity. Qed.

Example strftime_compact_early_year :
  strftime_compact false year_999 = "9991231_235959"
  /\ strftime_compact true year_999 = "09991231_235959".
Proof. split; reflexivity. Qed.

(** ** The window probe *)

Lemma get_active_window_answer (w : window_world) :
  exists p, (forall s, get_active_window w s = (s, Returned p))
            /\ (window_api_fails w = true -> p = UNKNOWN_WINDOW).
Proof.
  unfold get_active_window, window_api_fails.
  destruct w as [sys imp fg txt]; cbn [platform_system import_win32gui
    GetForegroundWindow GetWindowText].
  destruct sys as [sys|]; py_unfold.
  2:{ eexists; split; [intros s; reflexivity | reflexivity]. }
  destruct (sys =? "Windows")%string.
  2:{ eexists; split; [intros s; reflexivity | discriminate]. }
  destruct imp as [[]|]; py_unfold.
  2:{ eexists; split; [intros s; reflexivity | reflexivity]. }
  destruct fg as [hwnd|]; py_unfold.
  2:{ eexists; split; [intros s; reflexivity | reflexivity]. }
  destruct (txt hwnd) as [title|]; py_unfold.
  - eexists; split; [intros s; reflexivity | discriminate].
  - eexists; split; [intros s; reflexivity | reflexivity].
Qed.

(** C8. [get_active_window] is total for its caller: whatever the platform
    and the window API answer, it returns a pair (title, process), raises
    nothing and leaves the monitor as it was; when any call of the probe
    raises, the pair is ("Unknown", "Unknown"). *)
Theorem get_active_window_total (w : window_world) (s : JarvisMonitor) :
  exists title process : string,
    get_active_window w s = (s, Returned (title, process))
    /\ (window_api_fails w = true -> (title, process) = ("Unknown", "Unknown")).
Proof.
  destruct (get_active_window_answer w) as [[title process] [Hrun Hfail]].
  exists title, process. split; [apply Hrun | exact Hfail].
Qed.

(** ** Activity detection *)

Lemma window_neqb_spec (a b : string * string) :
  window_neqb a b = true <-> a <> b.
Proof.
  destruct a as [a1 a2], b as [b1 b2]. unfold window_neqb. cbn [fst snd].
  destruct (String.eqb_spec a1 b1) as [E1|N1];
    destruct (String.eqb_spec a2 b2) as [E2|N2]; cbn; split;
    try congruence; intros; try reflexivity.
Qed.

Lemma check_activity_changed (w : window_world) (now : datetime)
    (s : JarvisMonitor) (p : string * string) :
  get_active_window w s = (s, Returned p) ->
  p <> current_window s ->
  check_activity w now s
  = (set_last_activity now (set_current_window p s), Returned true).
Proof.
  intros Hw Hne. unfold check_activity, bind at 1. rewrite Hw.
  py_unfold. apply window_neqb_spec in Hne. rewrite Hne. reflexivity.
Qed.

Lemma check_activity_same (w : window_world) (now : datetime)
    (s : JarvisMonitor) (p : string * string) :
  get_active_window w s = (s, Returned p) ->
  p = current_window s ->
  check_activity w now s = (s, Returned false).
Proof.
  intros Hw He. unfold check_activity, bind at 1. rewrite Hw.
  py_unfold. destruct (window_neqb p (current_window s)) eqn:E.
  - apply window_neqb_spec in E. contradiction.
  - reflexivity.
Qed.

(** C3. After any sequence of window observations, the next observation
    updates [last_activity], to the time read then, exactly when the observed
    (title, process) pair differs from the stored [current_window].  On a
    difference the call answers true, [last_activity] holds that time and
    [current_window] the observed pair afterwards; on an identical
    observation it answers false and both fields hold what they held.  No
    other field of the monitor changes either way. *)
Theorem check_activity_updates_iff_changed
    (obs : list (window_world * datetime)) (s0 : JarvisMonitor)
    (w : window_world) (now : datetime) (p : string * string) :
  let s := observe_all obs s0 in
  let s' := fst (check_activity w now s) in
  get_active_window w s = (s, Returned p) ->
  (snd (check_activity w now s) = Returned true <-> p <> current_window s)
  /\ (p <> current_window s ->
      last_activity s' = now /\ current_window s' = p)
  /\ (p = current_window s ->
      last_activity s' = last_activity s /\ current_window s' = current_window s
      /\ snd (check_activity w now s) = Returned false)
  /\ (last_activity s' <> last_activity s -> p <> current_window s)
  /\ (current_window s' <> current_window s ->
      p <> current_window s /\ last_activity s' = now)
  /\ (stop_event s' = stop_event s
      /\ monitoring_enabled s' = monitoring_enabled s
      /\ last_screenshot s' = last_screenshot s
      /\ last_video s' = last_video s
      /\ db s' = db s /\ disk s' = disk s /\ trace s' = trace s).
Proof.
  intros s s' Hw. subst s'.
  destruct (window_neqb p (current_window s)) eqn:E.
  - assert (Hne : p <> current_window s) by (apply window_neqb_spec; exact E).
    rewrite (check_activity_changed w now s p Hw Hne). cbn [fst snd].
    destruct s as [st en la ls lv cw d dk tr]; monitor_simpl.
    cbn [current_window] in Hne.
    split; [split; [intros _; exact Hne | reflexivity] |].
    split; [intros _; split; reflexivity |].
    split; [intros He; contradiction |].
    split; [intros _; exact Hne |].
    split; [intros _; split; [exact Hne | reflexivity] |].
    repeat split.
  - assert (He : p = current_window s).
    { destruct p as [p1 p2], (current_window s) as [c1 c2].
      unfold window_neqb in E. cbn [fst snd] in E.
      apply negb_false_iff, andb_true_iff in E. destruct E as [E1 E2].
      apply String.eqb_eq in E1, E2. congruence. }
    rewrite (check_activity_same w now s p Hw He). cbn [fst snd].
    split; [split; [discriminate | intros Hne; contradiction] |].
    split; [intros Hne; contradiction |].
    split; [intros _; repeat split |].
    split; [intros Hne; contradiction |].
    split; [intros Hne; contradiction |].
    repeat split.
Qed.

Lemma check_activity_updates_iff_changed_witness :
  let s := observe_all [(posix_window, at_9_00_00)] fresh_monitor in
  let s' := fst (check_activity editor_window at_9_00_30 s) in
  (get_active_window editor_window s = (s, Returned ("editor", "Windows Process"))
   /\ current_window s = ("Terminal", "bash")
   /\ last_activity s = at_9_00_00)
  /\ last_activity s' = at_9_00_30
  /\ current_window s' = ("editor", "Windows Process").
Proof.
  split; [repeat split |].
  apply (check_activity_updates_iff_changed
           [(posix_window, at_9_00_00)] fresh_monitor editor_window at_9_00_30
           ("editor", "Windows Process")).
  - reflexivity.
  - vm_compute. discriminate.
Defined.

Lemma get_active_window_total_witness :
  window_api_fails broken_window = true
  /\ exists title process : string,
       get_active_window broken_window fresh_monitor
       = (fresh_monitor, Returned (title, process))
       /\ (title, process) = ("Unknown", "Unknown").
Proof.
  split; [reflexivity |].
  destruct (get_active_window_total broken_window fresh_monitor)
    as [title [process [Hrun Hfail]]].
  exists title, process. split; [exact Hrun | apply Hfail; reflexivity].
Defined.

(** ** The monitoring switch *)

Lemma monitor_activities_turn_disabled (w : activity_world) (s : JarvisMonitor) :
  monitoring_enabled s = false ->
  monitor_activities_turn w s = (set_trace (trace s ++ [EvSleep 1000]) s, Returned tt).
Proof.
  intros H. unfold monitor_activities_turn. py_unfold. rewrite H. reflexivity.
Qed.

Lemma monitor_system_turn_disabled (w : system_world) (s : JarvisMonitor) :
  monitoring_enabled s = false ->
  monitor_system_turn w s = (set_trace (trace s ++ [EvSleep 1000]) s, Returned tt).
Proof.
  intros H. unfold monitor_system_turn. py_unfold. rewrite H. reflexivity.
Qed.

Lemma monitor_videos_turn_disabled (w : videos_world) (s : JarvisMonitor) :
  monitoring_enabled s = false ->
  monitor_videos_turn w s = (set_trace (trace s ++ [EvSleep 1000]) s, Returned tt).
Proof.
  intros H. unfold monitor_videos_turn. py_unfold. rewrite H. reflexivity.
Qed.

Lemma while_running_next {W : Type} (turn : W -> M unit) (w : W) (ws : list W)
    (s s' : JarvisMonitor) :
  stop_event s = false ->
  turn w s = (s', Returned tt) ->
  while_running turn (w :: ws) s = while_running turn ws s'.
Proof.
  intros Hstop Hturn. cbn [while_running]. py_unfold. rewrite Hstop, Hturn.
  reflexivity.
Qed.

(** C6. A turn of any of the three loops that reads the monitoring flag as
    false only sleeps one second: nothing is captured (the trace gains the
    sleep and nothing else), the tables and the artifact directories are as
    before, and so are [current_window], [last_activity], [last_screenshot]
    and [last_video]; the loop then goes on to its next turn. *)
Theorem disabled_turn_only_sleeps (s : JarvisMonitor)
    (wa : activity_world) (wsys : system_world) (wv : videos_world) :
  monitoring_enabled s = false ->
  let slept := set_trace (trace s ++ [EvSleep 1000]) s in
  (monitor_activities_turn wa s = (slept, Returned tt)
   /\ monitor_system_turn wsys s = (slept, Returned tt)
   /\ monitor_videos_turn wv s = (slept, Returned tt))
  /\ (db slept = db s /\ disk slept = disk s
      /\ activity_state slept = activity_state s
      /\ monitoring_enabled slept = false)
  /\ (stop_event s = false ->
      (forall rest, monitor_activities (wa :: rest) s = monitor_activities rest slept)
      /\ (forall rest, monitor_system (wsys :: rest) s = monitor_system rest slept)
      /\ (forall rest, monitor_videos (wv :: rest) s = monitor_videos rest slept)).
Proof.
  intros Hoff slept.
  pose proof (monitor_activities_turn_disabled wa s Hoff) as Ha.
  pose proof (monitor_system_turn_disabled wsys s Hoff) as Hs.
  pose proof (monitor_videos_turn_disabled wv s Hoff) as Hv.
  split; [auto |]. split.
  - destruct s; cbn in *. auto.
  - intros Hrun. repeat split; intros rest.
    + apply while_running_next; assumption.
    + apply while_running_next; assumption.
    + apply while_running_next; assumption.
Qed.

Lemma disabled_turn_only_sleeps_witness :
  monitoring_enabled paused_monitor = false
  /\ monitor_videos_turn
       (mk_videos_world at_9_30_01 good_recording at_9_30_02) paused_monitor
     = (set_trace (trace paused_monitor ++ [EvSleep 1000]) paused_monitor, Returned tt).
Proof.
  split; [reflexivity |].
  apply (disabled_turn_only_sleeps paused_monitor first_turn
           sample_readings
           (mk_videos_world at_9_30_01 good_recording at_9_30_02)).
  reflexivity.
Defined.

(** ** Screenshots *)

Lemma b64encode_truthy (b : byte) (bs : list byte) :
  truthy (Some (b64encode (b :: bs))) = true.
Proof.
  destruct bs as [|b1 [|b2 rest]]; reflexivity.
Qed.

Lemma process_ocr_effect (enabled : bool) (img : image) (s : JarvisMonitor) :
  exists evs text,
    process_ocr_when enabled img s
    = (set_trace (trace s ++ evs) s, Returned text)
    /\ (ocr_fails enabled img = true -> text = "")
    /\ ~ In EvGrabScreen evs /\ (forall t, ~ In (EvCommit t) evs)
    /\ text = extracted_text enabled img.
Proof.
  unfold process_ocr_when, ocr_fails, extracted_text.
  destruct s as [st en la ls lv cw d dk tr].
  destruct enabled; py_unfold; monitor_simpl.
  2:{ exists [], "". rewrite app_nil_r. cbn. intuition. }
  destruct (convert_L img) as [[]|]; py_unfold; monitor_simpl.
  2:{ exists [EvOcr; EvPrint "OCR Error"], "". trace_assoc.
      cbn. intuition; discriminate. }
  destruct (image_to_string img) as [text|]; py_unfold; monitor_simpl.
  - exists [EvOcr], (strip text). cbn. intuition; discriminate.
  - exists [EvOcr; EvPrint "OCR Error"], "". trace_assoc.
    cbn. intuition; discriminate.
Qed.

Lemma capture_screenshot_effect (enabled : bool) (w : screenshot_world)
    (s : JarvisMonitor) :
  exists d evs path b64 ocr,
    capture_screenshot_when enabled w s
    = (set_trace (trace s ++ EvGrabScreen :: evs) (set_disk d s),
       Returned (path, b64, ocr))
    /\ truthy b64 = screenshot_taken w
    /\ (forall t, ~ In (EvCommit t) evs)
    /\ (screenshot_taken w = true ->
        exists img buffer,
          ImageGrab_grab w = Returned img /\ save_buffer img = Returned buffer
          /\ path = Some (screenshot_path w)
          /\ b64 = Some (b64encode buffer)
          /\ ocr = extracted_text enabled img).
Proof.
  unfold capture_screenshot_when, screenshot_taken.
  destruct s as [st en la ls lv cw d dk tr].
  destruct (ImageGrab_grab w) as [img|]; py_unfold; monitor_simpl.
  2:{ exists dk, [EvPrint "Screenshot error"], None, None, "". trace_assoc.
      split; [reflexivity |]. split; [reflexivity |].
      split; [intros t [H|[]]; discriminate | discriminate]. }
  destruct (save_jpeg img) as [content|]; py_unfold; monitor_simpl.
  2:{ exists dk, [EvPrint "Screenshot error"], None, None, "". trace_assoc.
      split; [reflexivity |]. split; [reflexivity |].
      split; [intros t [H|[]]; discriminate | discriminate]. }
  match goal with
  | |- context [process_ocr_when enabled img ?s1] =>
      destruct (process_ocr_effect enabled img s1)
        as (evs & text & Heq & _ & _ & Hc & Htext);
      rewrite Heq
  end.
  monitor_simpl.
  assert (Hfailed : forall t, ~ In (EvCommit t) (evs ++ [EvPrint "Screenshot error"])).
  { intros t Hin. apply in_app_or in Hin. destruct Hin as [Hin|Hin].
    - exact (Hc t Hin).
    - cbn in Hin. intuition; discriminate. }
  destruct (thumbnail img) as [[]|]; py_unfold; monitor_simpl.
  2:{ eexists _, (evs ++ [EvPrint "Screenshot error"]), None, None, "".
      trace_assoc. split; [reflexivity |]. split; [reflexivity |].
      split; [exact Hfailed | discriminate]. }
  destruct (save_buffer img) as [buffer|] eqn:Hbuf; py_unfold; monitor_simpl.
  2:{ eexists _, (evs ++ [EvPrint "Screenshot error"]), None, None, "".
      trace_assoc. split; [reflexivity |]. split; [reflexivity |].
      split; [exact Hfailed | discriminate]. }
  eexists _, evs, _, _, _. trace_assoc. split; [reflexivity |]. split; [| split].
  - destruct buffer as [|b bs]; [reflexivity | apply b64encode_truthy].
  - exact Hc.
  - intros _. exists img, buffer.
    split; [reflexivity |]. split; [exact Hbuf |].
    split; [reflexivity |]. split; [reflexivity | exact Htext].
Qed.

(** ** The activity loop *)

Lemma check_activity_effect (w : window_world) (now : datetime) (s : JarvisMonitor) :
  exists (b : bool) (p : string * string),
    check_activity w now s = (fst (check_activity w now s), Returned b)
    /\ (fst (check_activity w now s) = s
        \/ fst (check_activity w now s) = set_last_activity now (set_current_window p s)).
Proof.
  destruct (get_active_window_answer w) as [p [Hp _]].
  destruct (window_neqb p (current_window s)) eqn:E.
  - exists true, p. apply window_neqb_spec in E.
    rewrite (check_activity_changed w now s p (Hp s) E). cbn [fst]. auto.
  - exists false, p.
    assert (He : p = current_window s).
    { destruct p as [p1 p2], (current_window s) as [c1 c2].
      unfold window_neqb in E. cbn [fst snd] in E.
      apply negb_false_iff, andb_true_iff in E. destruct E as [E1 E2].
      apply String.eqb_eq in E1, E2. congruence. }
    rewrite (check_activity_same w now s p (Hp s) He). cbn [fst]. auto.
Qed.

Lemma after_check_frame (w : activity_world) (s : JarvisMonitor) :
  let s1 := after_check w s in
  stop_event s1 = stop_event s /\ monitoring_enabled s1 = monitoring_enabled s
  /\ last_screenshot s1 = last_screenshot s /\ last_video s1 = last_video s
  /\ db s1 = db s /\ disk s1 = disk s /\ trace s1 = trace s.
Proof.
  unfold after_check.
  destruct (check_activity_effect (act_window w) (act_changed_at w) s)
    as (b & p & _ & [H|H]); rewrite H.
  - repeat split.
  - destruct s; cbn. repeat split.
Qed.

(** The ways an enabled turn of the activity loop can go. *)
Lemma monitor_activities_turn_idle (w : activity_world) (s : JarvisMonitor) :
  monitoring_enabled s = true ->
  screenshot_due w s = false ->
  let s1 := after_check w s in
  monitor_activities_turn w s
  = (set_trace (trace s1 ++ [EvSleep 1000]) s1, Returned tt).
Proof.
  intros Hon Hdue s1.
  destruct (after_check_frame w s) as (_ & _ & Hls & _).
  unfold screenshot_due, inactive_time, since_screenshot in Hdue.
  rewrite <- Hls in Hdue. fold s1 in Hdue.
  unfold monitor_activities_turn.
  unfold try_except, bind at 1. unfold gets at 1. rewrite Hon. cbn [negb].
  unfold bind at 1.
  destruct (check_activity_effect (act_window w) (act_changed_at w) s)
    as (b & p & Hrun & _).
  rewrite Hrun. fold (after_check w s). fold s1.
  py_unfold.
  destruct (dt_sub (act_now w) (last_activity s1) <? seconds INACTIVITY_THRESHOLD);
    [| reflexivity].
  cbn [andb] in Hdue. rewrite Hdue. reflexivity.
Qed.

Lemma monitor_activities_turn_capture (w : activity_world) (s : JarvisMonitor) :
  monitoring_enabled s = true ->
  screenshot_due w s = true ->
  let s1 := after_check w s in
  let now := act_now w in
  exists d evs b64 ocr,
    (forall t, ~ In (EvCommit t) evs)
    /\ truthy b64 = screenshot_taken (act_shot w)
    /\ monitor_activities_turn w s
       = (if screenshot_taken (act_shot w) then
            if store_accepts (act_store w) then
              (set_trace (trace s1 ++ EvGrabScreen :: evs
                            ++ [EvCommit "activities"; EvSleep 1000])
                 (set_disk d
                    (set_last_screenshot now
                       (set_db (add_activity
                                  (activity_record now (current_window s1) b64 ocr)
                                  (db s1)) s1))),
               Returned tt)
            else
              (set_trace (trace s1 ++ EvGrabScreen :: evs
                            ++ [EvPrint "Activity monitoring error"])
                 (set_disk d s1),
               Returned tt)
          else
            (set_trace (trace s1 ++ EvGrabScreen :: evs ++ [EvSleep 1000])
               (set_disk d s1),
             Returned tt))
    /\ (screenshot_taken (act_shot w) = true ->
        exists img buffer,
          ImageGrab_grab (act_shot w) = Returned img
          /\ save_buffer img = Returned buffer
          /\ b64 = Some (b64encode buffer)
          /\ ocr = extracted_text OCR_ENABLED img).
Proof.
  intros Hon Hdue s1 now.
  destruct (after_check_frame w s) as (_ & _ & Hls & _).
  unfold screenshot_due, inactive_time, since_screenshot in Hdue.
  rewrite <- Hls in Hdue. fold s1 in Hdue.
  apply andb_true_iff in Hdue. destruct Hdue as [Hidle Hint].
  destruct (capture_screenshot_effect OCR_ENABLED (act_shot w) s1)
    as (d & evs & path & b64 & ocr & Hcap & Htruthy & Hnc & Hthumb).
  exists d, evs, b64, ocr. split; [exact Hnc |]. split; [exact Htruthy |].
  split.
  2:{ intros Htaken. destruct (Hthumb Htaken) as (img & buffer & H1 & H2 & _ & H3 & H4).
      exists img, buffer. auto. }
  unfold monitor_activities_turn.
  unfold try_except, bind at 1. unfold gets at 1. rewrite Hon. cbn [negb].
  unfold bind at 1.
  destruct (check_activity_effect (act_window w) (act_changed_at w) s)
    as (b & p & Hrun & _).
  rewrite Hrun. fold (after_check w s). fold s1.
  unfold bind at 1. unfold bind at 1. unfold gets at 1.
  rewrite Hidle.
  unfold bind at 1. unfold gets at 1. rewrite Hint.
  unfold bind at 1. unfold capture_screenshot. rewrite Hcap.
  rewrite <- Htruthy.
  destruct (truthy b64); [destruct (act_store w) as [[]|] |];
    py_unfold; cbn [store_accepts]; destruct s1; monitor_simpl;
    unfold add_activity; trace_assoc; reflexivity.
Qed.

Lemma screenshot_due_iff (w : activity_world) (s : JarvisMonitor) :
  screenshot_due w s = true
  <-> inactive_time w s < seconds INACTIVITY_THRESHOLD
      /\ since_screenshot w s >= seconds SCREENSHOT_INTERVAL_ACTIVE.
Proof.
  unfold screenshot_due. rewrite andb_true_iff, Z.ltb_lt, Z.geb_le. lia.
Qed.

Lemma store_accepts_iff (answer : outcome unit) :
  store_accepts answer = true <-> answer = Returned tt.
Proof.
  destruct answer as [[]|]; cbn; split; congruence.
Qed.

Lemma snapshot_stored_iff (w : activity_world) (s : JarvisMonitor) :
  snapshot_stored w s = true
  <-> screenshot_due w s = true /\ screenshot_taken (act_shot w) = true
      /\ act_store w = Returned tt.
Proof.
  unfold snapshot_stored. rewrite !andb_true_iff, store_accepts_iff. tauto.
Qed.


(** What a turn of the activity loop leaves in the table and in
    [last_screenshot], according to whether it stores a row. *)
Lemma monitor_activities_turn_cases (w : activity_world) (s : JarvisMonitor) :
  monitoring_enabled s = true ->
  let s' := fst (monitor_activities_turn w s) in
  (snapshot_stored w s = true
   /\ (exists b64 ocr,
         db s' = add_activity
                   (activity_record (act_now w) (current_window (after_check w s)) b64 ocr)
                   (db s))
   /\ last_screenshot s' = act_now w)
  \/ (snapshot_stored w s = false
      /\ db s' = db s /\ last_screenshot s' = last_screenshot s).
Proof.
  intros Hon s'. subst s'. unfold snapshot_stored.
  destruct (after_check_frame w s) as (_ & _ & Hls & _ & Hdb & _ & _).
  destruct (screenshot_due w s) eqn:Hdue.
  - destruct (monitor_activities_turn_capture w s Hon Hdue)
      as (d & evs & b64 & ocr & _ & _ & Hturn & _).
    rewrite Hturn. cbn [andb].
    destruct (screenshot_taken (act_shot w)), (store_accepts (act_store w));
      [left | right | right | right]; cbn [fst andb].
    + split; [reflexivity |]. split.
      * exists b64, ocr. rewrite <- Hdb. destruct (after_check w s); reflexivity.
      * destruct (after_check w s); reflexivity.
    + split; [reflexivity |]. rewrite <- Hdb, <- Hls.
      destruct (after_check w s); split; reflexivity.
    + split; [reflexivity |]. rewrite <- Hdb, <- Hls.
      destruct (after_check w s); split; reflexivity.
    + split; [reflexivity |]. rewrite <- Hdb, <- Hls.
      destruct (after_check w s); split; reflexivity.
  - right. rewrite (monitor_activities_turn_idle w s Hon Hdue). cbn [andb fst].
    split; [reflexivity |]. rewrite <- Hdb, <- Hls.
    destruct (after_check w s); split; reflexivity.
Qed.

Lemma monitor_activities_turn_window (w : activity_world) (s : JarvisMonitor) :
  monitoring_enabled s = true ->
  current_window (fst (monitor_activities_turn w s)) = current_window (after_check w s)
  /\ last_activity (fst (monitor_activities_turn w s)) = last_activity (after_check w s).
Proof.
  intros Hon. destruct (screenshot_due w s) eqn:Hdue.
  - destruct (monitor_activities_turn_capture w s Hon Hdue)
      as (d & evs & b64 & ocr & _ & _ & Hturn & _).
    rewrite Hturn.
    destruct (screenshot_taken (act_shot w)), (store_accepts (act_store w)),
      (after_check w s); split; reflexivity.
  - rewrite (monitor_activities_turn_idle w s Hon Hdue).
    destruct (after_check w s); split; reflexivity.
Qed.





(** The window changes at 09:00:00 and a screenshot is taken at 09:00:30; at
    09:01:10, with the same window, 70 s of inactivity suppress the capture
    although 40 s have passed since the screenshot. *)
Example idle_turn_suppressed :
  let s1 := fst (monitor_activities_turn first_turn fresh_monitor) in
  let s2 := fst (monitor_activities_turn idle_turn s1) in
  List.length (activities (db s1)) = 1%nat
  /\ inactive_time idle_turn s1 = seconds 70
  /\ since_screenshot idle_turn s1 = seconds 40
  /\ db s2 = db s1
  /\ trace s2 = trace s1 ++ [EvSleep 1000].
Proof. vm_compute. repeat split. Qed.

Lemma monitor_activities_turn_flag (w : activity_world) (s : JarvisMonitor) :
  monitoring_enabled (fst (monitor_activities_turn w s)) = monitoring_enabled s.
Proof.
  destruct (monitoring_enabled s) eqn:Hon.
  - destruct (after_check_frame w s) as (_ & Hen & _).
    destruct (screenshot_due w s) eqn:Hdue.
    + destruct (monitor_activities_turn_capture w s Hon Hdue)
        as (d & evs & b64 & ocr & _ & _ & Hturn & _).
      rewrite Hturn, <- Hon, <- Hen.
      destruct (screenshot_taken (act_shot w)), (store_accepts (act_store w)),
        (after_check w s); reflexivity.
    + rewrite (monitor_activities_turn_idle w s Hon Hdue), <- Hon, <- Hen.
      destruct (after_check w s); reflexivity.
  - rewrite (monitor_activities_turn_disabled w s Hon). destruct s; cbn in *.
    exact Hon.
Qed.

(** C4. When the screenshot capture of a turn of the activity loop does not
    go through, no row is added to [activities] (the store is untouched) and
    [last_screenshot] keeps its value; so the interval test of any later turn
    is made against the same instant and still holds, and the next turn that
    passes both tests calls the capture again. *)
Theorem failed_capture_keeps_last_screenshot
    (w next : activity_world) (s : JarvisMonitor) :
  monitoring_enabled s = true ->
  screenshot_taken (act_shot w) = false ->
  let s' := fst (monitor_activities_turn w s) in
  db s' = db s
  /\ last_screenshot s' = last_screenshot s
  /\ (since_screenshot w s >= seconds SCREENSHOT_INTERVAL_ACTIVE ->
      to_microseconds (act_now w) <= to_microseconds (act_now next) ->
      since_screenshot next s' >= seconds SCREENSHOT_INTERVAL_ACTIVE)
  /\ (screenshot_due next s' = true ->
      exists evs,
        trace (fst (monitor_activities_turn next s'))
        = trace s' ++ EvGrabScreen :: evs).
Proof.
  intros Hon Hfail s'.
  destruct (monitor_activities_turn_cases w s Hon)
    as [(Hc & _) | (_ & Hdb & Hls)].
  { apply snapshot_stored_iff in Hc. destruct Hc as (_ & Hc & _). congruence. }
  fold s' in Hdb, Hls.
  split; [exact Hdb |]. split; [exact Hls |]. split.
  - unfold since_screenshot, dt_sub. rewrite Hls. lia.
  - intros Hdue.
    assert (Hon' : monitoring_enabled s' = true).
    { subst s'. rewrite monitor_activities_turn_flag. exact Hon. }
    destruct (monitor_activities_turn_capture next s' Hon' Hdue)
      as (d & evs & b64 & ocr & _ & _ & Hturn & _).
    destruct (after_check_frame next s') as (_ & _ & _ & _ & _ & _ & Htr).
    rewrite Hturn, <- Htr.
    destruct (screenshot_taken (act_shot next)), (store_accepts (act_store next)),
      (after_check next s'); eexists; cbn; reflexivity.
Qed.

Lemma failed_capture_keeps_last_screenshot_witness :
  (monitoring_enabled fresh_monitor = true
   /\ screenshot_taken (act_shot first_turn_failing) = false)
  /\ last_screenshot (fst (monitor_activities_turn first_turn_failing fresh_monitor))
     = last_screenshot fresh_monitor.
Proof.
  split; [split; reflexivity |].
  apply (failed_capture_keeps_last_screenshot first_turn_failing retry_turn
           fresh_monitor); reflexivity.
Defined.

(** ** Video recording *)

Lemma no_commit_app (a b : list event) :
  no_commit a -> no_commit b -> no_commit (a ++ b).
Proof.
  intros Ha Hb t Hin. apply in_app_or in Hin. destruct Hin as [H|H].
  - exact (Ha t H).
  - exact (Hb t H).
Qed.

Lemma record_frames_effect (path : string) (opened : bool) (turns : list frame_world) :
  forall (written : nat) (s : JarvisMonitor),
  exists d evs,
    record_frames path opened written turns s
    = (set_trace (trace s ++ evs) (set_disk d s),
       if forallb frame_ok turns
       then Returned (written + List.length turns)%nat else Raised)
    /\ no_commit evs
    /\ (opened = false -> d = disk s).
Proof.
  induction turns as [|t rest IH]; intros written s.
  - exists (disk s), []. cbn. rewrite Nat.add_0_r, app_nil_r.
    split; [destruct s; reflexivity |].
    split; [intros t H; exact H | reflexivity].
  - cbn [record_frames forallb]. unfold frame_ok at 1.
    destruct s as [st en la ls lv cw d dk tr].
    destruct (sct_grab t) as [[]|]; py_unfold; monitor_simpl.
    2:{ exists dk, [EvGrabFrame]. split; [reflexivity |].
        split; [intros x [H|[]]; discriminate | reflexivity]. }
    destruct (cvtColor t) as [[]|]; py_unfold; monitor_simpl.
    2:{ exists dk, [EvGrabFrame]. split; [reflexivity |].
        split; [intros x [H|[]]; discriminate | reflexivity]. }
    destruct (out_write t) as [[]|]; py_unfold; monitor_simpl.
    2:{ exists dk, [EvGrabFrame]. split; [reflexivity |].
        split; [intros x [H|[]]; discriminate | reflexivity]. }
    destruct opened; monitor_simpl;
      match goal with
      | |- context [record_frames path ?o (S written) rest ?s1] =>
          destruct (IH (S written) s1) as (d1 & evs & Heq & Hnc & Hd); rewrite Heq
      end;
      monitor_simpl; cbn [andb];
      exists d1, ([EvGrabFrame; EvSleep 40] ++ evs);
      (split; [trace_assoc; cbn [List.length]; rewrite Nat.add_succ_r; reflexivity |]);
      (split; [apply no_commit_app; [intros x [H|[H|[]]]; discriminate | exact Hnc] |]).
    + discriminate.
    + intros _. specialize (Hd eq_refl). monitor_simpl_in Hd. exact Hd.
Qed.

Lemma record_video_effect (w : video_world) (s : JarvisMonitor) :
  exists d pre post r,
    record_video w s
    = (if row_stored w then
         set_trace (trace s ++ pre ++ [EvReleaseWriter; EvCommit "videos"] ++ post)
           (set_disk d (set_db (add_video (video_record w) (db s)) s))
       else
         set_trace (trace s ++ pre ++ post) (set_disk d s),
       Returned r)
    /\ no_commit pre /\ no_commit post
    /\ (row_stored w = false -> r = None)
    /\ (encode_completes w = true ->
        In (video_path w, Mp4File (List.length (rec_frames w)) true) d)
    /\ (writer_opens w = false -> d = disk s)
    /\ r = recorded_path w.
Proof.
  unfold recorded_path, record_video, row_stored, encode_completes, calls_return,
    writer_opens.
  destruct s as [st en la ls lv cw d dk tr].
  assert (Hfail : no_commit [EvPrint "Video recording error"]).
  { intros x [H|[]]; discriminate. }
  assert (Hopen : no_commit [EvOpenDisplay]).
  { intros x [H|[]]; discriminate. }
  assert (Hrel : no_commit [EvReleaseWriter; EvPrint "Video recording error"]).
  { intros x [H|[H|[]]]; discriminate. }
  destruct (mss_enter w) as [[]|]; py_unfold; monitor_simpl; cbn [andb].
  2:{ exists dk, [EvOpenDisplay], [EvPrint "Video recording error"], None.
      trace_assoc. repeat split; auto; discriminate. }
  destruct (monitors_1 w) as [monitor|]; py_unfold; monitor_simpl; cbn [andb].
  2:{ exists dk, [EvOpenDisplay], [EvPrint "Video recording error"], None.
      trace_assoc. repeat split; auto; discriminate. }
  destruct (VideoWriter w) as [opened|]; py_unfold; monitor_simpl; cbn [andb].
  2:{ exists dk, [EvOpenDisplay], [EvPrint "Video recording error"], None.
      trace_assoc. repeat split; auto; discriminate. }
  destruct opened; monitor_simpl;
    match goal with
    | |- context [record_frames ?p ?o 0%nat (rec_frames w) ?s1] =>
        destruct (record_frames_effect p o (rec_frames w) 0%nat s1)
          as (d1 & evs & Heq & Hnc & Hd); rewrite Heq
    end;
    monitor_simpl; monitor_simpl_in Hd;
    pose proof (no_commit_app [EvOpenDisplay] evs Hopen Hnc) as Hpre;
    (destruct (forallb frame_ok (rec_frames w)) eqn:Hframes;
     py_unfold; monitor_simpl; cbn [andb];
     [| exists d1, (EvOpenDisplay :: evs), [EvPrint "Video recording error"], None;
        destruct (out_release w) as [[]|]; cbn [andb]; trace_assoc;
        repeat split; auto; discriminate ]);
    cbn [Nat.add];
    (destruct (out_release w) as [[]|]; py_unfold; monitor_simpl; cbn [andb];
     [| exists d1, (EvOpenDisplay :: evs),
          [EvReleaseWriter; EvPrint "Video recording error"], None;
        trace_assoc; repeat split; auto; discriminate ]);
    (destruct (rec_store w) as [[]|]; py_unfold; monitor_simpl;
     cbn [andb store_accepts]).
  - (* opened, stored *)
    destruct (mss_exit w) as [[]|]; py_unfold; monitor_simpl.
    + eexists _, (EvOpenDisplay :: evs), [], (Some (video_path w)).
      unfold add_video, video_record. monitor_simpl. trace_assoc.
      split; [reflexivity |]. split; [exact Hpre |].
      split; [intros x [] |]. split; [discriminate |].
      split; [| split; [discriminate | reflexivity]].
      intros _. unfold write_file. apply in_or_app. right. left. reflexivity.
    + eexists _, (EvOpenDisplay :: evs), [EvPrint "Video recording error"], None.
      unfold add_video, video_record. monitor_simpl. trace_assoc.
      split; [reflexivity |]. split; [exact Hpre |].
      split; [exact Hfail |]. split; [discriminate |].
      split; [| split; [discriminate | reflexivity]].
      intros _. unfold write_file. apply in_or_app. right. left. reflexivity.
  - (* opened, refused *)
    eexists _, (EvOpenDisplay :: evs),
      [EvReleaseWriter; EvPrint "Video recording error"], None.
    trace_assoc. split; [reflexivity |]. split; [exact Hpre |].
    split; [exact Hrel |]. split; [reflexivity |].
    split; [| split; [discriminate | reflexivity]].
    intros _. unfold write_file. apply in_or_app. right. left. reflexivity.
  - (* not opened, stored *)
    specialize (Hd eq_refl). subst d1.
    destruct (mss_exit w) as [[]|]; py_unfold; monitor_simpl.
    + exists dk, (EvOpenDisplay :: evs), [], (Some (video_path w)).
      unfold add_video, video_record. monitor_simpl. trace_assoc.
      split; [reflexivity |]. split; [exact Hpre |].
      split; [intros x [] |]. split; [discriminate |].
      split; [discriminate | split; reflexivity].
    + exists dk, (EvOpenDisplay :: evs), [EvPrint "Video recording error"], None.
      unfold add_video, video_record. monitor_simpl. trace_assoc.
      split; [reflexivity |]. split; [exact Hpre |].
      split; [exact Hfail |]. split; [discriminate |].
      split; [discriminate | split; reflexivity].
  - (* not opened, refused *)
    specialize (Hd eq_refl). subst d1.
    exists dk, (EvOpenDisplay :: evs),
      [EvReleaseWriter; EvPrint "Video recording error"], None.
    trace_assoc. split; [reflexivity |]. split; [exact Hpre |].
    split; [exact Hrel |]. split; [reflexivity |].
    split; [discriminate | split; reflexivity].
Qed.


Lemma row_stored_iff (w : video_world) :
  row_stored w = true <-> calls_return w = true /\ rec_store w = Returned tt.
Proof.
  unfold row_stored. rewrite andb_true_iff, store_accepts_iff. tauto.
Qed.



(** ** The video loop *)

Lemma record_video_returns (w : video_world) (s : JarvisMonitor) :
  exists r, record_video w s = (fst (record_video w s), Returned r).
Proof.
  destruct (record_video_effect w s) as (d & pre & post & r & Hrun & _).
  exists r. rewrite Hrun. reflexivity.
Qed.

Lemma monitor_videos_turn_due (w : videos_world) (s : JarvisMonitor) :
  monitoring_enabled s = true ->
  dt_sub (vid_now w) (last_video s) > seconds VIDEO_INTERVAL ->
  let s1 := fst (record_video (vid_record w) s) in
  monitor_videos_turn w s
  = (set_trace (trace s1 ++ [EvSleep 1000]) (set_last_video (vid_after w) s1),
     Returned tt).
Proof.
  intros Hon Hdue s1.
  unfold monitor_videos_turn.
  unfold try_except, bind at 1. unfold gets at 1. rewrite Hon. cbn [negb].
  unfold bind at 1. unfold bind at 1. unfold gets at 1.
  apply Z.gtb_gt in Hdue. rewrite Hdue.
  unfold bind at 1.
  destruct (record_video_returns (vid_record w) s) as [r Hrun].
  rewrite Hrun. fold s1. py_unfold. destruct s1; reflexivity.
Qed.

Lemma monitor_videos_turn_not_due (w : videos_world) (s : JarvisMonitor) :
  monitoring_enabled s = true ->
  dt_sub (vid_now w) (last_video s) <= seconds VIDEO_INTERVAL ->
  monitor_videos_turn w s = (set_trace (trace s ++ [EvSleep 1000]) s, Returned tt).
Proof.
  intros Hon Hdue.
  unfold monitor_videos_turn.
  unfold try_except, bind at 1. unfold gets at 1. rewrite Hon. cbn [negb].
  assert (H : (dt_sub (vid_now w) (last_video s) >? seconds VIDEO_INTERVAL) = false).
  { destruct (dt_sub (vid_now w) (last_video s) >? seconds VIDEO_INTERVAL) eqn:E;
      [apply Z.gtb_gt in E; lia | reflexivity]. }
  py_unfold. rewrite H. reflexivity.
Qed.

(** C1 (what the program does instead).  The video loop is due, the recording
    fails on its second frame and returns [None] without touching the store,
    and the loop still moves [last_video] from 09:00:00 to the time read after
    the attempt: the next capture is a full [VIDEO_INTERVAL] away. *)
Example monitor_videos_failed_capture_advances_last_video :
  let s' := fst (monitor_videos_turn due_recording_failing fresh_monitor) in
  monitoring_enabled fresh_monitor = true
  /\ dt_sub (vid_now due_recording_failing) (last_video fresh_monitor)
     > seconds VIDEO_INTERVAL
  /\ encode_completes (vid_record due_recording_failing) = false
  /\ snd (record_video (vid_record due_recording_failing) fresh_monitor)
     = Returned None
  /\ db s' = db fresh_monitor
  /\ last_video fresh_monitor = at_9_00_00
  /\ last_video s' = at_9_30_02
  /\ last_video s' <> last_video fresh_monitor.
Proof.
  vm_compute. repeat split; congruence.
Qed.

(** ** The history query *)

Lemma string_leb_iff (a b : string) :
  String.leb a b = true <-> a = b \/ OrderedTypeEx.String_as_OT.lt a b.
Proof.
  unfold String.leb.
  pose proof (OrderedTypeEx.String_as_OT.cmp_eq a b) as Heq.
  pose proof (OrderedTypeEx.String_as_OT.cmp_lt a b) as Hlt.
  unfold OrderedTypeEx.String_as_OT.cmp in Heq, Hlt.
  destruct (String.compare a b).
  - split; [intros _; left; apply Heq; reflexivity | reflexivity].
  - split; [intros _; right; apply Hlt; reflexivity | reflexivity].
  - split; [discriminate |].
    intros [H|H]; [apply Heq in H | apply Hlt in H]; discriminate.
Qed.

Lemma not_older_trans (a b c : string) :
  not_older a b -> not_older b c -> not_older a c.
Proof.
  unfold not_older. rewrite !string_leb_iff.
  intros [H1|H1] [H2|H2]; subst; auto.
  right. exact (OrderedTypeEx.String_as_OT.lt_trans _ _ _ H2 H1).
Qed.

Lemma not_older_total (a b : string) : not_older a b \/ not_older b a.
Proof.
  unfold not_older. destruct (String.leb_total a b); auto.
Qed.





Lemma in_firstn {A : Type} (n : nat) (l : list A) (x : A) :
  In x (firstn n l) -> In x l.
Proof.
  intros H. rewrite <- (firstn_skipn n l). apply in_or_app. left. exact H.
Qed.

Lemma in_skipn {A : Type} (n : nat) (l : list A) (x : A) :
  In x (skipn n l) -> In x l.
Proof.
  intros H. rewrite <- (firstn_skipn n l). apply in_or_app. right. exact H.
Qed.



(** ** Text extraction *)



(** ** Rows written by the engine *)

Lemma monitor_system_turn_activities (w : system_world) (s : JarvisMonitor) :
  activities (db (fst (monitor_system_turn w s))) = activities (db s).
Proof.
  unfold monitor_system_turn. destruct s as [st en la ls lv cw d dk tr].
  py_unfold. monitor_simpl. destruct en; cbn [negb]; [| reflexivity].
  destruct (cpu_percent w); [| reflexivity].
  destruct (virtual_memory_percent w); [| reflexivity].
  destruct (net_io_counters w) as [net|]; [| reflexivity].
  cbn [m_network_sent m_network_recv].
  destruct (fits_int64 (fst net) && fits_int64 (snd net)); [| reflexivity].
  destruct (sys_store w) as [[]|]; reflexivity.
Qed.

Lemma monitor_videos_turn_activities (w : videos_world) (s : JarvisMonitor) :
  activities (db (fst (monitor_videos_turn w s))) = activities (db s).
Proof.
  destruct (monitoring_enabled s) eqn:Hon.
  - destruct (Z_gt_le_dec (dt_sub (vid_now w) (last_video s)) (seconds VIDEO_INTERVAL))
      as [Hdue|Hnot].
    + rewrite (monitor_videos_turn_due w s Hon Hdue).
      destruct (record_video_effect (vid_record w) s)
        as (d & pre & post & r & Hrun & _).
      rewrite Hrun.
      destruct (row_stored (vid_record w)); destruct s; reflexivity.
    + rewrite (monitor_videos_turn_not_due w s Hon Hnot). destruct s; reflexivity.
  - rewrite (monitor_videos_turn_disabled w s Hon). destruct s; reflexivity.
Qed.

Lemma monitor_activities_turn_activities (w : activity_world) (s : JarvisMonitor) :
  exists written,
    activities (db (fst (monitor_activities_turn w s))) = activities (db s) ++ written
    /\ Forall active_row written.
Proof.
  destruct (monitoring_enabled s) eqn:Hon.
  - destruct (monitor_activities_turn_cases w s Hon)
      as [(_ & (b64 & ocr & Hdb) & _) | (_ & Hdb & _)]; rewrite Hdb.
    + eexists. split; [reflexivity |].
      constructor; [reflexivity | constructor].
    + exists []. rewrite app_nil_r. split; [reflexivity | constructor].
  - rewrite (monitor_activities_turn_disabled w s Hon).
    exists []. rewrite app_nil_r. split; [destruct s; reflexivity | constructor].
Qed.

Lemma run_step_activities (e : step) (s : JarvisMonitor) :
  exists written,
    activities (db (run_step e s)) = activities (db s) ++ written
    /\ Forall active_row written.
Proof.
  destruct e as [w|w|w|]; cbn [run_step].
  - apply monitor_activities_turn_activities.
  - exists []. rewrite app_nil_r, monitor_system_turn_activities.
    split; [reflexivity | constructor].
  - exists []. rewrite app_nil_r, monitor_videos_turn_activities.
    split; [reflexivity | constructor].
  - exists []. rewrite app_nil_r. split; [destruct s; reflexivity | constructor].
Qed.

Lemma run_activities (steps : list step) :
  forall s, exists written,
    activities (db (run steps s)) = activities (db s) ++ written
    /\ Forall active_row written.
Proof.
  unfold run.
  induction steps as [|e rest IH]; intros s; cbn [fold_left].
  - exists []. rewrite app_nil_r. split; [reflexivity | constructor].
  - destruct (run_step_activities e s) as (first & Hfirst & Hactive).
    destruct (IH (run_step e s)) as (later & Hlater & Hactive').
    exists (first ++ later). rewrite Hlater, Hfirst, app_assoc.
    split; [reflexivity |]. apply Forall_app. split; assumption.
Qed.

Lemma filter_active_rows (l : list activity_row) :
  Forall active_row l -> filter a_active_session l = l.
Proof.
  induction 1 as [|r rest Hr _ IH]; cbn [filter].
  - reflexivity.
  - unfold active_row in Hr. rewrite Hr, IH. reflexivity.
Qed.

(** C10. Every row the engine adds to [activities], over any sequence of
    turns of its three loops and of toggle requests, has [active_session]
    true; the table only grows by such rows, so the filter of the history
    query keeps every one of them, and on a store that starts empty it keeps
    the whole table. *)
Theorem engine_rows_all_active (steps : list step) (s : JarvisMonitor)
    (t1 t2 t3 : datetime) (on_disk : files) :
  (exists written,
      activities (db (run steps s)) = activities (db s) ++ written
      /\ Forall active_row written
      /\ filter a_active_session (activities (db (run steps s)))
         = filter a_active_session (activities (db s)) ++ written)
  /\ (let s' := run steps (new_monitor t1 t2 t3 empty_database on_disk) in
      Forall active_row (activities (db s'))
      /\ filter a_active_session (activities (db s')) = activities (db s')).
Proof.
  split.
  - destruct (run_activities steps s) as (written & Hrows & Hactive).
    exists written. split; [exact Hrows |]. split; [exact Hactive |].
    rewrite Hrows, filter_app, (filter_active_rows written Hactive). reflexivity.
  - intros s'. subst s'.
    destruct (run_activities steps (new_monitor t1 t2 t3 empty_database on_disk))
      as (written & Hrows & Hactive).
    cbn [new_monitor db empty_database activities app] in Hrows.
    rewrite Hrows. split; [exact Hactive | apply filter_active_rows; exact Hactive].
Qed.

(** ** The history query on the tables of the engine *)






Lemma get_activity_history_answered (s : JarvisMonitor) :
  get_activity_history (Returned tt) s
  = (s, Returned (map history_entry_of (select_recent_activities (db s)))).
Proof. reflexivity. Qed.




(** Of four stored rows the inactive one is left out and the others are
    answered newest first, each with its columns. *)
Example get_activity_history_sample :
  snd (get_activity_history (Returned tt) stored_sample)
  = Returned
      [mk_history_entry "2024-03-01T09:01:00.500000" "Terminal" "bash" (Some "TQ==") "";
       mk_history_entry "2024-03-01T09:01:00" "Terminal" "bash" (Some "TQ==") "";
       mk_history_entry "2024-03-01T09:00:30" "Terminal" "bash" (Some "TQ==") ""].
Proof. reflexivity. Qed.

(** * Further properties of the program *)

(** ** What each turn can change *)

Lemma monitor_system_turn_enabled (w : system_world) (s : JarvisMonitor) :
  monitoring_enabled s = true ->
  monitor_system_turn w s
  = match stored_metric w with
    | Some r =>
        (set_trace (trace s ++ [EvCommit "metrics"; EvSleep 5000])
           (set_db (add_metric r (db s)) s), Returned tt)
    | None =>
        (set_trace (trace s ++ [EvPrint "System monitoring error"]) s, Returned tt)
    end.
Proof.
  intros Hon. unfold monitor_system_turn, stored_metric, sampled_metric, add_metric.
  destruct s as [st en la ls lv cw d dk tr]. cbn [monitoring_enabled] in Hon.
  subst en. py_unfold. monitor_simpl. cbn [negb].
  destruct (cpu_percent w); [| reflexivity].
  destruct (virtual_memory_percent w); [| reflexivity].
  destruct (net_io_counters w) as [net|]; [| reflexivity].
  cbn [m_network_sent m_network_recv].
  destruct (fits_int64 (fst net) && fits_int64 (snd net)); cbn [andb];
    [| reflexivity].
  destruct (sys_store w) as [[]|]; cbn [store_accepts]; [| reflexivity].
  monitor_simpl. trace_assoc. reflexivity.
Qed.

Lemma monitor_system_turn_shape (w : system_world) (s : JarvisMonitor) :
  exists tr ms,
    monitor_system_turn w s
    = (mk_monitor (stop_event s) (monitoring_enabled s) (last_activity s)
         (last_screenshot s) (last_video s) (current_window s)
         (mk_database (metrics (db s) ++ ms) (activities (db s)) (videos (db s)))
         (disk s) tr, Returned tt)
    /\ (List.length ms <= 1)%nat.
Proof.
  destruct (monitoring_enabled s) eqn:Hon.
  - rewrite (monitor_system_turn_enabled w s Hon).
    destruct s as [st en la ls lv cw [m a v] dk tr]. cbn in Hon. subst en.
    destruct (stored_metric w) as [r|].
    + eexists _, [r]. split; [reflexivity | cbn; lia].
    + eexists _, []. rewrite app_nil_r. split; [reflexivity | cbn; lia].
  - rewrite (monitor_system_turn_disabled w s Hon).
    destruct s as [st en la ls lv cw [m a v] dk tr]. cbn in Hon. subst en.
    eexists _, []. rewrite app_nil_r. split; [reflexivity | cbn; lia].
Qed.

Lemma monitor_videos_turn_shape (w : videos_world) (s : JarvisMonitor) :
  exists tr dk lv vs,
    monitor_videos_turn w s
    = (mk_monitor (stop_event s) (monitoring_enabled s) (last_activity s)
         (last_screenshot s) lv (current_window s)
         (mk_database (metrics (db s)) (activities (db s)) (videos (db s) ++ vs))
         dk tr, Returned tt)
    /\ (List.length vs <= 1)%nat.
Proof.
  destruct (monitoring_enabled s) eqn:Hon.
  - destruct (Z_gt_le_dec (dt_sub (vid_now w) (last_video s)) (seconds VIDEO_INTERVAL))
      as [Hdue|Hnot].
    + rewrite (monitor_videos_turn_due w s Hon Hdue).
      destruct (record_video_effect (vid_record w) s)
        as (d & pre & post & r & Hrun & _).
      rewrite Hrun.
      destruct s as [st en la ls lv cw [m a v] dk tr]. cbn in Hon. subst en.
      destruct (row_stored (vid_record w)).
      * eexists _, _, _, [_]. split; [reflexivity | cbn; lia].
      * eexists _, _, _, []. rewrite app_nil_r. split; [reflexivity | cbn; lia].
    + rewrite (monitor_videos_turn_not_due w s Hon Hnot).
      destruct s as [st en la ls lv cw [m a v] dk tr]. cbn in Hon. subst en.
      eexists _, _, _, []. rewrite app_nil_r. split; [reflexivity | cbn; lia].
  - rewrite (monitor_videos_turn_disabled w s Hon).
    destruct s as [st en la ls lv cw [m a v] dk tr]. cbn in Hon. subst en.
    eexists _, _, _, []. rewrite app_nil_r. split; [reflexivity | cbn; lia].
Qed.

Lemma monitor_activities_turn_shape (w : activity_world) (s : JarvisMonitor) :
  exists tr dk cw la lshot acts,
    monitor_activities_turn w s
    = (mk_monitor (stop_event s) (monitoring_enabled s) la lshot (last_video s) cw
         (mk_database (metrics (db s)) (activities (db s) ++ acts) (videos (db s)))
         dk tr, Returned tt)
    /\ (List.length acts <= 1)%nat.
Proof.
  destruct (monitoring_enabled s) eqn:Hon.
  - assert (Hs1 : exists cw la,
               after_check w s
               = mk_monitor (stop_event s) (monitoring_enabled s) la
                   (last_screenshot s) (last_video s) cw (db s) (disk s) (trace s)).
    { unfold after_check.
      destruct (check_activity_effect (act_window w) (act_changed_at w) s)
        as (b & p & _ & [H|H]); rewrite H; destruct s; eexists _, _; reflexivity. }
    destruct Hs1 as (cw & la & Hs1).
    destruct (screenshot_due w s) eqn:Hdue.
    + destruct (monitor_activities_turn_capture w s Hon Hdue)
        as (d & evs & b64 & ocr & _ & _ & Hturn & _).
      rewrite Hturn, Hs1, Hon.
      destruct s as [st en la0 ls lv cw0 [m a v] dk tr].
      destruct (screenshot_taken (act_shot w)), (store_accepts (act_store w)).
      * eexists _, _, _, _, _, [_]. split; [reflexivity | cbn; lia].
      * eexists _, _, _, _, _, []. rewrite app_nil_r.
        split; [reflexivity | cbn; lia].
      * eexists _, _, _, _, _, []. rewrite app_nil_r.
        split; [reflexivity | cbn; lia].
      * eexists _, _, _, _, _, []. rewrite app_nil_r.
        split; [reflexivity | cbn; lia].
    + rewrite (monitor_activities_turn_idle w s Hon Hdue), Hs1, Hon.
      destruct s as [st en la0 ls lv cw0 [m a v] dk tr].
      eexists _, _, _, _, _, []. rewrite app_nil_r.
      split; [reflexivity | cbn; lia].
  - rewrite (monitor_activities_turn_disabled w s Hon).
    destruct s as [st en la0 ls lv cw0 [m a v] dk tr]. cbn in Hon. subst en.
    eexists _, _, _, _, _, []. rewrite app_nil_r. split; [reflexivity | cbn; lia].
Qed.

Lemma run_step_shape (e : step) (s : JarvisMonitor) :
  exists tr dk cw la lshot lv ms acts vs,
    run_step e s
    = mk_monitor (stop_event s)
        (if is_toggle e then negb (monitoring_enabled s) else monitoring_enabled s)
        la lshot lv cw
        (mk_database (metrics (db s) ++ ms) (activities (db s) ++ acts)
           (videos (db s) ++ vs)) dk tr
    /\ (is_activities_turn e = false ->
        cw = current_window s /\ la = last_activity s
        /\ lshot = last_screenshot s /\ acts = [])
    /\ (is_videos_turn e = false -> lv = last_video s /\ vs = [])
    /\ (is_system_turn e = false -> ms = [])
    /\ (List.length ms <= 1 /\ List.length acts <= 1 /\ List.length vs <= 1)%nat.
Proof.
  destruct e as [w|w|w|]; cbn [run_step is_toggle is_activities_turn
                                is_videos_turn is_system_turn].
  - destruct (monitor_activities_turn_shape w s)
      as (tr & dk & cw & la & lshot & acts & Hrun & Hlen).
    rewrite Hrun. cbn [fst].
    exists tr, dk, cw, la, lshot, (last_video s), [], acts, [].
    rewrite !app_nil_r. split; [reflexivity |].
    repeat split; intros; try discriminate; cbn; lia.
  - destruct (monitor_system_turn_shape w s) as (tr & ms & Hrun & Hlen).
    rewrite Hrun. cbn [fst].
    exists tr, (disk s), (current_window s), (last_activity s),
      (last_screenshot s), (last_video s), ms, [], [].
    rewrite !app_nil_r. split; [reflexivity |].
    repeat split; intros; try discriminate; cbn; lia.
  - destruct (monitor_videos_turn_shape w s) as (tr & dk & lv & vs & Hrun & Hlen).
    rewrite Hrun. cbn [fst].
    exists tr, dk, (current_window s), (last_activity s), (last_screenshot s),
      lv, [], [], vs.
    rewrite !app_nil_r. split; [reflexivity |].
    repeat split; intros; try discriminate; cbn; lia.
  - exists (trace s), (disk s), (current_window s), (last_activity s),
      (last_screenshot s), (last_video s), [], [], [].
    rewrite !app_nil_r. split; [destruct s as [? ? ? ? ? ? [? ? ?] ? ?]; reflexivity |].
    repeat split; intros; try discriminate; cbn; lia.
Qed.

Lemma run_cons (e : step) (rest : list step) (s : JarvisMonitor) :
  run (e :: rest) s = run rest (run_step e s).
Proof. reflexivity. Qed.

Lemma run_app (first later : list step) (s : JarvisMonitor) :
  run (first ++ later) s = run later (run first s).
Proof. unfold run. apply fold_left_app. Qed.

(** ** The tables are append-only *)

(** X1. Over any sequence of turns of the three loops and of toggle
    requests, each of the three tables keeps the rows it had, in their order,
    and only gains rows at its end; a table gains at most one row for each
    turn of the loop that writes it. *)
Theorem run_tables_append_only (steps : list step) (s : JarvisMonitor) :
  exists ms acts vs,
    db (run steps s)
    = mk_database (metrics (db s) ++ ms) (activities (db s) ++ acts)
        (videos (db s) ++ vs)
    /\ (List.length ms <= count_steps is_system_turn steps)%nat
    /\ (List.length acts <= count_steps is_activities_turn steps)%nat
    /\ (List.length vs <= count_steps is_videos_turn steps)%nat.
Proof.
  revert s. induction steps as [|e rest IH]; intros s.
  - exists [], [], []. rewrite !app_nil_r. cbn.
    split; [destruct s as [? ? ? ? ? ? [? ? ?] ? ?]; reflexivity | auto].
  - rewrite run_cons.
    destruct (run_step_shape e s)
      as (tr & dk & cw & la & lshot & lv & ms & acts & vs
          & Hstep & Hact & Hvid & Hsys & Hm & Ha & Hv).
    destruct (IH (run_step e s)) as (ms' & acts' & vs' & Hdb & Hm' & Ha' & Hv').
    exists (ms ++ ms'), (acts ++ acts'), (vs ++ vs').
    rewrite Hdb, Hstep. cbn [db metrics activities videos].
    rewrite !app_assoc. split; [reflexivity |].
    rewrite !length_app. unfold count_steps in *. cbn [filter].
    destruct e as [w|w|w|];
      cbn [is_system_turn is_activities_turn is_videos_turn List.length];
      try (rewrite (Hsys eq_refl)); try (rewrite (proj2 (Hvid eq_refl)));
      try (destruct (Hact eq_refl) as (_ & _ & _ & ->));
      cbn [List.length]; lia.
Qed.

(** ** Who changes what *)

Lemma run_preserves {A : Type} (f : JarvisMonitor -> A) (test : step -> bool) :
  (forall e s, test e = false -> f (run_step e s) = f s) ->
  forall steps s, count_steps test steps = 0%nat -> f (run steps s) = f s.
Proof.
  intros Hstep. induction steps as [|e rest IH]; intros s Hnone.
  - reflexivity.
  - unfold count_steps in Hnone. cbn [filter] in Hnone.
    destruct (test e) eqn:E; [discriminate |].
    rewrite run_cons, (IH (run_step e s) Hnone). apply Hstep. exact E.
Qed.

Lemma run_step_stop_event (e : step) (s : JarvisMonitor) :
  stop_event (run_step e s) = stop_event s.
Proof.
  destruct (run_step_shape e s)
    as (tr & dk & cw & la & lshot & lv & ms & acts & vs & Hstep & _).
  rewrite Hstep. reflexivity.
Qed.

Lemma run_step_flag (e : step) (s : JarvisMonitor) :
  monitoring_enabled (run_step e s)
  = if is_toggle e then negb (monitoring_enabled s) else monitoring_enabled s.
Proof.
  destruct (run_step_shape e s)
    as (tr & dk & cw & la & lshot & lv & ms & acts & vs & Hstep & _).
  rewrite Hstep. reflexivity.
Qed.

(** X2. No turn of any loop sets the stop event or changes the monitoring
    flag: over any sequence of turns and toggle requests the stop event is as
    it was, and the flag is the initial one flipped once for each toggle
    request (so an even number of requests restores it). *)
Theorem run_flag_follows_toggles (steps : list step) (s : JarvisMonitor) :
  stop_event (run steps s) = stop_event s
  /\ monitoring_enabled (run steps s)
     = xorb (Nat.odd (count_steps is_toggle steps)) (monitoring_enabled s).
Proof.
  revert s. induction steps as [|e rest IH]; intros s.
  - split; [reflexivity |]. cbn. destruct (monitoring_enabled s); reflexivity.
  - rewrite run_cons. destruct (IH (run_step e s)) as [Hstop Hflag].
    rewrite Hstop, Hflag, run_step_stop_event, run_step_flag.
    split; [reflexivity |].
    unfold count_steps. cbn [filter].
    destruct (is_toggle e); [| reflexivity].
    cbn [List.length]. rewrite Nat.odd_succ, <- Nat.negb_odd.
    destruct (Nat.odd (List.length (filter is_toggle rest))),
      (monitoring_enabled s); reflexivity.
Qed.

(** X3. Each loop is the only writer of its own state: a sequence of steps
    without a turn of the activity loop leaves [current_window],
    [last_activity], [last_screenshot] and the [activities] table as they
    were; without a turn of the video loop, [last_video] and the [videos]
    table; without a turn of the metrics loop, the [metrics] table. *)
Theorem run_single_writer (steps : list step) (s : JarvisMonitor) :
  (count_steps is_activities_turn steps = 0%nat ->
   current_window (run steps s) = current_window s
   /\ last_activity (run steps s) = last_activity s
   /\ last_screenshot (run steps s) = last_screenshot s
   /\ activities (db (run steps s)) = activities (db s))
  /\ (count_steps is_videos_turn steps = 0%nat ->
      last_video (run steps s) = last_video s
      /\ videos (db (run steps s)) = videos (db s))
  /\ (count_steps is_system_turn steps = 0%nat ->
      metrics (db (run steps s)) = metrics (db s)).
Proof.
  assert (Hact : forall e s0, is_activities_turn e = false ->
            current_window (run_step e s0) = current_window s0
            /\ last_activity (run_step e s0) = last_activity s0
            /\ last_screenshot (run_step e s0) = last_screenshot s0
            /\ activities (db (run_step e s0)) = activities (db s0)).
  { intros e s0 He.
    destruct (run_step_shape e s0)
      as (tr & dk & cw & la & lshot & lv & ms & acts & vs & Hstep & H & _).
    destruct (H He) as (-> & -> & -> & ->). rewrite Hstep. cbn.
    rewrite app_nil_r. auto. }
  assert (Hvid : forall e s0, is_videos_turn e = false ->
            last_video (run_step e s0) = last_video s0
            /\ videos (db (run_step e s0)) = videos (db s0)).
  { intros e s0 He.
    destruct (run_step_shape e s0)
      as (tr & dk & cw & la & lshot & lv & ms & acts & vs & Hstep & _ & H & _).
    destruct (H He) as (-> & ->). rewrite Hstep. cbn.
    rewrite app_nil_r. auto. }
  assert (Hsys : forall e s0, is_system_turn e = false ->
            metrics (db (run_step e s0)) = metrics (db s0)).
  { intros e s0 He.
    destruct (run_step_shape e s0)
      as (tr & dk & cw & la & lshot & lv & ms & acts & vs & Hstep & _ & _ & H & _).
    rewrite (H He) in Hstep. rewrite Hstep. cbn. apply app_nil_r. }
  split; [| split]; intros Hnone.
  - split; [| split; [| split]].
    + apply (run_preserves current_window is_activities_turn); [| exact Hnone].
      intros e s0 He. apply (Hact e s0 He).
    + apply (run_preserves last_activity is_activities_turn); [| exact Hnone].
      intros e s0 He. apply (Hact e s0 He).
    + apply (run_preserves last_screenshot is_activities_turn); [| exact Hnone].
      intros e s0 He. apply (Hact e s0 He).
    + apply (run_preserves (fun x => activities (db x)) is_activities_turn);
        [| exact Hnone].
      intros e s0 He. apply (Hact e s0 He).
  - split.
    + apply (run_preserves last_video is_videos_turn); [| exact Hnone].
      intros e s0 He. apply (Hvid e s0 He).
    + apply (run_preserves (fun x => videos (db x)) is_videos_turn); [| exact Hnone].
      intros e s0 He. apply (Hvid e s0 He).
  - apply (run_preserves (fun x => metrics (db x)) is_system_turn); [| exact Hnone].
    exact Hsys.
Qed.

Lemma run_single_writer_witness :
  count_steps is_activities_turn [SystemTurn sample_readings; Toggle] = 0%nat
  /\ last_activity (run [SystemTurn sample_readings; Toggle] fresh_monitor)
     = last_activity fresh_monitor.
Proof.
  split; [reflexivity |].
  apply (run_single_writer [SystemTurn sample_readings; Toggle] fresh_monitor).
  reflexivity.
Defined.

(** ** The screenshot cadence *)

Lemma monitor_activities_turn_writes (w : activity_world) (s : JarvisMonitor) :
  activities (db (fst (monitor_activities_turn w s))) <> activities (db s) ->
  last_screenshot (fst (monitor_activities_turn w s)) = act_now w
  /\ since_screenshot w s >= seconds SCREENSHOT_INTERVAL_ACTIVE
  /\ inactive_time w s < seconds INACTIVITY_THRESHOLD.
Proof.
  intros Hnew.
  destruct (monitoring_enabled s) eqn:Hon.
  - destruct (monitor_activities_turn_cases w s Hon)
      as [(Hc & _ & Hls) | (_ & Hdb & _)].
    + split; [exact Hls |].
      apply snapshot_stored_iff in Hc. destruct Hc as [Hdue _].
      apply screenshot_due_iff in Hdue. tauto.
    + rewrite Hdb in Hnew. contradiction.
  - rewrite (monitor_activities_turn_disabled w s Hon) in Hnew.
    exfalso. apply Hnew. destruct s; reflexivity.
Qed.

Lemma monitor_activities_turn_last_screenshot (w : activity_world) (s : JarvisMonitor) :
  to_microseconds (last_screenshot s)
  <= to_microseconds (last_screenshot (fst (monitor_activities_turn w s))).
Proof.
  destruct (monitoring_enabled s) eqn:Hon.
  - destruct (monitor_activities_turn_cases w s Hon)
      as [(Hc & _ & Hls) | (_ & _ & Hls)]; rewrite Hls; [| lia].
    apply snapshot_stored_iff in Hc. destruct Hc as [Hdue _].
    apply screenshot_due_iff in Hdue. destruct Hdue as [_ Hint].
    unfold since_screenshot, dt_sub, seconds, SCREENSHOT_INTERVAL_ACTIVE in Hint.
    lia.
  - rewrite (monitor_activities_turn_disabled w s Hon). destruct s; cbn. lia.
Qed.

Lemma run_last_screenshot (steps : list step) :
  forall s,
    to_microseconds (last_screenshot s)
    <= to_microseconds (last_screenshot (run steps s)).
Proof.
  induction steps as [|e rest IH]; intros s.
  - cbn. lia.
  - rewrite run_cons. specialize (IH (run_step e s)).
    assert (to_microseconds (last_screenshot s)
            <= to_microseconds (last_screenshot (run_step e s))); [| lia].
    destruct e as [w|w|w|].
    + apply monitor_activities_turn_last_screenshot.
    + destruct (run_step_shape (SystemTurn w) s)
        as (tr & dk & cw & la & lshot & lv & ms & acts & vs & Hstep & Hact & _).
      destruct (Hact eq_refl) as (_ & _ & -> & _). rewrite Hstep. cbn. lia.
    + destruct (run_step_shape (VideosTurn w) s)
        as (tr & dk & cw & la & lshot & lv & ms & acts & vs & Hstep & Hact & _).
      destruct (Hact eq_refl) as (_ & _ & -> & _). rewrite Hstep. cbn. lia.
    + destruct s; cbn. lia.
Qed.

(** X4. Two screenshots are never less than [SCREENSHOT_INTERVAL_ACTIVE]
    apart: if a turn of the activity loop adds a row and a later turn adds
    one, whatever the three loops and toggle requests do in between and
    however the clock moves, the time read in the later turn is at least 30 s
    after the time read in the earlier one.  On the way [last_screenshot]
    never moves back. *)
Theorem snapshots_thirty_seconds_apart
    (w1 w2 : activity_world) (between : list step) (s : JarvisMonitor) :
  let s1 := fst (monitor_activities_turn w1 s) in
  let s2 := run between s1 in
  let s3 := fst (monitor_activities_turn w2 s2) in
  activities (db s1) <> activities (db s) ->
  activities (db s3) <> activities (db s2) ->
  dt_sub (act_now w2) (act_now w1) >= seconds 30
  /\ to_microseconds (last_screenshot s) <= to_microseconds (last_screenshot s1)
  /\ to_microseconds (last_screenshot s1) <= to_microseconds (last_screenshot s2)
  /\ to_microseconds (last_screenshot s2) <= to_microseconds (last_screenshot s3).
Proof.
  intros s1 s2 s3 Hfirst Hsecond.
  destruct (monitor_activities_turn_writes w1 s Hfirst) as (Hls1 & _).
  destruct (monitor_activities_turn_writes w2 s2 Hsecond) as (_ & Hint & _).
  fold s1 in Hls1.
  pose proof (run_last_screenshot between s1) as Hmono. fold s2 in Hmono.
  pose proof (monitor_activities_turn_last_screenshot w1 s) as H1. fold s1 in H1.
  pose proof (monitor_activities_turn_last_screenshot w2 s2) as H3. fold s3 in H3.
  split; [| auto].
  unfold since_screenshot, dt_sub, seconds, SCREENSHOT_INTERVAL_ACTIVE in *.
  rewrite Hls1 in Hmono. lia.
Qed.

Lemma snapshots_thirty_seconds_apart_witness :
  dt_sub (act_now second_turn) (act_now first_turn) >= seconds 30.
Proof.
  apply (snapshots_thirty_seconds_apart first_turn second_turn
           [SystemTurn sample_readings] fresh_monitor);
    vm_compute; discriminate.
Defined.

(** ** What the probe can answer *)

Lemma get_active_window_posix (w : window_world) (s : JarvisMonitor) :
  not_windows w -> get_active_window w s = (s, Returned TERMINAL_WINDOW).
Proof.
  intros (sys & Hsys & Hne). unfold get_active_window. py_unfold.
  rewrite Hsys, Hne. reflexivity.
Qed.

Lemma get_active_window_process (w : window_world) (s : JarvisMonitor)
    (p : string * string) :
  get_active_window w s = (s, Returned p) -> known_process (snd p).
Proof.
  unfold get_active_window, known_process. py_unfold.
  destruct (platform_system w) as [sys|].
  2:{ intros H. inversion H. cbn. auto. }
  destruct (sys =? "Windows")%string.
  2:{ intros H. inversion H. cbn. auto. }
  destruct (import_win32gui w) as [[]|].
  2:{ intros H. inversion H. cbn. auto. }
  destruct (GetForegroundWindow w) as [hwnd|].
  2:{ intros H. inversion H. cbn. auto. }
  destruct (GetWindowText w hwnd) as [title|]; intros H; inversion H; cbn; auto.
Qed.

Lemma after_check_window (w : activity_world) (s : JarvisMonitor)
    (p : string * string) :
  get_active_window (act_window w) s = (s, Returned p) ->
  current_window (after_check w s) = p
  /\ (p = current_window s -> after_check w s = s)
  /\ (p <> current_window s ->
      after_check w s
      = set_last_activity (act_changed_at w) (set_current_window p s)).
Proof.
  intros Hp. unfold after_check.
  destruct (window_neqb p (current_window s)) eqn:E.
  - apply window_neqb_spec in E.
    rewrite (check_activity_changed _ (act_changed_at w) s p Hp E). cbn [fst].
    split; [destruct s; reflexivity |].
    split; [intros He; contradiction | reflexivity].
  - assert (He : p = current_window s).
    { destruct p as [p1 p2], (current_window s) as [c1 c2].
      unfold window_neqb in E. cbn [fst snd] in E.
      apply negb_false_iff, andb_true_iff in E. destruct E as [E1 E2].
      apply String.eqb_eq in E1, E2. congruence. }
    rewrite (check_activity_same _ (act_changed_at w) s p Hp He). cbn [fst].
    split; [symmetry; exact He |].
    split; [reflexivity | intros Hne; contradiction].
Qed.

(** X5. The row a turn of the activity loop writes describes that very turn:
    its window title and process name are the pair the probe answered in the
    turn (not an older stored one), its timestamp is the ISO text of the time
    read in the turn, it carries a non-empty thumbnail and is marked active;
    and its process name is one of the three constants of the probe. *)
Theorem snapshot_row_describes_turn (w : activity_world) (s : JarvisMonitor)
    (p : string * string) :
  let s' := fst (monitor_activities_turn w s) in
  get_active_window (act_window w) s = (s, Returned p) ->
  activities (db s') <> activities (db s) ->
  exists thumbnail ocr_text,
    activities (db s')
    = activities (db s)
      ++ [mk_activity_row (isoformat (act_now w)) (fst p) (snd p)
            (Some thumbnail) ocr_text true]
    /\ thumbnail <> ""
    /\ known_process (snd p)
    /\ current_window s' = p.
Proof.
  intros s' Hp Hnew. subst s'.
  destruct (monitoring_enabled s) eqn:Hon.
  2:{ rewrite (monitor_activities_turn_disabled w s Hon) in Hnew.
      exfalso. apply Hnew. destruct s; reflexivity. }
  destruct (after_check_frame w s) as (_ & _ & _ & _ & Hdb & _).
  destruct (after_check_window w s p Hp) as (Hcw & _).
  destruct (screenshot_due w s) eqn:Hdue.
  2:{ rewrite (monitor_activities_turn_idle w s Hon Hdue) in Hnew.
      exfalso. apply Hnew. rewrite <- Hdb. destruct (after_check w s); reflexivity. }
  destruct (monitor_activities_turn_capture w s Hon Hdue)
    as (d & evs & b64 & ocr & _ & Htruthy & Hturn & _).
  rewrite Hturn in Hnew |- *.
  destruct (screenshot_taken (act_shot w)).
  2:{ exfalso. apply Hnew. rewrite <- Hdb. destruct (after_check w s); reflexivity. }
  destruct (store_accepts (act_store w)).
  2:{ exfalso. apply Hnew. rewrite <- Hdb. destruct (after_check w s); reflexivity. }
  destruct b64 as [thumb|]; [| discriminate].
  exists thumb, ocr. rewrite <- Hdb, <- Hcw.
  split; [destruct (after_check w s); reflexivity |].
  split.
  { intros ->. discriminate. }
  split; [rewrite Hcw; exact (get_active_window_process _ _ _ Hp) |].
  destruct (after_check w s); reflexivity.
Qed.

Lemma snapshot_row_describes_turn_witness :
  exists thumbnail ocr_text,
    activities (db (fst (monitor_activities_turn first_turn fresh_monitor)))
    = activities (db fresh_monitor)
      ++ [mk_activity_row (isoformat (act_now first_turn)) "Terminal" "bash"
            (Some thumbnail) ocr_text true].
Proof.
  destruct (snapshot_row_describes_turn first_turn fresh_monitor TERMINAL_WINDOW)
    as (thumbnail & ocr_text & Hrow & _).
  - reflexivity.
  - vm_compute. discriminate.
  - exists thumbnail, ocr_text. exact Hrow.
Defined.

(** X6. Where the platform is not Windows the probe always answers
    ("Terminal", "bash"), so once that pair is stored no turn detects
    activity again: over any further turns of the activity loop
    [current_window] and [last_activity] stay as they are, and a turn taken
    60 s or more after [last_activity] writes nothing and only sleeps.  The
    screenshots of such a host stop one minute after the first turn. *)
Theorem posix_host_goes_idle (ws : list activity_world) (w : activity_world)
    (s : JarvisMonitor) :
  Forall (fun x => not_windows (act_window x)) (w :: ws) ->
  current_window s = ("Terminal", "bash") ->
  monitoring_enabled s = true ->
  let s' := run (map ActivitiesTurn ws) s in
  current_window s' = ("Terminal", "bash")
  /\ last_activity s' = last_activity s
  /\ (dt_sub (act_now w) (last_activity s) >= seconds INACTIVITY_THRESHOLD ->
      monitor_activities_turn w s'
      = (set_trace (trace s' ++ [EvSleep 1000]) s', Returned tt)).
Proof.
  intros Hall Hcw Hon s'.
  inversion Hall as [|? ? Hw Hws]; subst. clear Hall.
  assert (Hinv : current_window s' = ("Terminal", "bash")
                 /\ last_activity s' = last_activity s
                 /\ monitoring_enabled s' = true).
  { subst s'. revert s Hcw Hon. induction Hws as [|x rest Hx _ IH]; intros s Hcw Hon.
    - cbn. auto.
    - cbn [map]. rewrite run_cons. cbn [run_step].
      pose proof (get_active_window_posix (act_window x) s Hx) as Hp.
      destruct (after_check_window x s TERMINAL_WINDOW Hp) as (_ & Hsame & _).
      specialize (Hsame (eq_sym Hcw)).
      destruct (monitor_activities_turn_window x s Hon) as (H1 & H2).
      rewrite Hsame in H1, H2.
      pose proof (monitor_activities_turn_flag x s) as Hflag.
      destruct (IH (fst (monitor_activities_turn x s))) as (I1 & I2 & I3).
      + rewrite H1. exact Hcw.
      + rewrite Hflag. exact Hon.
      + rewrite I1, I2, I3, H2. auto. }
  destruct Hinv as (Hcw' & Hla' & Hon').
  split; [exact Hcw' |]. split; [exact Hla' |]. intros Hidle.
  pose proof (get_active_window_posix (act_window w) s' Hw) as Hp.
  destruct (after_check_window w s' TERMINAL_WINDOW Hp) as (_ & Hsame & _).
  specialize (Hsame (eq_sym Hcw')).
  assert (Hdue : screenshot_due w s' = false).
  { unfold screenshot_due, inactive_time. rewrite Hsame, Hla'.
    destruct (dt_sub (act_now w) (last_activity s) <? seconds INACTIVITY_THRESHOLD) eqn:E;
      [apply Z.ltb_lt in E; lia | reflexivity]. }
  rewrite (monitor_activities_turn_idle w s' Hon' Hdue), Hsame. reflexivity.
Qed.

Lemma posix_host_goes_idle_witness :
  let s := fst (monitor_activities_turn first_turn fresh_monitor) in
  monitor_activities_turn posix_turn_later (run (map ActivitiesTurn [retry_turn]) s)
  = (set_trace (trace (run (map ActivitiesTurn [retry_turn]) s) ++ [EvSleep 1000])
       (run (map ActivitiesTurn [retry_turn]) s), Returned tt).
Proof.
  intros s.
  apply (posix_host_goes_idle [retry_turn] posix_turn_later s).
  - repeat constructor; exists "Linux"; split; reflexivity.
  - reflexivity.
  - reflexivity.
  - vm_compute. discriminate.
Defined.

(** X7. The first activity check of a new monitor always registers a
    transition, whatever the probe answers (even when it fails): the window
    stored at construction, a pair of empty strings, is none the probe can
    answer, so [last_activity] is restarted at the first turn. *)
Theorem first_check_always_detects (w : window_world) (now t1 t2 t3 : datetime)
    (stored : database) (on_disk : files) :
  let s := new_monitor t1 t2 t3 stored on_disk in
  exists p,
    check_activity w now s
    = (set_last_activity now (set_current_window p s), Returned true)
    /\ get_active_window w s = (s, Returned p)
    /\ known_process (snd p).
Proof.
  intros s. destruct (get_active_window_answer w) as [p [Hp _]].
  exists p. pose proof (get_active_window_process w s p (Hp s)) as Hk.
  split; [| split; [apply Hp | exact Hk]].
  apply check_activity_changed; [apply Hp |].
  destruct p as [title process]. cbn in Hk |- *. intros H. inversion H; subst.
  destruct Hk as [Hk|[Hk|Hk]]; discriminate.
Qed.

(** ** Failure modes of the captures *)

(** X8. A screenshot capture that fails leaves no row behind but may leave a
    file: when the grab or the save of the full image raises, the artifact
    directory is as before; when the save went through and the thumbnail or
    its encoding raises, the full image stays on disk under its path although
    the capture answers (None, None, "") and the store is untouched. *)
Theorem failed_capture_may_leave_file (enabled : bool) (w : screenshot_world)
    (s : JarvisMonitor) :
  let s' := fst (capture_screenshot_when enabled w s) in
  ((ImageGrab_grab w = Raised
    \/ exists img, ImageGrab_grab w = Returned img /\ save_jpeg img = Raised) ->
   snd (capture_screenshot_when enabled w s) = Returned (None, None, "")
   /\ disk s' = disk s /\ db s' = db s)
  /\ (forall img content,
        ImageGrab_grab w = Returned img ->
        save_jpeg img = Returned content ->
        thumbnail img = Raised \/ save_buffer img = Raised ->
        snd (capture_screenshot_when enabled w s) = Returned (None, None, "")
        /\ In (screenshot_path w, JpegFile content) (disk s')
        /\ db s' = db s).
Proof.
  intros s'. subst s'. split.
  - intros [Hgrab | (img & Hgrab & Hsave)];
      unfold capture_screenshot_when; py_unfold; rewrite Hgrab;
      [| rewrite Hsave]; destruct s; cbn; auto.
  - intros img content Hgrab Hsave Hfail.
    assert (Hrun : exists evs,
               capture_screenshot_when enabled w s
               = (set_trace (trace s ++ EvGrabScreen :: evs)
                    (set_disk (write_file (screenshot_path w) (JpegFile content)
                                 (disk s)) s),
                  Returned (None, None, ""))).
    { unfold capture_screenshot_when.
      unfold try_except, bind at 1. unfold emit, modify at 1.
      unfold bind at 1. unfold call at 1. rewrite Hgrab.
      unfold bind at 1. unfold call at 1. rewrite Hsave.
      unfold bind at 1. unfold save, modify at 1.
      unfold bind at 1.
      match goal with
      | |- context [process_ocr_when enabled img ?s1] =>
          destruct (process_ocr_effect enabled img s1) as (evs & text & Heq & _);
          rewrite Heq
      end.
      exists (evs ++ [EvPrint "Screenshot error"]).
      py_unfold.
      destruct (thumbnail img) as [[]|].
      + destruct Hfail as [Hfail|Hfail]; [discriminate |]. rewrite Hfail.
        destruct s; monitor_simpl. trace_assoc. reflexivity.
      + destruct s; monitor_simpl. trace_assoc. reflexivity. }
    destruct Hrun as [evs Hrun]. rewrite Hrun. cbn [fst snd].
    split; [reflexivity |]. destruct s; monitor_simpl. split; [| reflexivity].
    unfold write_file. apply in_or_app. right. left. reflexivity.
Qed.

Lemma failed_capture_may_leave_file_witness :
  snd (capture_screenshot no_thumbnail_shot fresh_monitor) = Returned (None, None, "")
  /\ In (screenshot_path no_thumbnail_shot, JpegFile ["255"%byte; "216"%byte])
       (disk (fst (capture_screenshot no_thumbnail_shot fresh_monitor)))
  /\ db (fst (capture_screenshot no_thumbnail_shot fresh_monitor)) = db fresh_monitor.
Proof.
  apply (proj2 (failed_capture_may_leave_file OCR_ENABLED no_thumbnail_shot
                  fresh_monitor) no_thumbnail_image ["255"%byte; "216"%byte]).
  - reflexivity.
  - reflexivity.
  - left. reflexivity.
Defined.

Lemma record_video_result (w : video_world) (s : JarvisMonitor) :
  snd (record_video w s) = Returned (recorded_path w).
Proof.
  destruct (record_video_effect w s)
    as (d & pre & post & r & Hrun & _ & _ & _ & _ & _ & Hr).
  rewrite Hrun, Hr. reflexivity.
Qed.

(** X9. [record_video] returns the path of the clip exactly when no call up
    to the release of the writer raises, the connection stores the row and
    the display context closes without raising, and [None] otherwise.  A
    [None] does not always mean that nothing was stored: when only the
    closing of the display context raises, the row is already committed, yet
    the caller gets [None].  Nor does it mean that nothing was recorded: when
    the connection refuses the row, the store is as before and the clip a
    writer that opened has finished stays on disk, with no row naming it. *)
Theorem record_video_return_value (w : video_world) (s : JarvisMonitor) :
  let s' := fst (record_video w s) in
  (snd (record_video w s) = Returned (Some (video_path w))
   <-> calls_return w = true /\ rec_store w = Returned tt
       /\ mss_exit w = Returned tt)
  /\ (~ (calls_return w = true /\ rec_store w = Returned tt
         /\ mss_exit w = Returned tt) ->
      snd (record_video w s) = Returned None)
  /\ (calls_return w = true -> rec_store w = Returned tt -> mss_exit w = Raised ->
      snd (record_video w s) = Returned None
      /\ videos (db s')
         = videos (db s)
           ++ [mk_video_row (isoformat (rec_row_now w)) 10 (video_path w)])
  /\ (calls_return w = true -> rec_store w = Raised ->
      snd (record_video w s) = Returned None
      /\ db s' = db s
      /\ (writer_opens w = true ->
          In (video_path w, Mp4File (List.length (rec_frames w)) true) (disk s'))).
Proof.
  intros s'. subst s'. rewrite (record_video_result w s).
  unfold recorded_path, row_stored.
  split; [| split; [| split]].
  - destruct (calls_return w), (rec_store w) as [[]|], (mss_exit w) as [[]|];
      cbn; split; try (intros (H1 & H2 & H3)); try intros H;
      try discriminate; auto.
  - intros Hn.
    destruct (calls_return w), (rec_store w) as [[]|], (mss_exit w) as [[]|];
      cbn; try reflexivity.
    exfalso. apply Hn. auto.
  - intros Hc Hs Hx. rewrite Hc, Hs, Hx. cbn. split; [reflexivity |].
    destruct (record_video_effect w s) as (d & pre & post & r & Hrun & _).
    assert (Hrow : row_stored w = true) by (apply row_stored_iff; auto).
    rewrite Hrun, Hrow. destruct s; reflexivity.
  - intros Hc Hs. rewrite Hc, Hs. cbn. split; [reflexivity |].
    destruct (record_video_effect w s)
      as (d & pre & post & r & Hrun & _ & _ & _ & Hfile & _).
    assert (Hrow : row_stored w = false)
      by (unfold row_stored; rewrite Hs, andb_false_r; reflexivity).
    rewrite Hrun, Hrow. split; [destruct s; reflexivity |].
    intros Ho. destruct s; cbn. apply Hfile. unfold encode_completes.
    rewrite Hc, Ho. reflexivity.
Qed.

Lemma record_video_return_value_witness :
  (calls_return unclosed_recording = true
   /\ rec_store unclosed_recording = Returned tt
   /\ mss_exit unclosed_recording = Raised)
  /\ snd (record_video unclosed_recording fresh_monitor) = Returned None
  /\ videos (db (fst (record_video unclosed_recording fresh_monitor)))
     = [mk_video_row "2024-03-01T09:30:02" 10
          "JARVIS_DATA/videos/recording_20240301_093001.mp4"].
Proof.
  split; [repeat split |].
  destruct (record_video_return_value unclosed_recording fresh_monitor)
    as (_ & _ & H & _).
  exact (H eq_refl eq_refl eq_refl).
Defined.

(** ** The loops *)

Lemma while_running_stopped {W : Type} (turn : W -> M unit) (ws : list W)
    (s : JarvisMonitor) :
  stop_event s = true -> while_running turn ws s = (s, Returned tt).
Proof.
  intros Hstop. destruct ws as [|w rest]; [reflexivity |].
  cbn [while_running]. py_unfold. rewrite Hstop. reflexivity.
Qed.

Lemma while_running_runs {W : Type} (turn : W -> M unit) (inj : W -> step) :
  (forall w s, turn w s = (run_step (inj w) s, Returned tt)) ->
  forall ws s,
    stop_event s = false ->
    while_running turn ws s = (run (map inj ws) s, Returned tt).
Proof.
  intros Hturn. induction ws as [|w rest IH]; intros s Hstop.
  - reflexivity.
  - cbn [while_running map]. rewrite run_cons. unfold bind at 1. unfold gets at 1.
    rewrite Hstop. unfold bind at 1. rewrite Hturn.
    apply IH. rewrite run_step_stop_event. exact Hstop.
Qed.

Lemma monitor_activities_turn_returns (w : activity_world) (s : JarvisMonitor) :
  monitor_activities_turn w s = (run_step (ActivitiesTurn w) s, Returned tt).
Proof.
  destruct (monitor_activities_turn_shape w s)
    as (tr & dk & cw & la & lshot & acts & Hrun & _).
  cbn [run_step]. rewrite Hrun. reflexivity.
Qed.

Lemma monitor_system_turn_returns (w : system_world) (s : JarvisMonitor) :
  monitor_system_turn w s = (run_step (SystemTurn w) s, Returned tt).
Proof.
  destruct (monitor_system_turn_shape w s) as (tr & ms & Hrun & _).
  cbn [run_step]. rewrite Hrun. reflexivity.
Qed.

Lemma monitor_videos_turn_returns (w : videos_world) (s : JarvisMonitor) :
  monitor_videos_turn w s = (run_step (VideosTurn w) s, Returned tt).
Proof.
  destruct (monitor_videos_turn_shape w s) as (tr & dk & lv & vs & Hrun & _).
  cbn [run_step]. rewrite Hrun. reflexivity.
Qed.

(** X10. No loop ever ends by an exception, and none stops itself: started
    with the stop event clear, each of the three loops takes every turn it is
    given, in order, each turn from the state the previous one left, and
    returns normally; started with the stop event set it takes no turn and
    leaves the monitor untouched. *)
Theorem loops_take_every_turn (s : JarvisMonitor)
    (was : list activity_world) (wss : list system_world) (wvs : list videos_world) :
  (stop_event s = false ->
   monitor_activities was s = (run (map ActivitiesTurn was) s, Returned tt)
   /\ monitor_system wss s = (run (map SystemTurn wss) s, Returned tt)
   /\ monitor_videos wvs s = (run (map VideosTurn wvs) s, Returned tt))
  /\ (stop_event s = true ->
      monitor_activities was s = (s, Returned tt)
      /\ monitor_system wss s = (s, Returned tt)
      /\ monitor_videos wvs s = (s, Returned tt)).
Proof.
  split; intros Hstop.
  - split; [| split].
    + apply (while_running_runs monitor_activities_turn ActivitiesTurn
               monitor_activities_turn_returns was s Hstop).
    + apply (while_running_runs monitor_system_turn SystemTurn
               monitor_system_turn_returns wss s Hstop).
    + apply (while_running_runs monitor_videos_turn VideosTurn
               monitor_videos_turn_returns wvs s Hstop).
  - split; [| split]; apply while_running_stopped; exact Hstop.
Qed.

Lemma loops_take_every_turn_witness :
  stop_event fresh_monitor = false
  /\ monitor_activities [first_turn; retry_turn] fresh_monitor
     = (run [ActivitiesTurn first_turn; ActivitiesTurn retry_turn] fresh_monitor,
        Returned tt).
Proof.
  split; [reflexivity |].
  apply (loops_take_every_turn fresh_monitor [first_turn; retry_turn] [] []).
  reflexivity.
Defined.

Lemma run_system_turns (ws : list system_world) :
  forall s,
    monitoring_enabled s = true ->
    run (map SystemTurn ws) s
    = set_trace (trace s ++ metric_events ws)
        (set_db (mk_database (metrics (db s) ++ metric_rows ws)
                   (activities (db s)) (videos (db s))) s).
Proof.
  induction ws as [|w rest IH]; intros s Hon.
  - cbn. rewrite !app_nil_r. destruct s as [? ? ? ? ? ? [? ? ?] ? ?]. reflexivity.
  - cbn [map]. rewrite run_cons. cbn [run_step].
    rewrite (monitor_system_turn_enabled w s Hon).
    unfold metric_rows, metric_events. cbn [flat_map].
    fold (metric_rows rest). fold (metric_events rest).
    destruct (stored_metric w) as [r|]; cbn [fst]; rewrite IH;
      try (destruct s; exact Hon);
      destruct s as [? ? ? ? ? ? [? ? ?] ? ?]; unfold add_metric; monitor_simpl;
      rewrite <- ?app_assoc; reflexivity.
Qed.

(** X11. While monitoring stays enabled the metrics loop stores one row for
    each turn in which psutil answers, both network counters fit the 64 bits
    of an [INTEGER] and the connection stores the row, in the order of the
    turns, and sleeps five seconds after each; a turn in which a psutil call
    raises, a counter does not fit or the connection refuses the row stores
    nothing, prints the error and goes straight to the next turn without
    sleeping.  Nothing else of the monitor changes. *)
Theorem metrics_loop_rows_in_turn_order (ws : list system_world) (s : JarvisMonitor) :
  stop_event s = false ->
  monitoring_enabled s = true ->
  monitor_system ws s
  = (set_trace (trace s ++ metric_events ws)
       (set_db (mk_database (metrics (db s) ++ metric_rows ws)
                  (activities (db s)) (videos (db s))) s),
     Returned tt)
  /\ (forall w cpu mem sent recv,
        stored_metric w
        = Some (mk_metric_row (isoformat (sys_now w)) cpu mem sent recv)
        <-> cpu_percent w = Returned cpu /\ virtual_memory_percent w = Returned mem
            /\ net_io_counters w = Returned (sent, recv)
            /\ (- 2 ^ 63 <= sent < 2 ^ 63 /\ - 2 ^ 63 <= recv < 2 ^ 63)
            /\ sys_store w = Returned tt)
  /\ (forall w r, stored_metric w = Some r -> m_timestamp r = isoformat (sys_now w))
  /\ (Forall (fun w => stored_metric w = None) ws ->
      metric_rows ws = []
      /\ metric_events ws
         = repeat (EvPrint "System monitoring error") (List.length ws)).
Proof.
  intros Hstop Hon. split; [| split; [| split]].
  - unfold monitor_system.
    rewrite (while_running_runs monitor_system_turn SystemTurn
               monitor_system_turn_returns ws s Hstop).
    rewrite (run_system_turns ws s Hon). reflexivity.
  - intros w cpu mem sent recv. unfold stored_metric, sampled_metric, fits_int64.
    destruct (cpu_percent w) as [c|]; [| split; [discriminate | intros (H & _); discriminate]].
    destruct (virtual_memory_percent w) as [m|];
      [| split; [discriminate | intros (_ & H & _); discriminate]].
    destruct (net_io_counters w) as [[ns nr]|];
      [| split; [discriminate | intros (_ & _ & H & _); discriminate]].
    cbn [m_network_sent m_network_recv fst snd].
    destruct (sys_store w) as [[]|]; cbn [store_accepts].
    + destruct ((- 2 ^ 63 <=? ns) && (ns <? 2 ^ 63)
                && ((- 2 ^ 63 <=? nr) && (nr <? 2 ^ 63))) eqn:E.
      * rewrite !andb_true_iff, !Z.leb_le, !Z.ltb_lt in E. cbn [andb]. split.
        -- intros H. inversion H; subst. repeat split; lia.
        -- intros (H1 & H2 & H3 & _). inversion H1; inversion H2; inversion H3.
           reflexivity.
      * cbn [andb]. split; [discriminate |].
        intros (H1 & H2 & H3 & (Hs & Hr) & _). inversion H3; subst. exfalso.
        assert ((- 2 ^ 63 <=? sent) && (sent <? 2 ^ 63)
                && ((- 2 ^ 63 <=? recv) && (recv <? 2 ^ 63)) = true); [| congruence].
        rewrite !andb_true_iff, !Z.leb_le, !Z.ltb_lt. lia.
    + rewrite andb_false_r. split; [discriminate |].
      intros (_ & _ & _ & _ & H). discriminate.
  - intros w r. unfold stored_metric, sampled_metric.
    destruct (cpu_percent w), (virtual_memory_percent w), (net_io_counters w);
      try discriminate.
    match goal with |- context [if ?c then _ else _] => destruct c end;
      [| discriminate].
    intros H. inversion H. reflexivity.
  - induction 1 as [|w rest Hw _ [IH1 IH2]]; [split; reflexivity |].
    unfold metric_rows, metric_events. cbn [flat_map List.length repeat].
    fold (metric_rows rest). fold (metric_events rest).
    rewrite Hw, IH1, IH2. split; reflexivity.
Qed.

Lemma metrics_loop_rows_in_turn_order_witness :
  monitor_system
    [sample_readings; failing_readings; refused_readings; overflowing_readings]
    fresh_monitor
  = (set_trace (trace fresh_monitor
                  ++ [EvCommit "metrics"; EvSleep 5000;
                      EvPrint "System monitoring error";
                      EvPrint "System monitoring error";
                      EvPrint "System monitoring error"])
       (set_db (mk_database
                  [mk_metric_row "2024-03-01T09:00:30" (25 # 2) (81 # 2) 1024 2048]
                  [] []) fresh_monitor),
     Returned tt).
Proof.
  apply (metrics_loop_rows_in_turn_order
           [sample_readings; failing_readings; refused_readings;
            overflowing_readings] fresh_monitor); reflexivity.
Defined.

(** ** The control request *)

(** X12. A control request flips the monitoring flag exactly when its body
    is an object whose "action" is the string "toggle"; the status answered
    is the flag after the request, the one [get_status] reports next.  With
    the key missing or holding anything else the request changes nothing and
    answers the current flag; a body that is not an object makes the handler
    raise with the monitor untouched.  Two toggle requests in a row restore
    the monitor. *)
Theorem control_monitoring_toggles_on_request (body : json) (s : JarvisMonitor) :
  (forall members,
      body = JObject members ->
      exists status,
        control_monitoring (Returned body) s
        = ((if is_string (dict_lookup "action" members) "toggle"
            then set_monitoring_enabled (negb (monitoring_enabled s)) s
            else s), Returned status)
        /\ status = (if is_string (dict_lookup "action" members) "toggle"
                     then negb (monitoring_enabled s) else monitoring_enabled s)
        /\ get_status (fst (control_monitoring (Returned body) s))
           = (fst (control_monitoring (Returned body) s),
              Returned (status, OCR_ENABLED)))
  /\ ((forall members, body <> JObject members) ->
      control_monitoring (Returned body) s = (s, Raised))
  /\ control_monitoring Raised s = (s, Raised)
  /\ fst (control_monitoring (Returned toggle_request)
            (fst (control_monitoring (Returned toggle_request) s))) = s.
Proof.
  split; [| split; [| split]].
  - intros members ->. unfold control_monitoring, toggle_monitoring, get_status.
    py_unfold. cbn [json_get].
    destruct (is_string (dict_lookup "action" members) "toggle");
      eexists; split; try reflexivity; split; try reflexivity;
      destruct s; reflexivity.
  - intros Hnot. unfold control_monitoring. py_unfold.
    destruct body; cbn [json_get]; try reflexivity.
    exfalso. eapply Hnot. reflexivity.
  - reflexivity.
  - destruct s as [st en la ls lv cw d dk tr]. cbn. rewrite negb_involutive.
    reflexivity.
Qed.

Lemma control_monitoring_toggles_on_request_witness :
  exists status,
    control_monitoring (Returned other_request) fresh_monitor
    = (fresh_monitor, Returned status)
    /\ status = true.
Proof.
  destruct (proj1 (control_monitoring_toggles_on_request other_request fresh_monitor)
              [("action", JString "status")] eq_refl)
    as (status & Hrun & Hstatus & _).
  exists status. split; [exact Hrun | exact Hstatus].
Defined.

(** ** The media list *)

Lemma insert_reverse_perm (x : string) (l : list string) :
  Permutation (insert_reverse x l) (x :: l).
Proof.
  induction l as [|y rest IH]; cbn [insert_reverse].
  - apply Permutation_refl.
  - destruct (String.leb y x).
    + apply Permutation_refl.
    + apply perm_trans with (y :: x :: rest);
        [apply perm_skip; exact IH | apply perm_swap].
Qed.

Lemma insert_reverse_sorted (x : string) (l : list string) :
  names_newest_first l -> names_newest_first (insert_reverse x l).
Proof.
  unfold names_newest_first.
  induction l as [|y rest IH]; intros Hs; cbn [insert_reverse].
  - constructor; constructor.
  - inversion Hs as [|? ? Hrest Hall]; subst.
    destruct (String.leb y x) eqn:E.
    + constructor; [exact Hs |]. constructor; [exact E |].
      rewrite Forall_forall in Hall |- *. intros z Hz.
      apply not_older_trans with y; [exact E | exact (Hall z Hz)].
    + constructor; [apply IH; exact Hrest |].
      rewrite Forall_forall in Hall |- *. intros z Hz.
      apply (Permutation_in _ (insert_reverse_perm x rest)) in Hz.
      destruct Hz as [Hz|Hz]; [subst z | exact (Hall z Hz)].
      destruct (not_older_total y x) as [H|H]; [exact H |].
      unfold not_older in H. congruence.
Qed.

Lemma sorted_reverse_perm (l : list string) : Permutation (sorted_reverse l) l.
Proof.
  induction l as [|x rest IH]; cbn.
  - constructor.
  - apply perm_trans with (x :: sorted_reverse rest);
      [apply insert_reverse_perm | apply perm_skip; exact IH].
Qed.

Lemma sorted_reverse_sorted (l : list string) : names_newest_first (sorted_reverse l).
Proof.
  induction l as [|x rest IH]; cbn.
  - constructor.
  - apply insert_reverse_sorted. exact IH.
Qed.

Lemma names_newest_first_split (n : nat) (l : list string) :
  names_newest_first l ->
  names_newest_first (firstn n l)
  /\ forall x y, In x (firstn n l) -> In y (skipn n l) -> not_older x y.
Proof.
  unfold names_newest_first. revert n.
  induction l as [|a rest IH]; intros n Hs.
  - rewrite firstn_nil, skipn_nil. split; [constructor | intros x y []].
  - destruct n as [|n]; cbn [firstn skipn].
    + split; [constructor | intros x y []].
    + inversion Hs as [|? ? Hrest Hall]; subst.
      destruct (IH n Hrest) as [Hf Hcut]. rewrite Forall_forall in Hall. split.
      * constructor; [exact Hf |].
        rewrite Forall_forall. intros y Hy. apply Hall. exact (in_firstn _ _ _ Hy).
      * intros x y [Hx|Hx] Hy.
        -- subst x. apply Hall. exact (in_skipn _ _ _ Hy).
        -- exact (Hcut x y Hx Hy).
Qed.

Lemma newest_media_spec (ext : string) (n : nat) (names : list string) :
  newest_of ext n names (newest_media ext n names).
Proof.
  unfold newest_of, newest_media.
  set (matching := filter (fun f => endswith f ext) names).
  destruct (names_newest_first_split n _ (sorted_reverse_sorted matching))
    as [Hfirst Hcut].
  split; [| split; [exact Hfirst | split]].
  - intros f Hf. apply in_firstn in Hf.
    apply (Permutation_in _ (sorted_reverse_perm _)) in Hf.
    apply filter_In in Hf. exact Hf.
  - rewrite length_firstn, (Permutation_length (sorted_reverse_perm _)). reflexivity.
  - exists (skipn n (sorted_reverse matching)). split; [| exact Hcut].
    rewrite firstn_skipn. apply sorted_reverse_perm.
Qed.

(** X13. The media list answers, for each of the two directories, with
    names of the listing that end in the extension (".jpg", ".mp4"), in
    descending order, at most five screenshots and three videos and all the
    matching names when there are fewer; the names left out are matching
    names no greater than any name answered.  It leaves the monitor as it is,
    and it raises when a directory cannot be listed. *)
Theorem get_media_list_newest_names (shots clips : list string) (s : JarvisMonitor) :
  (exists screenshots videos,
      get_media_list (Returned shots) (Returned clips) s
      = (s, Returned (screenshots, videos))
      /\ newest_of ".jpg" 5 shots screenshots
      /\ newest_of ".mp4" 3 clips videos)
  /\ get_media_list Raised (Returned clips) s = (s, Raised)
  /\ get_media_list (Returned shots) Raised s = (s, Raised).
Proof.
  split; [| split; reflexivity].
  exists (newest_media ".jpg" 5 shots), (newest_media ".mp4" 3 clips).
  split; [reflexivity |]. split; apply newest_media_spec.
Qed.

Example get_media_list_sample :
  snd (get_media_list
         (Returned ["screenshot_20240301_090030.jpg"; "notes.txt";
                    "screenshot_20240301_093000.jpg"; "a.jpg.tmp"])
         (Returned []) fresh_monitor)
  = Returned (["screenshot_20240301_093000.jpg"; "screenshot_20240301_090030.jpg"],
              []).
Proof. reflexivity. Qed.

Lemma substring_whole (s : string) : substring 0 (String.length s) s = s.
Proof.
  induction s as [|c rest IH]; cbn; [reflexivity | rewrite IH; reflexivity].
Qed.

Lemma substring_skip (a s : string) (n : nat) :
  substring (String.length a) n (a ++ s) = substring 0 n s.
Proof.
  induction a as [|c rest IH]; cbn [String.length append]; [reflexivity |].
  cbn [substring]. exact IH.
Qed.

Lemma length_append (a b : string) :
  String.length (a ++ b) = (String.length a + String.length b)%nat.
Proof.
  induction a as [|c rest IH]; cbn; [reflexivity | rewrite IH; reflexivity].
Qed.

Lemma string_append_assoc (a b c : string) :
  ((a ++ b) ++ c = a ++ (b ++ c))%string.
Proof.
  induction a as [|x rest IH]; cbn; [reflexivity | rewrite IH; reflexivity].
Qed.

Lemma endswith_append (a suffix : string) : endswith (a ++ suffix) suffix = true.
Proof.
  unfold endswith. rewrite length_append.
  replace (String.length a + String.length suffix - String.length suffix)%nat
    with (String.length a) by lia.
  rewrite substring_skip, substring_whole, String.eqb_refl, andb_true_r.
  apply Nat.leb_le. lia.
Qed.

Lemma newest_media_keeps_all (ext : string) (n : nat) (names : list string) (f : string) :
  In f names -> endswith f ext = true ->
  (List.length (filter (fun x => endswith x ext) names) <= n)%nat ->
  In f (newest_media ext n names).
Proof.
  intros Hin Hext Hfew. unfold newest_media.
  rewrite firstn_all2
    by (rewrite (Permutation_length (sorted_reverse_perm _)); exact Hfew).
  apply (Permutation_in _ (Permutation_sym (sorted_reverse_perm _))).
  apply filter_In. split; assumption.
Qed.

(** X14. The files the two captures write are the ones the media list looks
    for: a screenshot is saved under the screenshots directory with a name
    ending in ".jpg", a clip under the videos directory with a name ending in
    ".mp4", so each passes the filter of [get_media_list]; a listing that
    holds the name, with no more than five (three) matching names, has it in
    the answer. *)
Theorem captured_files_are_listed (ws : screenshot_world) (wv : video_world)
    (shots clips : list string) (s : JarvisMonitor) :
  screenshot_path ws
  = os_path_join (shot_sep ws) [DATA_DIR; "screenshots"; screenshot_filename ws]
  /\ video_path wv
     = os_path_join (rec_sep wv) [DATA_DIR; "videos"; recording_filename wv]
  /\ endswith (screenshot_filename ws) ".jpg" = true
  /\ endswith (recording_filename wv) ".mp4" = true
  /\ (In (screenshot_filename ws) shots ->
      (List.length (filter (fun f => endswith f ".jpg") shots) <= 5)%nat ->
      exists screenshots videos,
        get_media_list (Returned shots) (Returned clips) s
        = (s, Returned (screenshots, videos))
        /\ In (screenshot_filename ws) screenshots)
  /\ (In (recording_filename wv) clips ->
      (List.length (filter (fun f => endswith f ".mp4") clips) <= 3)%nat ->
      exists screenshots videos,
        get_media_list (Returned shots) (Returned clips) s
        = (s, Returned (screenshots, videos))
        /\ In (recording_filename wv) videos).
Proof.
  assert (Hjpg : endswith (screenshot_filename ws) ".jpg" = true).
  { unfold screenshot_filename. rewrite <- string_append_assoc.
    apply endswith_append. }
  assert (Hmp4 : endswith (recording_filename wv) ".mp4" = true).
  { unfold recording_filename. rewrite <- string_append_assoc.
    apply endswith_append. }
  split; [reflexivity |]. split; [reflexivity |].
  split; [exact Hjpg |]. split; [exact Hmp4 |]. split.
  - intros Hin Hfew.
    exists (newest_media ".jpg" 5 shots), (newest_media ".mp4" 3 clips).
    split; [reflexivity |]. apply newest_media_keeps_all; assumption.
  - intros Hin Hfew.
    exists (newest_media ".jpg" 5 shots), (newest_media ".mp4" 3 clips).
    split; [reflexivity |]. apply newest_media_keeps_all; assumption.
Qed.

Lemma captured_files_are_listed_witness :
  exists screenshots videos,
    get_media_list (Returned ["notes.txt"; screenshot_filename good_shot])
      (Returned []) fresh_monitor
    = (fresh_monitor, Returned (screenshots, videos))
    /\ In (screenshot_filename good_shot) screenshots.
Proof.
  apply (captured_files_are_listed good_shot good_recording
           ["notes.txt"; screenshot_filename good_shot] [] fresh_monitor).
  - right. left. reflexivity.
  - vm_compute. lia.
Defined.

(** ** A new snapshot in the history *)

Lemma order_by_timestamp_desc_newest (r : activity_row) (l : list activity_row) :
  Forall (fun x => String.ltb (a_timestamp x) (a_timestamp r) = true) l ->
  order_by_timestamp_desc (l ++ [r]) = r :: order_by_timestamp_desc l.
Proof.
  unfold order_by_timestamp_desc. rewrite fold_right_app. cbn [fold_right insert_desc].
  induction 1 as [|x rest Hx _ IH]; [reflexivity |].
  cbn [fold_right]. rewrite IH. cbn [insert_desc].
  unfold String.ltb in Hx. unfold String.leb.
  rewrite String.compare_antisym.
  destruct (String.compare (a_timestamp x) (a_timestamp r)); try discriminate.
  reflexivity.
Qed.

Lemma firstn_firstn_le {A : Type} (n m : nat) (l : list A) :
  (n <= m)%nat -> firstn n (firstn m l) = firstn n l.
Proof.
  intros H. rewrite firstn_firstn. f_equal. lia.
Qed.

(** X15. A snapshot that is newer than everything stored shows up at once:
    when a turn of the activity loop adds a row whose timestamp text is
    greater than that of every active row already in the table, the history
    query (its [SELECT] being answered) answers with that row first, followed
    by the first nine entries it answered before. *)
Theorem new_snapshot_heads_history (w : activity_world) (s : JarvisMonitor) :
  let s' := fst (monitor_activities_turn w s) in
  activities (db s') <> activities (db s) ->
  (forall x, In x (activities (db s)) -> a_active_session x = true ->
             String.ltb (a_timestamp x) (isoformat (act_now w)) = true) ->
  exists e before,
    get_activity_history (Returned tt) s = (s, Returned before)
    /\ get_activity_history (Returned tt) s' = (s', Returned (e :: firstn 9 before))
    /\ h_timestamp e = isoformat (act_now w)
    /\ (h_window e, h_process e) = current_window s'.
Proof.
  intros s' Hnew Hnewest. subst s'.
  destruct (monitoring_enabled s) eqn:Hon.
  2:{ rewrite (monitor_activities_turn_disabled w s Hon) in Hnew.
      exfalso. apply Hnew. destruct s; reflexivity. }
  destruct (monitor_activities_turn_window w s Hon) as (Hcw & _).
  destruct (monitor_activities_turn_cases w s Hon)
    as [(_ & (b64 & ocr & Hdb) & _) | (_ & Hdb & _)];
    [| rewrite Hdb in Hnew; contradiction].
  set (r := activity_record (act_now w) (current_window (after_check w s)) b64 ocr)
    in Hdb.
  exists (history_entry_of r), (map history_entry_of (select_recent_activities (db s))).
  split; [apply get_activity_history_answered |].
  split; [| split; [reflexivity |]].
  - rewrite get_activity_history_answered. f_equal. f_equal.
    unfold select_recent_activities. rewrite Hdb.
    unfold add_activity. cbn [activities].
    rewrite filter_app. cbn [filter]. change (a_active_session r) with true.
    cbn iota. rewrite order_by_timestamp_desc_newest.
    + change HISTORY_LIMIT with (S 9). rewrite firstn_cons. cbn [map].
      rewrite <- !firstn_map. f_equal.
      symmetry. apply firstn_firstn_le. lia.
    + rewrite Forall_forall. intros x Hx. apply filter_In in Hx.
      destruct Hx as [Hx Hact]. exact (Hnewest x Hx Hact).
  - rewrite Hcw. cbn. destruct (current_window (after_check w s)); reflexivity.
Qed.

Lemma new_snapshot_heads_history_witness :
  exists e before,
    get_activity_history (Returned tt) fresh_monitor = (fresh_monitor, Returned before)
    /\ get_activity_history (Returned tt)
         (fst (monitor_activities_turn first_turn fresh_monitor))
       = (fst (monitor_activities_turn first_turn fresh_monitor),
          Returned (e :: firstn 9 before))
    /\ h_timestamp e = isoformat (act_now first_turn).
Proof.
  destruct (new_snapshot_heads_history first_turn fresh_monitor)
    as (e & before & H0 & H1 & H2 & _).
  - vm_compute. discriminate.
  - intros x [].
  - exists e, before. split; [exact H0 |]. split; assumption.
Defined.

(** ** The video cadence *)

Lemma monitor_videos_turn_records (w : videos_world) (s : JarvisMonitor) :
  videos (db (fst (monitor_videos_turn w s))) <> videos (db s) ->
  dt_sub (vid_now w) (last_video s) > seconds VIDEO_INTERVAL
  /\ last_video (fst (monitor_videos_turn w s)) = vid_after w.
Proof.
  intros Hnew. destruct (monitoring_enabled s) eqn:Hon.
  - destruct (Z_gt_le_dec (dt_sub (vid_now w) (last_video s)) (seconds VIDEO_INTERVAL))
      as [Hdue|Hnot].
    + split; [exact Hdue |]. rewrite (monitor_videos_turn_due w s Hon Hdue).
      destruct (fst (record_video (vid_record w) s)); reflexivity.
    + rewrite (monitor_videos_turn_not_due w s Hon Hnot) in Hnew.
      exfalso. apply Hnew. destruct s; reflexivity.
  - rewrite (monitor_videos_turn_disabled w s Hon) in Hnew.
    exfalso. apply Hnew. destruct s; reflexivity.
Qed.

Lemma monitor_videos_turn_last_video (w : videos_world) (s : JarvisMonitor) :
  to_microseconds (vid_now w) <= to_microseconds (vid_after w) ->
  to_microseconds (last_video s)
  <= to_microseconds (last_video (fst (monitor_videos_turn w s))).
Proof.
  intros Hclock. destruct (monitoring_enabled s) eqn:Hon.
  - destruct (Z_gt_le_dec (dt_sub (vid_now w) (last_video s)) (seconds VIDEO_INTERVAL))
      as [Hdue|Hnot].
    + rewrite (monitor_videos_turn_due w s Hon Hdue).
      destruct (fst (record_video (vid_record w) s)). monitor_simpl.
      unfold dt_sub, seconds, VIDEO_INTERVAL in Hdue. lia.
    + rewrite (monitor_videos_turn_not_due w s Hon Hnot).
      destruct s; monitor_simpl. lia.
  - rewrite (monitor_videos_turn_disabled w s Hon). destruct s; monitor_simpl. lia.
Qed.

Lemma run_last_video (steps : list step) :
  Forall clock_forward steps ->
  forall s,
    to_microseconds (last_video s) <= to_microseconds (last_video (run steps s)).
Proof.
  induction 1 as [|e rest He _ IH]; intros s.
  - cbn. lia.
  - rewrite run_cons. specialize (IH (run_step e s)).
    assert (to_microseconds (last_video s)
            <= to_microseconds (last_video (run_step e s))); [| lia].
    destruct e as [w|w|w|]; cbn [clock_forward] in He.
    + destruct (run_step_shape (ActivitiesTurn w) s)
        as (tr & dk & cw & la & lshot & lv & ms & acts & vs & Hstep & _ & Hvid & _).
      destruct (Hvid eq_refl) as (-> & _). rewrite Hstep. monitor_simpl. lia.
    + destruct (run_step_shape (SystemTurn w) s)
        as (tr & dk & cw & la & lshot & lv & ms & acts & vs & Hstep & _ & Hvid & _).
      destruct (Hvid eq_refl) as (-> & _). rewrite Hstep. monitor_simpl. lia.
    + apply monitor_videos_turn_last_video. exact He.
    + unfold run_step, toggle_monitoring, modify. destruct s; monitor_simpl. lia.
Qed.

(** X16. A clip is recorded only in a turn of the video loop that reads the
    clock more than [VIDEO_INTERVAL] = 1800 s after [last_video], and every
    attempt, successful or not, sets [last_video] to the time read after it.
    So, as long as the clock does not go back within a turn, two clips stored
    by the engine are more than half an hour apart: the later one is started
    more than 1800 s after the end of the earlier attempt, whatever happens
    in between. *)
Theorem recordings_half_an_hour_apart
    (w1 w2 : videos_world) (between : list step) (s : JarvisMonitor) :
  let s1 := fst (monitor_videos_turn w1 s) in
  let s2 := run between s1 in
  let s3 := fst (monitor_videos_turn w2 s2) in
  Forall clock_forward between ->
  videos (db s1) <> videos (db s) ->
  videos (db s3) <> videos (db s2) ->
  dt_sub (vid_now w1) (last_video s) > seconds 1800
  /\ last_video s1 = vid_after w1
  /\ dt_sub (vid_now w2) (vid_after w1) > seconds 1800
  /\ last_video s3 = vid_after w2.
Proof.
  intros s1 s2 s3 Hclock Hfirst Hsecond.
  destruct (monitor_videos_turn_records w1 s Hfirst) as (Hdue1 & Hlv1).
  destruct (monitor_videos_turn_records w2 s2 Hsecond) as (Hdue2 & Hlv2).
  fold s1 in Hlv1. fold s3 in Hlv2.
  pose proof (run_last_video between Hclock s1) as Hmono. fold s2 in Hmono.
  split; [exact Hdue1 |]. split; [exact Hlv1 |]. split; [| exact Hlv2].
  rewrite Hlv1 in Hmono.
  unfold dt_sub, seconds, VIDEO_INTERVAL in *. lia.
Qed.

Lemma recordings_half_an_hour_apart_witness :
  dt_sub (vid_now second_recording_turn) (vid_after first_recording_turn)
  > seconds 1800.
Proof.
  apply (recordings_half_an_hour_apart first_recording_turn second_recording_turn
           [ActivitiesTurn first_turn] fresh_monitor).
  - repeat constructor.
  - vm_compute. discriminate.
  - vm_compute. discriminate.
Defined.

(** ** Files and the rows that name them *)

Lemma files_kept_refl (d : files) : files_kept d d.
Proof. intros path H. exact H. Qed.

Lemma files_kept_trans (a b c : files) :
  files_kept a b -> files_kept b c -> files_kept a c.
Proof. intros Hab Hbc path H. apply Hbc, Hab, H. Qed.

Lemma write_file_has (path : string) (a : artifact) (d : files) :
  has_file (write_file path a d) path.
Proof.
  exists a. unfold write_file. apply in_or_app. right. left. reflexivity.
Qed.

Lemma write_file_kept (path : string) (a : artifact) (d : files) :
  files_kept d (write_file path a d).
Proof.
  intros q [b Hb]. destruct (String.eqb_spec q path) as [->|Hne].
  - apply write_file_has.
  - exists b. unfold write_file. apply in_or_app. left.
    apply filter_In. split; [exact Hb |]. cbn [fst].
    apply negb_true_iff. apply String.eqb_neq. exact Hne.
Qed.

Lemma process_ocr_disk (enabled : bool) (img : image) (s : JarvisMonitor) :
  disk (fst (process_ocr_when enabled img s)) = disk s.
Proof.
  destruct (process_ocr_effect enabled img s) as (evs & text & Heq & _).
  rewrite Heq. destruct s; reflexivity.
Qed.

Lemma capture_screenshot_files (enabled : bool) (w : screenshot_world)
    (s : JarvisMonitor) :
  files_kept (disk s) (disk (fst (capture_screenshot_when enabled w s))).
Proof.
  unfold capture_screenshot_when.
  destruct s as [st en la ls lv cw d dk tr].
  destruct (ImageGrab_grab w) as [img|]; py_unfold; monitor_simpl;
    [| apply files_kept_refl].
  destruct (save_jpeg img) as [content|]; py_unfold; monitor_simpl;
    [| apply files_kept_refl].
  match goal with
  | |- context [process_ocr_when enabled img ?s1] =>
      destruct (process_ocr_effect enabled img s1) as (evs & text & Heq & _);
      rewrite Heq
  end.
  monitor_simpl.
  destruct (thumbnail img) as [[]|]; py_unfold; monitor_simpl;
    [| apply write_file_kept].
  destruct (save_buffer img) as [buffer|]; py_unfold; monitor_simpl;
    apply write_file_kept.
Qed.

Lemma record_frames_files (path : string) (opened : bool) (turns : list frame_world) :
  forall (written : nat) (s : JarvisMonitor),
    files_kept (disk s) (disk (fst (record_frames path opened written turns s))).
Proof.
  induction turns as [|t rest IH]; intros written s.
  - apply files_kept_refl.
  - cbn [record_frames]. destruct s as [st en la ls lv cw d dk tr].
    destruct (sct_grab t) as [[]|]; py_unfold; monitor_simpl;
      [| apply files_kept_refl].
    destruct (cvtColor t) as [[]|]; py_unfold; monitor_simpl;
      [| apply files_kept_refl].
    destruct (out_write t) as [[]|]; py_unfold; monitor_simpl;
      [| apply files_kept_refl].
    destruct opened; monitor_simpl;
      match goal with
      | |- context [record_frames path ?o (S written) rest ?s1] =>
          pose proof (IH (S written) s1) as Hrest;
          destruct (record_frames path o (S written) rest s1) as [s2 [n|]]
      end; cbn [fst] in Hrest |- *; monitor_simpl_in Hrest;
      first [ exact Hrest
            | eapply files_kept_trans; [apply write_file_kept | exact Hrest] ].
Qed.

Lemma record_video_files (w : video_world) (s : JarvisMonitor) :
  files_kept (disk s) (disk (fst (record_video w s))).
Proof.
  unfold record_video. destruct s as [st en la ls lv cw d dk tr].
  destruct (mss_enter w) as [[]|]; py_unfold; monitor_simpl;
    [| apply files_kept_refl].
  destruct (monitors_1 w) as [monitor|]; py_unfold; monitor_simpl;
    [| apply files_kept_refl].
  destruct (VideoWriter w) as [opened|]; py_unfold; monitor_simpl;
    [| apply files_kept_refl].
  destruct opened; monitor_simpl;
    match goal with
    | |- context [record_frames ?p ?o 0%nat (rec_frames w) ?s1] =>
        pose proof (record_frames_files p o (rec_frames w) 0%nat s1) as Hf;
        destruct (record_frames p o 0%nat (rec_frames w) s1) as [s2 [n|]]
    end; cbn [fst] in Hf; monitor_simpl_in Hf;
    (assert (Hs2 : files_kept dk (disk s2))
       by first [ exact Hf
                | eapply files_kept_trans; [apply write_file_kept | exact Hf] ]);
    monitor_simpl; try exact Hs2;
    (destruct (out_release w) as [[]|]; py_unfold; monitor_simpl; [| exact Hs2]);
    (destruct (rec_store w) as [[]|]; py_unfold; monitor_simpl;
     try (destruct (mss_exit w) as [[]|]; py_unfold; monitor_simpl));
    first [ exact Hs2
          | eapply files_kept_trans; [exact Hs2 | apply write_file_kept] ].
Qed.

Lemma monitor_videos_turn_files (w : videos_world) (s : JarvisMonitor) :
  files_kept (disk s) (disk (fst (monitor_videos_turn w s))).
Proof.
  destruct (monitoring_enabled s) eqn:Hon.
  - destruct (Z_gt_le_dec (dt_sub (vid_now w) (last_video s)) (seconds VIDEO_INTERVAL))
      as [Hdue|Hnot].
    + rewrite (monitor_videos_turn_due w s Hon Hdue). cbn [fst].
      pose proof (record_video_files (vid_record w) s) as Hf.
      destruct (fst (record_video (vid_record w) s)). exact Hf.
    + rewrite (monitor_videos_turn_not_due w s Hon Hnot).
      destruct s; apply files_kept_refl.
  - rewrite (monitor_videos_turn_disabled w s Hon). destruct s; apply files_kept_refl.
Qed.

Lemma monitor_activities_turn_files (w : activity_world) (s : JarvisMonitor) :
  files_kept (disk s) (disk (fst (monitor_activities_turn w s))).
Proof.
  destruct (monitoring_enabled s) eqn:Hon.
  2:{ rewrite (monitor_activities_turn_disabled w s Hon).
      destruct s; apply files_kept_refl. }
  destruct (after_check_frame w s) as (_ & _ & _ & _ & _ & Hdk & _).
  destruct (screenshot_due w s) eqn:Hdue.
  2:{ rewrite (monitor_activities_turn_idle w s Hon Hdue). rewrite <- Hdk.
      destruct (after_check w s); apply files_kept_refl. }
  pose proof (capture_screenshot_files OCR_ENABLED (act_shot w) (after_check w s))
    as Hfiles.
  rewrite Hdk in Hfiles.
  assert (Hdisk : disk (fst (monitor_activities_turn w s))
                  = disk (fst (capture_screenshot_when OCR_ENABLED (act_shot w)
                                 (after_check w s)))).
  { destruct (capture_screenshot_effect OCR_ENABLED (act_shot w) (after_check w s))
      as (d & evs & path & b64 & ocr & Hcap & _).
    unfold screenshot_due, inactive_time, since_screenshot in Hdue.
    destruct (after_check_frame w s) as (_ & _ & Hls & _).
    rewrite <- Hls in Hdue.
    apply andb_true_iff in Hdue. destruct Hdue as [Hidle Hint].
    unfold monitor_activities_turn.
    unfold try_except, bind at 1. unfold gets at 1. rewrite Hon. cbn [negb].
    unfold bind at 1.
    destruct (check_activity_effect (act_window w) (act_changed_at w) s)
      as (b & p & Hrun & _).
    rewrite Hrun. fold (after_check w s).
    unfold bind at 1. unfold bind at 1. unfold gets at 1.
    rewrite Hidle.
    unfold bind at 1. unfold gets at 1. rewrite Hint.
    unfold bind at 1. unfold capture_screenshot. rewrite Hcap.
    destruct (truthy b64); [destruct (act_store w) as [[]|] |];
      py_unfold; destruct (after_check w s); reflexivity. }
  rewrite Hdisk. exact Hfiles.
Qed.

Lemma run_step_files (e : step) (s : JarvisMonitor) :
  files_kept (disk s) (disk (run_step e s)).
Proof.
  destruct e as [w|w|w|]; cbn [run_step].
  - apply monitor_activities_turn_files.
  - destruct (monitor_system_turn_shape w s) as (tr & ms & Hrun & _).
    rewrite Hrun. apply files_kept_refl.
  - apply monitor_videos_turn_files.
  - destruct s; apply files_kept_refl.
Qed.

Lemma run_step_videos_on_disk (e : step) (s : JarvisMonitor) :
  writer_speaks e -> videos_on_disk s -> videos_on_disk (run_step e s).
Proof.
  intros Hspeaks Hinv.
  assert (Hold : videos (db (run_step e s)) = videos (db s) -> videos_on_disk (run_step e s)).
  { intros Hsame r Hr. rewrite Hsame in Hr. apply run_step_files. exact (Hinv r Hr). }
  destruct e as [w|w|w|].
  - apply Hold. destruct (run_step_shape (ActivitiesTurn w) s)
      as (tr & dk & cw & la & lshot & lv & ms & acts & vs & Hstep & _ & Hvid & _).
    destruct (Hvid eq_refl) as (_ & ->). rewrite Hstep. cbn. apply app_nil_r.
  - apply Hold. destruct (run_step_shape (SystemTurn w) s)
      as (tr & dk & cw & la & lshot & lv & ms & acts & vs & Hstep & _ & Hvid & _).
    destruct (Hvid eq_refl) as (_ & ->). rewrite Hstep. cbn. apply app_nil_r.
  - cbn [writer_speaks] in Hspeaks.
    destruct (monitoring_enabled s) eqn:Hon.
    + destruct (Z_gt_le_dec (dt_sub (vid_now w) (last_video s)) (seconds VIDEO_INTERVAL))
        as [Hdue|Hnot].
      * destruct (record_video_effect (vid_record w) s)
          as (d & pre & post & r0 & Hrun & _ & _ & _ & Hfile & _).
        pose proof (record_video_files (vid_record w) s) as Hkept.
        cbn [run_step] in Hold |- *.
        rewrite (monitor_videos_turn_due w s Hon Hdue) in Hold |- *.
        rewrite Hrun in Hold, Hkept |- *. cbn [fst] in Hold, Hkept |- *.
        destruct (row_stored (vid_record w)) eqn:Hrow.
        -- assert (Hdone : encode_completes (vid_record w) = true).
           { apply row_stored_iff in Hrow. destruct Hrow as [Hcalls _].
             unfold encode_completes. rewrite Hcalls. cbn [andb].
             unfold calls_return in Hcalls. unfold writer_opens.
             destruct (mss_enter (vid_record w)); [| discriminate].
             destruct (monitors_1 (vid_record w)); [| discriminate].
             destruct (VideoWriter (vid_record w)) as [[|]|];
               [reflexivity | | discriminate].
             exfalso. apply Hspeaks. reflexivity. }
           intros r Hr. destruct s as [st en la ls lv cw [m a v] dk tr].
           cbn in Hr, Hkept |- *. apply in_app_or in Hr. destruct Hr as [Hr|[<-|[]]].
           ++ apply Hkept. exact (Hinv r Hr).
           ++ exists (Mp4File (List.length (rec_frames (vid_record w))) true).
              apply Hfile. exact Hdone.
        -- apply Hold. destruct s; reflexivity.
      * apply Hold. cbn [run_step].
        rewrite (monitor_videos_turn_not_due w s Hon Hnot). destruct s; reflexivity.
    + apply Hold. cbn [run_step].
      rewrite (monitor_videos_turn_disabled w s Hon). destruct s; reflexivity.
  - apply Hold. destruct s; reflexivity.
Qed.

(** X17. The engine never removes a file: over any sequence of turns and
    toggle requests every path present in the artifact directories stays
    present (a path may be written again).  As long as no video writer fails
    in silence, the [videos] table stays consistent with the disk: if every
    row named an existing file before, every row does after, the rows added
    included.  A writer that is returned without being opened breaks this:
    nothing raises, the row is committed, and the disk is as it was, so the
    row names a file that is not there unless one was there before. *)
Theorem files_outlive_their_rows (steps : list step) (s : JarvisMonitor) :
  files_kept (disk s) (disk (run steps s))
  /\ (Forall writer_speaks steps -> videos_on_disk s -> videos_on_disk (run steps s))
  /\ (forall w,
        calls_return w = true -> writer_opens w = false ->
        rec_store w = Returned tt ->
        let s' := fst (record_video w s) in
        videos (db s')
        = videos (db s) ++ [mk_video_row (isoformat (rec_row_now w)) 10 (video_path w)]
        /\ disk s' = disk s
        /\ (~ has_file (disk s) (video_path w) -> ~ videos_on_disk s')).
Proof.
  split; [| split].
  - revert s. induction steps as [|e rest IH]; intros s.
    + apply files_kept_refl.
    + rewrite run_cons.
      eapply files_kept_trans; [apply run_step_files | apply IH].
  - intros Hspeak. revert s. induction Hspeak as [|e rest He _ IH]; intros s H.
    + exact H.
    + rewrite run_cons. apply IH, run_step_videos_on_disk; assumption.
  - intros w Hcalls Hopen Hstore s'. subst s'.
    destruct (record_video_effect w s)
      as (d & pre & post & r & Hrun & _ & _ & _ & _ & Hdisk & _).
    assert (Hrow : row_stored w = true) by (apply row_stored_iff; auto).
    rewrite Hrun, Hrow, (Hdisk Hopen). cbn [fst].
    assert (Hvid : videos (db (set_trace
                                 (trace s ++ pre ++ [EvReleaseWriter; EvCommit "videos"]
                                  ++ post)
                                 (set_disk (disk s)
                                    (set_db (add_video (video_record w) (db s)) s))))
                   = videos (db s)
                     ++ [mk_video_row (isoformat (rec_row_now w)) 10 (video_path w)])
      by (destruct s; reflexivity).
    split; [exact Hvid |]. split; [destruct s; reflexivity |].
    intros Hmissing Hinv. apply Hmissing.
    specialize (Hinv (mk_video_row (isoformat (rec_row_now w)) 10 (video_path w))).
    rewrite Hvid in Hinv.
    assert (Hin : has_file
                    (disk (set_trace
                             (trace s ++ pre ++ [EvReleaseWriter; EvCommit "videos"]
                              ++ post)
                             (set_disk (disk s)
                                (set_db (add_video (video_record w) (db s)) s))))
                    (video_path w)).
    { apply Hinv. apply in_or_app. right. left. reflexivity. }
    destruct s; exact Hin.
Qed.

Lemma files_outlive_their_rows_witness :
  (Forall writer_speaks [VideosTurn first_recording_turn; ActivitiesTurn first_turn]
   /\ videos_on_disk fresh_monitor)
  /\ videos_on_disk (run [VideosTurn first_recording_turn;
                          ActivitiesTurn first_turn] fresh_monitor).
Proof.
  assert (H : videos_on_disk fresh_monitor) by (intros r []).
  assert (Hspeak : Forall writer_speaks
                     [VideosTurn first_recording_turn; ActivitiesTurn first_turn]).
  { repeat constructor. intros Hno. discriminate Hno. }
  split; [split; [exact Hspeak | exact H] |].
  apply (proj1 (proj2 (files_outlive_their_rows
                         [VideosTurn first_recording_turn; ActivitiesTurn first_turn]
                         fresh_monitor))).
  - exact Hspeak.
  - exact H.
Defined.

(** The writer is returned without being opened: the clip is "recorded", its
    row is stored and its path returned, and no file exists under it. *)
Example unopened_recording_leaves_row :
  let s' := fst (record_video unopened_recording fresh_monitor) in
  snd (record_video unopened_recording fresh_monitor)
  = Returned (Some "JARVIS_DATA/videos/recording_20240301_093001.mp4")
  /\ videos (db s')
     = [mk_video_row "2024-03-01T09:30:02" 10
          "JARVIS_DATA/videos/recording_20240301_093001.mp4"]
  /\ disk s' = [].
Proof. vm_compute. repeat split. Qed.

(** ** Timestamps as text *)

Lemma compare_refl (s : string) : String.compare s s = Eq.
Proof. apply OrderedTypeEx.String_as_OT.cmp_eq. reflexivity. Qed.

Lemma compare_append_same_length (a b x y : string) :
  String.length a = String.length b ->
  String.compare (a ++ x) (b ++ y)
  = match String.compare a b with
    | Eq => String.compare x y
    | c => c
    end.
Proof.
  revert b. induction a as [|c a IH]; intros [|d b] Hlen; try discriminate.
  - reflexivity.
  - cbn [append String.compare]. cbn in Hlen.
    destruct (Ascii.compare c d); try reflexivity.
    apply IH. lia.
Qed.

Lemma compare_append_same_prefix (a x y : string) :
  String.compare (a ++ x) (a ++ y) = String.compare x y.
Proof.
  rewrite compare_append_same_length by reflexivity.
  rewrite compare_refl. reflexivity.
Qed.

Lemma string_lt_trans (a b c : string) :
  String.compare a b = Lt -> String.compare b c = Lt -> String.compare a c = Lt.
Proof.
  intros H1 H2.
  apply OrderedTypeEx.String_as_OT.cmp_lt in H1, H2.
  apply OrderedTypeEx.String_as_OT.cmp_lt.
  exact (OrderedTypeEx.String_as_OT.lt_trans _ _ _ H1 H2).
Qed.

Lemma below_in (n : nat) (i : Z) : 0 <= i < Z.of_nat n -> In i (below n).
Proof.
  intros H. unfold below. apply in_map_iff. exists (Z.to_nat i).
  split; [lia |]. apply in_seq. lia.
Qed.

Section PaddedOrder.

Variables (width n : nat).
Hypothesis Hgrows : padded_grows width n = true.

Lemma padded_step (i : Z) :
  0 <= i < Z.of_nat n ->
  String.length (zero_pad width i) = width
  /\ String.length (zero_pad width (i + 1)) = width
  /\ String.compare (zero_pad width i) (zero_pad width (i + 1)) = Lt.
Proof.
  intros Hi. unfold padded_grows in Hgrows. rewrite forallb_forall in Hgrows.
  specialize (Hgrows i (below_in n i Hi)).
  apply andb_true_iff in Hgrows. destruct Hgrows as [Hlen Hlt].
  apply andb_true_iff in Hlen. destruct Hlen as [Hlen Hlen'].
  split; [apply Nat.eqb_eq; exact Hlen |].
  split; [apply Nat.eqb_eq; exact Hlen' |].
  unfold String.ltb in Hlt.
  destruct (String.compare (zero_pad width i) (zero_pad width (i + 1)));
    [discriminate | reflexivity | discriminate].
Qed.

Lemma padded_length (x : Z) :
  (0 < n)%nat -> 0 <= x <= Z.of_nat n ->
  String.length (zero_pad width x) = width.
Proof.
  intros Hn Hx. destruct (Z.eq_dec x (Z.of_nat n)) as [->|Hne].
  - replace (Z.of_nat n) with (Z.of_nat n - 1 + 1) by lia.
    apply padded_step. lia.
  - apply padded_step. lia.
Qed.

Lemma padded_lt (x : Z) (k : nat) :
  0 <= x -> x + Z.of_nat k < Z.of_nat n ->
  String.compare (zero_pad width x) (zero_pad width (x + Z.of_nat (S k))) = Lt.
Proof.
  intros Hx. induction k as [|k IH]; intros Hk.
  - apply padded_step. lia.
  - apply string_lt_trans with (zero_pad width (x + Z.of_nat (S k))).
    + apply IH. lia.
    + replace (x + Z.of_nat (S (S k))) with (x + Z.of_nat (S k) + 1) by lia.
      apply padded_step. lia.
Qed.

Lemma padded_compare (x y : Z) :
  0 <= x <= Z.of_nat n -> 0 <= y <= Z.of_nat n ->
  String.compare (zero_pad width x) (zero_pad width y) = (x ?= y).
Proof.
  intros Hx Hy. destruct (Z.compare_spec x y) as [->|Hlt|Hgt].
  - apply compare_refl.
  - replace y with (x + Z.of_nat (S (Z.to_nat (y - x - 1)))) by lia.
    apply padded_lt; lia.
  - rewrite String.compare_antisym.
    replace x with (y + Z.of_nat (S (Z.to_nat (x - y - 1)))) by lia.
    rewrite padded_lt by lia. reflexivity.
Qed.

End PaddedOrder.

Lemma two_digits_grow : padded_grows 2 (Z.to_nat 99) = true.
Proof. vm_compute. reflexivity. Qed.

Lemma four_digits_grow : padded_grows 4 (Z.to_nat 9999) = true.
Proof. vm_compute. reflexivity. Qed.

Lemma two_digits (x y : Z) :
  0 <= x <= 99 -> 0 <= y <= 99 ->
  String.length (zero_pad 2 x) = 2%nat
  /\ String.length (zero_pad 2 y) = 2%nat
  /\ String.compare (zero_pad 2 x) (zero_pad 2 y) = (x ?= y).
Proof.
  intros Hx Hy.
  split; [apply (padded_length 2 (Z.to_nat 99) two_digits_grow); lia |].
  split; [apply (padded_length 2 (Z.to_nat 99) two_digits_grow); lia |].
  apply (padded_compare 2 (Z.to_nat 99) two_digits_grow); lia.
Qed.

Lemma four_digits (x y : Z) :
  0 <= x <= 9999 -> 0 <= y <= 9999 ->
  String.length (zero_pad 4 x) = 4%nat
  /\ String.length (zero_pad 4 y) = 4%nat
  /\ String.compare (zero_pad 4 x) (zero_pad 4 y) = (x ?= y).
Proof.
  intros Hx Hy.
  split; [apply (padded_length 4 (Z.to_nat 9999) four_digits_grow); lia |].
  split; [apply (padded_length 4 (Z.to_nat 9999) four_digits_grow); lia |].
  apply (padded_compare 4 (Z.to_nat 9999) four_digits_grow); lia.
Qed.

Lemma four_digit_years_below (n : nat) (i : Z) :
  four_digit_years n = true -> 0 <= i < Z.of_nat n ->
  zero_pad 1 (i + 1000) = zero_pad 4 (i + 1000).
Proof.
  intros Hall Hi. unfold four_digit_years in Hall. rewrite forallb_forall in Hall.
  apply String.eqb_eq. apply Hall. apply below_in. exact Hi.
Qed.

Lemma four_digit_years_agree : four_digit_years (Z.to_nat 9000) = true.
Proof. vm_compute. reflexivity. Qed.

Lemma unpadded_year (y : Z) : 1000 <= y <= 9999 -> zero_pad 1 y = zero_pad 4 y.
Proof.
  intros H. replace y with (y - 1000 + 1000) by lia.
  apply (four_digit_years_below (Z.to_nat 9000) (y - 1000) four_digit_years_agree).
  lia.
Qed.

Lemma strftime_compact_compare (pads : bool) (a b : datetime) :
  valid_datetime a -> valid_datetime b ->
  pads = true \/ (1000 <= year a /\ 1000 <= year b) ->
  String.compare (strftime_compact pads a) (strftime_compact pads b)
  = compare_fields a b.
Proof.
  intros Ha Hb Hpad.
  assert (Hy : zero_pad (if pads then 4 else 1) (year a) = zero_pad 4 (year a)
               /\ zero_pad (if pads then 4 else 1) (year b) = zero_pad 4 (year b)).
  { destruct pads; [split; reflexivity |].
    destruct Hpad as [H|[H1 H2]]; [discriminate |].
    destruct Ha as ((_ & Ha) & _), Hb as ((_ & Hb) & _).
    split; apply unpadded_year; lia. }
  destruct Hy as [Hya Hyb].
  destruct Ha as (Hy & Hm & Hd & Hh & Hmi & Hs & _).
  destruct Hb as (Hy' & Hm' & Hd' & Hh' & Hmi' & Hs' & _).
  assert (Hdim : forall y m, days_in_month y m <= 31).
  { intros y m. unfold days_in_month.
    destruct (Z.to_nat (m - 1)) as [|[|[|[|[|[|[|[|[|[|[|[|k]]]]]]]]]]]];
      cbn [nth]; try lia; destruct (is_leap y); try lia; destruct k; cbn; lia. }
  pose proof (Hdim (year a) (month a)). pose proof (Hdim (year b) (month b)).
  destruct (four_digits (year a) (year b)) as (L1 & L1' & C1); try lia.
  destruct (two_digits (month a) (month b)) as (L2 & L2' & C2); try lia.
  destruct (two_digits (day a) (day b)) as (L3 & L3' & C3); try lia.
  destruct (two_digits (hour a) (hour b)) as (L4 & L4' & C4); try lia.
  destruct (two_digits (minute a) (minute b)) as (L5 & L5' & C5); try lia.
  destruct (two_digits (second a) (second b)) as (L6 & L6' & C6); try lia.
  unfold strftime_compact, compare_fields. rewrite Hya, Hyb.
  rewrite compare_append_same_length, C1 by congruence.
  destruct (year a ?= year b); try reflexivity.
  rewrite compare_append_same_length, C2 by congruence.
  destruct (month a ?= month b); try reflexivity.
  rewrite compare_append_same_length, C3 by congruence.
  destruct (day a ?= day b); try reflexivity.
  rewrite compare_append_same_prefix.
  rewrite compare_append_same_length, C4 by congruence.
  destruct (hour a ?= hour b); try reflexivity.
  rewrite compare_append_same_length, C5 by congruence.
  destruct (minute a ?= minute b); try reflexivity.
  exact C6.
Qed.

Lemma isoformat_compare (a b : datetime) :
  valid_datetime a -> valid_datetime b ->
  compare_fields a b <> Eq ->
  String.compare (isoformat a) (isoformat b) = compare_fields a b.
Proof.
  intros (Hy & Hm & Hd & Hh & Hmi & Hs & _) (Hy' & Hm' & Hd' & Hh' & Hmi' & Hs' & _).
  assert (Hdim : forall y m, days_in_month y m <= 31).
  { intros y m. unfold days_in_month.
    destruct (Z.to_nat (m - 1)) as [|[|[|[|[|[|[|[|[|[|[|[|k]]]]]]]]]]]];
      cbn [nth]; try lia; destruct (is_leap y); try lia; destruct k; cbn; lia. }
  pose proof (Hdim (year a) (month a)). pose proof (Hdim (year b) (month b)).
  destruct (four_digits (year a) (year b)) as (L1 & L1' & C1); try lia.
  destruct (two_digits (month a) (month b)) as (L2 & L2' & C2); try lia.
  destruct (two_digits (day a) (day b)) as (L3 & L3' & C3); try lia.
  destruct (two_digits (hour a) (hour b)) as (L4 & L4' & C4); try lia.
  destruct (two_digits (minute a) (minute b)) as (L5 & L5' & C5); try lia.
  destruct (two_digits (second a) (second b)) as (L6 & L6' & C6); try lia.
  unfold isoformat, compare_fields.
  rewrite compare_append_same_length, C1 by congruence.
  destruct (year a ?= year b); try reflexivity.
  rewrite compare_append_same_prefix.
  rewrite compare_append_same_length, C2 by congruence.
  destruct (month a ?= month b); try reflexivity.
  rewrite compare_append_same_prefix.
  rewrite compare_append_same_length, C3 by congruence.
  destruct (day a ?= day b); try reflexivity.
  rewrite compare_append_same_prefix.
  rewrite compare_append_same_length, C4 by congruence.
  destruct (hour a ?= hour b); try reflexivity.
  rewrite compare_append_same_prefix.
  rewrite compare_append_same_length, C5 by congruence.
  destruct (minute a ?= minute b); try reflexivity.
  rewrite compare_append_same_prefix.
  rewrite compare_append_same_length, C6 by congruence.
  destruct (second a ?= second b); try reflexivity.
  intros Hne. contradiction.
Qed.

(** ** The calendar *)

Lemma month_cases (m : Z) :
  1 <= m <= 12 ->
  m = 1 \/ m = 2 \/ m = 3 \/ m = 4 \/ m = 5 \/ m = 6
  \/ m = 7 \/ m = 8 \/ m = 9 \/ m = 10 \/ m = 11 \/ m = 12.
Proof. lia. Qed.

Ltac each_month H :=
  destruct (month_cases _ H) as [->|[->|[->|[->|[->|[->|[->|[->|[->|[->|[->| ->]]]]]]]]]]].

(** Evaluates the month tables once month and leap year are known. *)
Ltac table_values :=
  repeat match goal with
    | |- context [nth ?n ?l ?d] =>
        let v := eval vm_compute in (nth n l d) in change (nth n l d) with v
    | H : context [nth ?n ?l ?d] |- _ =>
        let v := eval vm_compute in (nth n l d) in change (nth n l d) with v in H
    | |- context [if ?c then ?a else ?b] =>
        let v := eval vm_compute in (if c then a else b) in
        change (if c then a else b) with v
    end.

Lemma day_of_year_bounds (y m d : Z) :
  1 <= m <= 12 -> 1 <= d <= days_in_month y m ->
  1 <= days_before_month y m + d <= 365 + (if is_leap y then 1 else 0).
Proof.
  intros Hm Hd. unfold days_before_month, days_in_month in *.
  each_month Hm; destruct (is_leap y); table_values; lia.
Qed.

Lemma day_of_year_mono (y m d m' d' : Z) :
  1 <= m <= 12 -> 1 <= m' <= 12 -> m < m' ->
  1 <= d <= days_in_month y m -> 1 <= d' ->
  days_before_month y m + d < days_before_month y m' + d'.
Proof.
  intros Hm Hm' Hlt Hd Hd'. unfold days_before_month, days_in_month in *.
  each_month Hm; each_month Hm'; try lia; destruct (is_leap y);
    table_values; lia.
Qed.

Lemma days_before_year_succ (y : Z) :
  days_before_year (y + 1)
  = days_before_year y + 365 + (if is_leap y then 1 else 0).
Proof.
  unfold days_before_year, is_leap. replace (y + 1 - 1) with y by lia.
  destruct (Z.eqb_spec (y mod 4) 0), (Z.eqb_spec (y mod 100) 0),
    (Z.eqb_spec (y mod 400) 0); cbn [andb orb negb];
    Z.div_mod_to_equations; lia.
Qed.

Lemma days_before_year_mono (y y' : Z) :
  y <= y' -> days_before_year y <= days_before_year y'.
Proof.
  intros H. unfold days_before_year. Z.div_mod_to_equations. lia.
Qed.

Lemma compare_fields_lt_seconds (a b : datetime) :
  valid_datetime a -> valid_datetime b ->
  compare_fields a b = Lt -> to_seconds a < to_seconds b.
Proof.
  intros (Hy & Hm & Hd & Hh & Hmi & Hs & _) (Hy' & Hm' & Hd' & Hh' & Hmi' & Hs' & _).
  unfold compare_fields, to_seconds, toordinal.
  pose proof (day_of_year_bounds (year a) (month a) (day a) Hm Hd) as Ba.
  pose proof (day_of_year_bounds (year b) (month b) (day b) Hm' Hd') as Bb.
  destruct (Z.compare_spec (year a) (year b)) as [Ey|Ly|Gy]; try discriminate.
  2:{ intros _.
      pose proof (days_before_year_succ (year a)) as Hsucc.
      pose proof (days_before_year_mono (year a + 1) (year b)) as Hmono.
      specialize (Hmono ltac:(lia)). lia. }
  rewrite Ey in *.
  destruct (Z.compare_spec (month a) (month b)) as [Em|Lm|Gm]; try discriminate.
  2:{ intros _.
      pose proof (day_of_year_mono (year b) (month a) (day a) (month b) (day b)
                    Hm Hm' Lm Hd ltac:(lia)).
      lia. }
  rewrite Em in *.
  destruct (Z.compare_spec (day a) (day b)) as [Ed|Ld|Gd]; try discriminate;
    [| intros _; lia].
  destruct (Z.compare_spec (hour a) (hour b)) as [Eh|Lh|Gh]; try discriminate;
    [| intros _; lia].
  destruct (Z.compare_spec (minute a) (minute b)) as [Emi|Lmi|Gmi]; try discriminate;
    [| intros _; lia].
  intros Hsec. rewrite Z.compare_lt_iff in Hsec. lia.
Qed.

Lemma compare_fields_antisym (a b : datetime) :
  compare_fields a b = CompOpp (compare_fields b a).
Proof.
  unfold compare_fields.
  rewrite (Z.compare_antisym (year a) (year b)).
  rewrite (Z.compare_antisym (month a) (month b)).
  rewrite (Z.compare_antisym (day a) (day b)).
  rewrite (Z.compare_antisym (hour a) (hour b)).
  rewrite (Z.compare_antisym (minute a) (minute b)).
  rewrite (Z.compare_antisym (second a) (second b)).
  destruct (year a ?= year b), (month a ?= month b), (day a ?= day b),
    (hour a ?= hour b), (minute a ?= minute b), (second a ?= second b);
    reflexivity.
Qed.

Lemma compare_fields_eq_seconds (a b : datetime) :
  compare_fields a b = Eq -> to_seconds a = to_seconds b.
Proof.
  unfold compare_fields, to_seconds, toordinal.
  destruct (Z.compare_spec (year a) (year b)) as [Ey|Ly|Gy]; try discriminate.
  destruct (Z.compare_spec (month a) (month b)) as [Em|Lm|Gm]; try discriminate.
  destruct (Z.compare_spec (day a) (day b)) as [Ed|Ld|Gd]; try discriminate.
  destruct (Z.compare_spec (hour a) (hour b)) as [Eh|Lh|Gh]; try discriminate.
  destruct (Z.compare_spec (minute a) (minute b)) as [Emi|Lmi|Gmi]; try discriminate.
  intros Hs. rewrite Z.compare_eq_iff in Hs. congruence.
Qed.

Lemma compare_fields_seconds (a b : datetime) :
  valid_datetime a -> valid_datetime b ->
  compare_fields a b = (to_seconds a ?= to_seconds b).
Proof.
  intros Ha Hb. destruct (compare_fields a b) eqn:E.
  - symmetry. apply Z.compare_eq_iff. apply compare_fields_eq_seconds. exact E.
  - symmetry. apply Z.compare_lt_iff. apply compare_fields_lt_seconds; assumption.
  - symmetry. apply Z.compare_gt_iff.
    apply compare_fields_lt_seconds; try assumption.
    rewrite compare_fields_antisym, E. reflexivity.
Qed.

Lemma seconds_apart (a b : datetime) :
  valid_datetime a -> valid_datetime b ->
  dt_sub b a >= seconds 1 -> to_seconds a < to_seconds b.
Proof.
  intros (_ & _ & _ & _ & _ & _ & Hus) (_ & _ & _ & _ & _ & _ & Hus').
  unfold dt_sub, seconds, to_microseconds. fold (to_seconds a). fold (to_seconds b).
  lia.
Qed.

Lemma isoformat_later (a b : datetime) :
  valid_datetime a -> valid_datetime b ->
  dt_sub b a >= seconds 1 ->
  String.ltb (isoformat a) (isoformat b) = true.
Proof.
  intros Ha Hb Hapart.
  pose proof (seconds_apart a b Ha Hb Hapart) as Hlt.
  assert (Hc : compare_fields a b = Lt).
  { rewrite (compare_fields_seconds a b Ha Hb). apply Z.compare_lt_iff. exact Hlt. }
  unfold String.ltb. rewrite (isoformat_compare a b Ha Hb); rewrite Hc;
    [reflexivity | discriminate].
Qed.

(** X18. Text order follows time.  For two datetimes Python can build, a
    second or more apart, the ISO timestamp of the later one is the greater
    text.  The compact stamps used in the file names compare as the times
    do, second by second (equal exactly when the times fall in the same
    second), on a host whose [strftime] pads the year, and on any host for
    the years from 1000 on; so there the descending sorts of the history
    query and of the media list are sorts by time.  Without the padding the
    stamps of the years below 1000 fall out of order: the stamp of the last
    second of 999 is a greater text than that of the first second of 1000. *)
Theorem timestamp_text_follows_time (pads : bool) (a b : datetime) :
  valid_datetime a -> valid_datetime b ->
  (dt_sub b a >= seconds 1 -> String.ltb (isoformat a) (isoformat b) = true)
  /\ (pads = true \/ (1000 <= year a /\ 1000 <= year b) ->
      String.compare (strftime_compact pads a) (strftime_compact pads b)
      = (to_seconds a ?= to_seconds b)
      /\ (dt_sub b a >= seconds 1 ->
          String.ltb (strftime_compact pads a) (strftime_compact pads b) = true))
  /\ (dt_sub year_1000 year_999 = seconds 1
      /\ String.ltb (strftime_compact false year_1000)
           (strftime_compact false year_999) = true).
Proof.
  intros Ha Hb.
  split; [intros Hapart; apply isoformat_later; assumption |].
  split; [| split; reflexivity].
  intros Hpad.
  assert (Hc : String.compare (strftime_compact pads a) (strftime_compact pads b)
               = (to_seconds a ?= to_seconds b)).
  { rewrite (strftime_compact_compare pads a b Ha Hb Hpad).
    apply compare_fields_seconds; assumption. }
  split; [exact Hc |]. intros Hapart.
  unfold String.ltb. rewrite Hc.
  pose proof (seconds_apart a b Ha Hb Hapart) as Hlt.
  apply Z.compare_lt_iff in Hlt. rewrite Hlt. reflexivity.
Qed.

Lemma timestamp_text_follows_time_witness :
  String.ltb (isoformat at_9_00_30) (isoformat at_9_01_10) = true
  /\ String.ltb (strftime_compact false at_9_00_30)
       (strftime_compact false at_9_01_10) = true.
Proof.
  destruct (timestamp_text_follows_time false at_9_00_30 at_9_01_10)
    as (Hiso & Hstamp & _).
  - unfold valid_datetime. vm_compute. intuition discriminate.
  - unfold valid_datetime. vm_compute. intuition discriminate.
  - split; [apply Hiso; vm_compute; discriminate |].
    destruct Hstamp as [_ H]; [right; vm_compute; split; discriminate |].
    apply H. vm_compute. discriminate.
Defined.

Lemma run_step_history_in_order (e : step) (s : JarvisMonitor) :
  valid_clock e -> history_in_order s -> history_in_order (run_step e s).
Proof.
  intros Hclock (Hactive & Hsorted & Hstamps).
  assert (Hsame : activities (db (run_step e s)) = activities (db s) ->
                  last_screenshot (run_step e s) = last_screenshot s ->
                  history_in_order (run_step e s)).
  { intros Ha Hl. unfold history_in_order. rewrite Ha, Hl. auto. }
  destruct e as [w|w|w|].
  2,3,4: (match goal with
          | |- history_in_order (run_step ?e ?s0) =>
              destruct (run_step_shape e s0)
                as (tr & dk & cw & la & lshot & lv & ms & acts & vs
                    & Hstep & Hact & _)
          end;
          destruct (Hact eq_refl) as (_ & _ & -> & ->);
          apply Hsame; rewrite Hstep; cbn; rewrite ?app_nil_r; reflexivity).
  cbn [valid_clock] in Hclock. cbn [run_step] in *.
  destruct (monitoring_enabled s) eqn:Hon.
  2:{ apply Hsame; rewrite (monitor_activities_turn_disabled w s Hon);
        destruct s; reflexivity. }
  destruct (monitor_activities_turn_cases w s Hon)
    as [(Hc & (b64 & ocr & Hdb) & Hls) | (_ & Hdb & Hls)].
  2:{ apply Hsame; [rewrite Hdb; reflexivity | exact Hls]. }
  apply snapshot_stored_iff in Hc. destruct Hc as [Hdue _].
  apply screenshot_due_iff in Hdue. destruct Hdue as [_ Hint].
  unfold since_screenshot, dt_sub, seconds, SCREENSHOT_INTERVAL_ACTIVE in Hint.
  set (r := activity_record (act_now w) (current_window (after_check w s)) b64 ocr)
    in Hdb.
  assert (Hnewer : Forall (fun x => String.ltb (a_timestamp x) (a_timestamp r) = true)
                     (activities (db s))).
  { rewrite Forall_forall in Hstamps |- *. intros x Hx.
    destruct (Hstamps x Hx) as (t & Ht & Hts & Hle).
    rewrite Hts. cbn [r activity_record a_timestamp].
    apply isoformat_later; [exact Ht | exact Hclock |].
    unfold dt_sub, seconds. lia. }
  unfold history_in_order. rewrite Hdb, Hls. unfold add_activity. cbn [activities].
  split; [| split].
  - apply Forall_app. split; [exact Hactive |]. constructor; [reflexivity | constructor].
  - rewrite (order_by_timestamp_desc_newest r _ Hnewer), Hsorted, rev_app_distr.
    reflexivity.
  - apply Forall_app. split.
    + rewrite Forall_forall in Hstamps |- *. intros x Hx.
      destruct (Hstamps x Hx) as (t & Ht & Hts & Hle).
      exists t. split; [exact Ht |]. split; [exact Hts | lia].
    + constructor; [| constructor].
      exists (act_now w). split; [exact Hclock |]. split; [reflexivity | lia].
Qed.

Lemma run_history_in_order (steps : list step) :
  Forall valid_clock steps ->
  forall s, history_in_order s -> history_in_order (run steps s).
Proof.
  induction 1 as [|e rest He _ IH]; intros s Hs; [exact Hs |].
  rewrite run_cons. apply IH. apply run_step_history_in_order; assumption.
Qed.

(** X19. The history shows the latest snapshots, latest first.  Starting
    from an empty [activities] table, after any sequence of turns and toggle
    requests in which the activity loop reads valid datetimes, the table is in
    ascending order of its timestamps, and the history query (its [SELECT]
    being answered) answers with the last ten rows written, the most recently
    written first. *)
Theorem history_is_last_ten_written (steps : list step) (s : JarvisMonitor) :
  Forall valid_clock steps ->
  activities (db s) = [] ->
  let s' := run steps s in
  get_activity_history (Returned tt) s'
  = (s', Returned (map history_entry_of (firstn 10 (rev (activities (db s'))))))
  /\ order_by_timestamp_desc (activities (db s')) = rev (activities (db s')).
Proof.
  intros Hclock Hempty s'.
  assert (H0 : history_in_order s).
  { unfold history_in_order. rewrite Hempty. repeat split; constructor. }
  destruct (run_history_in_order steps Hclock s H0) as (Hactive & Hsorted & _).
  fold s' in Hactive, Hsorted. split; [| exact Hsorted].
  rewrite get_activity_history_answered. unfold select_recent_activities.
  rewrite (filter_active_rows _ Hactive), Hsorted. reflexivity.
Qed.

Lemma history_is_last_ten_written_witness :
  let s' := run [ActivitiesTurn first_turn; SystemTurn sample_readings;
                 ActivitiesTurn second_turn] fresh_monitor in
  get_activity_history (Returned tt) s'
  = (s', Returned (map history_entry_of (firstn 10 (rev (activities (db s'))))))
  /\ List.length (activities (db s')) = 2%nat.
Proof.
  intros s'. split; [| reflexivity].
  apply (history_is_last_ten_written
           [ActivitiesTurn first_turn; SystemTurn sample_readings;
            ActivitiesTurn second_turn] fresh_monitor).
  - repeat constructor; unfold valid_datetime; vm_compute; intuition discriminate.
  - reflexivity.
Defined.

(** ** While monitoring is off *)

(** X20. While monitoring is switched off the engine is at rest: over any
    number of turns of the three loops with no toggle request, nothing is
    captured or stored and no field of the monitor changes; each turn only
    sleeps one second, whatever the clocks, the probe and the capture
    devices would have answered. *)
Theorem paused_engine_only_sleeps (steps : list step) (s : JarvisMonitor) :
  monitoring_enabled s = false ->
  count_steps is_toggle steps = 0%nat ->
  run steps s
  = set_trace (trace s ++ repeat (EvSleep 1000) (List.length steps)) s.
Proof.
  revert s. induction steps as [|e rest IH]; intros s Hoff Hnone.
  - cbn. rewrite app_nil_r. destruct s; reflexivity.
  - unfold count_steps in Hnone. cbn [filter] in Hnone.
    destruct (is_toggle e) eqn:He; [discriminate |].
    assert (Hstep : run_step e s = set_trace (trace s ++ [EvSleep 1000]) s).
    { destruct e as [w|w|w|]; cbn [run_step]; try discriminate.
      - rewrite (monitor_activities_turn_disabled w s Hoff). reflexivity.
      - rewrite (monitor_system_turn_disabled w s Hoff). reflexivity.
      - rewrite (monitor_videos_turn_disabled w s Hoff). reflexivity. }
    rewrite run_cons, Hstep, IH.
    + destruct s; monitor_simpl. cbn [List.length repeat].
      rewrite <- app_assoc. reflexivity.
    + destruct s; exact Hoff.
    + exact Hnone.
Qed.

Lemma paused_engine_only_sleeps_witness :
  run [ActivitiesTurn first_turn; VideosTurn first_recording_turn;
       SystemTurn sample_readings] paused_monitor
  = set_trace (trace paused_monitor ++ [EvSleep 1000; EvSleep 1000; EvSleep 1000])
      paused_monitor.
Proof.
  apply (paused_engine_only_sleeps
           [ActivitiesTurn first_turn; VideosTurn first_recording_turn;
            SystemTurn sample_readings] paused_monitor); reflexivity.
Defined.
